(** * SEC filing parser: fact resolution and statement assembly

    A shallow embedding of [sec_parser/extractor.py], [sec_parser/models.py],
    [sec_parser/mappings.py] and the value path of
    [sec_parser/excel_exporter.py], with the properties of the resolver, the
    statement assemblers and the presentation rules proved over it; then of
    the filing list of [sec_parser/client.py], the metadata, the choice of
    the filing and of the period in [sec_parser/main.py], and the rows of
    the sheets of the workbook.

    Python values are modelled as they are at run time: observation fields are
    dynamically typed JSON scalars, floats are IEEE binary64 (Rocq's primitive
    floats), integers are unbounded, strings are 8-bit character strings (the
    payload's dates, forms and tags are ASCII), and an uncaught exception is an
    explicit [Raise] result. *)

From Stdlib Require Import ZArith Floats Ascii String Sorted Lia.
From stdpp Require Import gmap strings list sorting.

Set Warnings "-inexact-float".

Local Open Scope string_scope.
Local Open Scope list_scope.
Local Open Scope Z_scope.

(** ** Python run-time values *)

Module Py.

(** The exceptions the modelled code can meet. *)
Inductive exn : Type := ValueError | TypeError | OverflowError.

(** Outcome of a Python call: a value, or an exception on its way up. *)
Inductive Res (A : Type) : Type :=
| Ok (a : A)
| Raise (e : exn).
Arguments Ok {A} a.
Arguments Raise {A} e.

Definition bind {A B : Type} (r : Res A) (k : A -> Res B) : Res B :=
  match r with
  | Ok a => k a
  | Raise e => Raise e
  end.

(** A JSON scalar as [json.load] hands it over: [None], [bool], [int],
    [float] or [str]. *)
Inductive PyVal : Type :=
| PNone
| PBool (b : bool)
| PInt (z : Z)
| PFloat (f : float)
| PStr (s : string).

(** Truth value of an object ([if x], [x or y], [not x]). *)
Definition truthy (v : PyVal) : bool :=
  match v with
  | PNone => false
  | PBool b => b
  | PInt z => negb (z =? 0)
  | PFloat f => negb (PrimFloat.eqb f 0%float)
  | PStr s => negb (String.eqb s "")
  end.

(** [a or b]. *)
Definition py_or (a b : PyVal) : PyVal := if truthy a then a else b.

(** [v != s] for a [str] [s]: an object of another type is never equal to it. *)
Definition ne_str (v : PyVal) (s : string) : bool :=
  match v with
  | PStr s' => negb (String.eqb s' s)
  | _ => true
  end.

(** *** Conversion to float *)

(** [float(n)] for an [int]: the nearest binary64, ties to even. *)
Definition float_of_Z (z : Z) : float :=
  SF2Prim (binary_normalize prec emax z 0 false).

Definition is_digit (c : ascii) : bool :=
  let n := N_of_ascii c in ((48 <=? n) && (n <=? 57))%N.

Definition digit_val (c : ascii) : Z := Z.of_N (N_of_ascii c) - 48.

(** C's [isspace] in the C locale: what [float] strips at both ends. *)
Definition is_space (c : ascii) : bool :=
  let n := N_of_ascii c in (((9 <=? n) && (n <=? 13)) || (n =? 32))%N.

Definition lower_ascii (c : ascii) : ascii :=
  let n := N_of_ascii c in
  if ((65 <=? n) && (n <=? 90))%N then ascii_of_N (n + 32) else c.

Fixpoint lstrip (l : list ascii) : list ascii :=
  match l with
  | c :: l' => if is_space c then lstrip l' else l
  | [] => []
  end.

Definition strip (l : list ascii) : list ascii :=
  rev (lstrip (rev (lstrip l))).

(** Underscores of a numeric literal: each needs a digit right before and
    right after it; they are then dropped. [prev] is the previous character. *)
Fixpoint drop_underscores (prev : option ascii) (l : list ascii)
  : option (list ascii) :=
  match l with
  | [] =>
      match prev with
      | Some "_"%char => None
      | _ => Some []
      end
  | c :: l' =>
      if Ascii.eqb c "_" then
        match prev with
        | Some p => if is_digit p then drop_underscores (Some c) l' else None
        | None => None
        end
      else
        match prev with
        | Some "_"%char =>
            if is_digit c then option_map (cons c) (drop_underscores (Some c) l')
            else None
        | _ => option_map (cons c) (drop_underscores (Some c) l')
        end
  end.

(** Leading decimal digits and the rest. *)
Fixpoint span_digits (l : list ascii) : list ascii * list ascii :=
  match l with
  | c :: l' =>
      if is_digit c then let '(d, r) := span_digits l' in (c :: d, r)
      else ([], l)
  | [] => ([], [])
  end.

Definition digits_val (d : list ascii) : Z :=
  fold_left (fun acc c => 10 * acc + digit_val c) d 0.

(** The exponent part: nothing, or [e]/[E], an optional sign and digits,
    up to the end of the text. *)
Definition parse_exponent (l : list ascii) : option Z :=
  match l with
  | [] => Some 0
  | c :: l' =>
      if Ascii.eqb (lower_ascii c) "e" then
        let '(neg, l'') :=
          match l' with
          | "-"%char :: r => (true, r)
          | "+"%char :: r => (false, r)
          | _ => (false, l')
          end in
        match span_digits l'' with
        | ((_ :: _) as d, []) => Some (if neg then - digits_val d else digits_val d)
        | _ => None
        end
      else None
  end.

(** The binary64 nearest to [(-1)^neg * m * 10^e], ties to even; a magnitude
    too large becomes an infinity, as in [float('1e999')]. *)
Definition round_decimal (neg : bool) (m e : Z) : float :=
  let sgn (x : Z) := if neg then - x else x in
  if m =? 0 then (if neg then (-0)%float else 0%float)
  else if 0 <=? e then SF2Prim (binary_normalize prec emax (sgn (m * 10 ^ e)) 0 false)
  else
    let q := 10 ^ (- e) in
    let k := Z.log2 q + 64 in
    let n := m * 2 ^ k in
    let sticky := if n mod q =? 0 then 0 else 1 in
    SF2Prim (binary_normalize prec emax (sgn (2 * (n / q) + sticky)) (- (k + 1)) false).

(** An unsigned decimal literal: digits with an optional point and fraction
    (at least one digit in all) and an optional exponent. *)
Definition parse_decimal (neg : bool) (l : list ascii) : option float :=
  let '(ip, r) := span_digits l in
  let '(fp, r') :=
    match r with
    | "."%char :: r1 => span_digits r1
    | _ => ([], r)
    end in
  match ip ++ fp with
  | [] => None
  | ds =>
      match parse_exponent r' with
      | Some ex => Some (round_decimal neg (digits_val ds) (ex - Z.of_nat (length fp)))
      | None => None
      end
  end.

(** [float(s)] for a [str]: [None] stands for [ValueError]. *)
Definition float_of_str (s : string) : option float :=
  match drop_underscores None (strip (list_ascii_of_string s)) with
  | None => None
  | Some l =>
      let '(neg, body) :=
        match l with
        | "-"%char :: r => (true, r)
        | "+"%char :: r => (false, r)
        | _ => (false, l)
        end in
      let word := string_of_list_ascii (map lower_ascii body) in
      if String.eqb word "inf" || String.eqb word "infinity" then
        Some (if neg then neg_infinity else infinity)
      else if String.eqb word "nan" then Some nan
      else parse_decimal neg body
  end.

(** [float(v)]. An [int] beyond the binary64 range raises [OverflowError]. *)
Definition py_float (v : PyVal) : Res float :=
  match v with
  | PNone => Raise TypeError
  | PBool b => Ok (if b then 1%float else 0%float)
  | PInt z =>
      let f := float_of_Z z in
      if PrimFloat.eqb (PrimFloat.abs f) infinity then Raise OverflowError else Ok f
  | PFloat f => Ok f
  | PStr s =>
      match float_of_str s with
      | Some f => Ok f
      | None => Raise ValueError
      end
  end.

(** *** Ordering, as [sorted] uses it *)

(** [z < f] for an [int] and a [float], compared exactly. *)
Definition Z_lt_float (z : Z) (f : float) : bool :=
  match Prim2SF f with
  | S754_zero _ => z <? 0
  | S754_infinity s => negb s
  | S754_nan => false
  | S754_finite s m e =>
      let v := if s then Z.neg m else Z.pos m in
      if 0 <=? e then z <? v * 2 ^ e else z * 2 ^ (- e) <? v
  end.

(** [f < z]. *)
Definition float_lt_Z (f : float) (z : Z) : bool :=
  match Prim2SF f with
  | S754_zero _ => 0 <? z
  | S754_infinity s => s
  | S754_nan => false
  | S754_finite s m e =>
      let v := if s then Z.neg m else Z.pos m in
      if 0 <=? e then v * 2 ^ e <? z else v <? z * 2 ^ (- e)
  end.

Definition Z_of_bool (b : bool) : Z := if b then 1 else 0.

(** [a < b]: strings by code point, numbers ([bool], [int], [float]) by
    value; any other pairing raises [TypeError]. *)
Definition py_lt (a b : PyVal) : Res bool :=
  match a, b with
  | PStr s, PStr t => Ok (String.ltb s t)
  | PBool x, PBool y => Ok (Z_of_bool x <? Z_of_bool y)
  | PBool x, PInt y => Ok (Z_of_bool x <? y)
  | PInt x, PBool y => Ok (x <? Z_of_bool y)
  | PInt x, PInt y => Ok (x <? y)
  | PBool x, PFloat y => Ok (Z_lt_float (Z_of_bool x) y)
  | PInt x, PFloat y => Ok (Z_lt_float x y)
  | PFloat x, PBool y => Ok (float_lt_Z x (Z_of_bool y))
  | PFloat x, PInt y => Ok (float_lt_Z x y)
  | PFloat x, PFloat y => Ok (PrimFloat.ltb x y)
  | _, _ => Raise TypeError
  end.

Section Sorted.
Context {A : Type} (key : A -> PyVal).

(** Place [x], which stood before every element of [l], in the descending
    list [l]: it passes the elements whose key is greater than its own and
    stops before the first one that is not. *)
Fixpoint insert_desc (x : A) (l : list A) : Res (list A) :=
  match l with
  | [] => Ok [x]
  | y :: l' =>
      bind (py_lt (key x) (key y)) (fun lt =>
        if lt then bind (insert_desc x l') (fun r => Ok (y :: r))
        else Ok (x :: l))
  end.

(** [sorted(l, key=key, reverse=True)]: a new list, descending by key,
    elements of equal key in their original order. *)
Fixpoint sorted_reverse (l : list A) : Res (list A) :=
  match l with
  | [] => Ok []
  | x :: l' => bind (sorted_reverse l') (insert_desc x)
  end.
End Sorted.

End Py.

(** ** Calendar dates ([datetime.date]) *)

Module Dates.

Record date : Type := Date { year : Z; month : Z; day : Z }.

Definition _is_leap (y : Z) : bool :=
  (y mod 4 =? 0) && (negb (y mod 100 =? 0) || (y mod 400 =? 0)).

(** Days before January 1st of year [y]. *)
Definition _days_before_year (y : Z) : Z :=
  let y := y - 1 in y * 365 + y / 4 - y / 100 + y / 400.

Definition _days_in_month (y m : Z) : Z :=
  if (m =? 2) && _is_leap y then 29
  else nth (Z.to_nat m) [0; 31; 28; 31; 30; 31; 30; 31; 31; 30; 31; 30; 31] 0.

(** Days of year [y] before the first day of month [m]. *)
Definition _days_before_month (y m : Z) : Z :=
  nth (Z.to_nat m) [0; 0; 31; 59; 90; 120; 151; 181; 212; 243; 273; 304; 334] 0
  + (if (2 <? m) && _is_leap y then 1 else 0).

(** [d.toordinal()]: January 1st of year 1 is day 1. *)
Definition toordinal (d : date) : Z :=
  _days_before_year (year d) + _days_before_month (year d) (month d) + day d.

(** [(a - b).days]. *)
Definition days_between (a b : date) : Z := toordinal a - toordinal b.

(** [date(y, m, d)]: [None] stands for the [ValueError] of a date that does
    not exist. *)
Definition make_date (y m d : Z) : option date :=
  if (1 <=? y) && (y <=? 9999) && (1 <=? m) && (m <=? 12)
     && (1 <=? d) && (d <=? _days_in_month y m)
  then Some (Date y m d) else None.

Definition two_digits (a b : ascii) : Z := 10 * Py.digit_val a + Py.digit_val b.

(** The month field of ['%m']: [1[0-2]|0[1-9]|[1-9]], followed by the dash. *)
Definition parse_month (l : list ascii) : option (Z * list ascii) :=
  let two :=
    match l with
    | a :: b :: c :: r =>
        if Ascii.eqb c "-" && Py.is_digit a && Py.is_digit b
           && (1 <=? two_digits a b) && (two_digits a b <=? 12)
        then Some (two_digits a b, r) else None
    | _ => None
    end in
  match two, l with
  | Some x, _ => Some x
  | None, a :: c :: r =>
      if Ascii.eqb c "-" && Py.is_digit a && (1 <=? Py.digit_val a)
      then Some (Py.digit_val a, r) else None
  | None, _ => None
  end.

(** The day field of ['%d']: [3[01]|[12]\d|0[1-9]|[1-9]| [1-9]], with
    nothing left after it. *)
Definition parse_day (l : list ascii) : option Z :=
  match l with
  | [a; b] =>
      if Py.is_digit a && Py.is_digit b
         && (1 <=? two_digits a b) && (two_digits a b <=? 31)
      then Some (two_digits a b)
      else if Ascii.eqb a " " && Py.is_digit b && (1 <=? Py.digit_val b)
      then Some (Py.digit_val b)
      else None
  | [a] => if Py.is_digit a && (1 <=? Py.digit_val a) then Some (Py.digit_val a) else None
  | _ => None
  end.

(** [datetime.strptime(s, '%Y-%m-%d').date()]: [None] stands for
    [ValueError]. *)
Definition strptime_ymd (l : list ascii) : option date :=
  match l with
  | y1 :: y2 :: y3 :: y4 :: c :: r =>
      if Ascii.eqb c "-"
         && Py.is_digit y1 && Py.is_digit y2 && Py.is_digit y3 && Py.is_digit y4
      then
        match parse_month r with
        | Some (m, r') =>
            match parse_day r' with
            | Some d => make_date (100 * two_digits y1 y2 + two_digits y3 y4) m d
            | None => None
            end
        | None => None
        end
      else None
  | _ => None
  end.

End Dates.

(** ** Static tables ([mappings.py]) *)

Module Mappings.

Definition INCOME_STATEMENT_TAGS : list (string * list string) :=
  [("revenue",
      ["RevenueFromContractWithCustomerExcludingAssessedTax";
       "Revenues";
       "SalesRevenueNet";
       "SalesRevenueGoodsNet";
       "RevenueFromContractWithCustomerIncludingAssessedTax"]);
   ("cost_of_revenue",
      ["CostOfGoodsAndServicesSold";
       "CostOfRevenue";
       "CostOfGoodsSold";
       "CostOfServices"]);
   ("gross_profit",
      ["GrossProfit"]);
   ("research_and_development",
      ["ResearchAndDevelopmentExpense";
       "ResearchAndDevelopmentExpenseExcludingAcquiredInProcessCost"]);
   ("selling_general_admin",
      ["SellingGeneralAndAdministrativeExpense";
       "SellingAndMarketingExpense";
       "GeneralAndAdministrativeExpense"]);
   ("operating_expenses",
      ["OperatingExpenses";
       "CostsAndExpenses"]);
   ("operating_income",
      ["OperatingIncomeLoss"]);
   ("interest_expense",
      ["InterestExpense";
       "InterestExpenseDebt"]);
   ("interest_income",
      ["InterestAndDividendIncomeOperating";
       "InvestmentIncomeInterest";
       "InterestIncomeOther"]);
   ("other_income_expense",
      ["OtherNonoperatingIncomeExpense";
       "NonoperatingIncomeExpense"]);
   ("income_before_tax",
      ["IncomeLossFromContinuingOperationsBeforeIncomeTaxesExtraordinaryItemsNoncontrollingInterest";
       "IncomeLossFromContinuingOperationsBeforeIncomeTaxesMinorityInterestAndIncomeLossFromEquityMethodInvestments"]);
   ("income_tax_expense",
      ["IncomeTaxExpenseBenefit"]);
   ("net_income",
      ["NetIncomeLoss";
       "ProfitLoss";
       "NetIncomeLossAvailableToCommonStockholdersBasic"]);
   ("eps_basic",
      ["EarningsPerShareBasic"]);
   ("eps_diluted",
      ["EarningsPerShareDiluted"]);
   ("shares_basic",
      ["WeightedAverageNumberOfSharesOutstandingBasic"]);
   ("shares_diluted",
      ["WeightedAverageNumberOfDilutedSharesOutstanding"])].

Definition BALANCE_SHEET_TAGS : list (string * list string) :=
  [("cash_and_equivalents",
      ["CashAndCashEquivalentsAtCarryingValue";
       "Cash";
       "CashCashEquivalentsRestrictedCashAndRestrictedCashEquivalents"]);
   ("short_term_investments",
      ["ShortTermInvestments";
       "MarketableSecuritiesCurrent";
       "AvailableForSaleSecuritiesDebtSecuritiesCurrent"]);
   ("accounts_receivable",
      ["AccountsReceivableNetCurrent";
       "ReceivablesNetCurrent"]);
   ("inventory",
      ["InventoryNet";
       "InventoryFinishedGoodsAndWorkInProcess"]);
   ("prepaid_expenses",
      ["PrepaidExpenseAndOtherAssetsCurrent";
       "PrepaidExpenseCurrent"]);
   ("total_current_assets",
      ["AssetsCurrent"]);
   ("property_plant_equipment",
      ["PropertyPlantAndEquipmentNet"]);
   ("goodwill",
      ["Goodwill"]);
   ("intangible_assets",
      ["IntangibleAssetsNetExcludingGoodwill";
       "FiniteLivedIntangibleAssetsNet"]);
   ("long_term_investments",
      ["LongTermInvestments";
       "MarketableSecuritiesNoncurrent"]);
   ("other_assets",
      ["OtherAssetsNoncurrent"]);
   ("total_assets",
      ["Assets"]);
   ("accounts_payable",
      ["AccountsPayableCurrent"]);
   ("accrued_liabilities",
      ["AccruedLiabilitiesCurrent";
       "EmployeeRelatedLiabilitiesCurrent"]);
   ("deferred_revenue_current",
      ["DeferredRevenueCurrent";
       "ContractWithCustomerLiabilityCurrent"]);
   ("short_term_debt",
      ["ShortTermBorrowings";
       "DebtCurrent"]);
   ("current_portion_long_term_debt",
      ["LongTermDebtCurrent"]);
   ("total_current_liabilities",
      ["LiabilitiesCurrent"]);
   ("long_term_debt",
      ["LongTermDebtNoncurrent";
       "LongTermDebt"]);
   ("deferred_tax_liabilities",
      ["DeferredIncomeTaxLiabilitiesNet"]);
   ("other_liabilities",
      ["OtherLiabilitiesNoncurrent"]);
   ("total_liabilities",
      ["Liabilities"]);
   ("common_stock",
      ["CommonStockValue";
       "CommonStocksIncludingAdditionalPaidInCapital"]);
   ("additional_paid_in_capital",
      ["AdditionalPaidInCapitalCommonStock";
       "AdditionalPaidInCapital"]);
   ("retained_earnings",
      ["RetainedEarningsAccumulatedDeficit"]);
   ("accumulated_other_comprehensive_income",
      ["AccumulatedOtherComprehensiveIncomeLossNetOfTax"]);
   ("treasury_stock",
      ["TreasuryStockValue"]);
   ("total_stockholders_equity",
      ["StockholdersEquity";
       "StockholdersEquityIncludingPortionAttributableToNoncontrollingInterest"]);
   ("total_liabilities_and_equity",
      ["LiabilitiesAndStockholdersEquity"])].

Definition CASH_FLOW_TAGS : list (string * list string) :=
  [("net_income_cf",
      ["NetIncomeLoss";
       "ProfitLoss"]);
   ("depreciation_amortization",
      ["DepreciationDepletionAndAmortization";
       "DepreciationAndAmortization"]);
   ("stock_based_compensation",
      ["ShareBasedCompensation";
       "AllocatedShareBasedCompensationExpense"]);
   ("deferred_income_taxes",
      ["DeferredIncomeTaxExpenseBenefit"]);
   ("change_in_receivables",
      ["IncreaseDecreaseInAccountsReceivable"]);
   ("change_in_inventory",
      ["IncreaseDecreaseInInventories"]);
   ("change_in_payables",
      ["IncreaseDecreaseInAccountsPayable"]);
   ("other_operating_activities",
      ["OtherOperatingActivitiesCashFlowStatement"]);
   ("net_cash_from_operating",
      ["NetCashProvidedByUsedInOperatingActivities"]);
   ("capital_expenditures",
      ["PaymentsToAcquirePropertyPlantAndEquipment";
       "PaymentsToAcquireProductiveAssets"]);
   ("acquisitions",
      ["PaymentsToAcquireBusinessesNetOfCashAcquired"]);
   ("purchases_of_investments",
      ["PaymentsToAcquireInvestments";
       "PaymentsToAcquireAvailableForSaleSecuritiesDebt"]);
   ("sales_of_investments",
      ["ProceedsFromSaleOfAvailableForSaleSecuritiesDebt";
       "ProceedsFromSaleAndMaturityOfMarketableSecurities"]);
   ("net_cash_from_investing",
      ["NetCashProvidedByUsedInInvestingActivities"]);
   ("debt_repayment",
      ["RepaymentsOfLongTermDebt";
       "RepaymentsOfDebt"]);
   ("debt_issuance",
      ["ProceedsFromIssuanceOfLongTermDebt";
       "ProceedsFromDebtNetOfIssuanceCosts"]);
   ("share_repurchases",
      ["PaymentsForRepurchaseOfCommonStock"]);
   ("dividends_paid",
      ["PaymentsOfDividendsCommonStock";
       "PaymentsOfDividends"]);
   ("stock_issuance",
      ["ProceedsFromIssuanceOfCommonStock";
       "ProceedsFromStockOptionsExercised"]);
   ("net_cash_from_financing",
      ["NetCashProvidedByUsedInFinancingActivities"]);
   ("effect_of_exchange_rate",
      ["EffectOfExchangeRateOnCashCashEquivalentsRestrictedCashAndRestrictedCashEquivalents";
       "EffectOfExchangeRateOnCashAndCashEquivalents"]);
   ("net_change_in_cash",
      ["CashCashEquivalentsRestrictedCashAndRestrictedCashEquivalentsPeriodIncreaseDecreaseIncludingExchangeRateEffect";
       "CashAndCashEquivalentsPeriodIncreaseDecrease"])].

Definition NEGATED_ITEMS : gset string :=
  list_to_set
    ["cost_of_revenue";
     "research_and_development";
     "selling_general_admin";
     "operating_expenses";
     "interest_expense";
     "income_tax_expense";
     "capital_expenditures";
     "acquisitions";
     "purchases_of_investments";
     "debt_repayment";
     "share_repurchases";
     "dividends_paid";
     "treasury_stock"].

Definition LABELS : gmap string string :=
  list_to_map
    [("revenue", "Revenue");
     ("cost_of_revenue", "Cost of Revenue");
     ("gross_profit", "Gross Profit");
     ("research_and_development", "Research & Development");
     ("selling_general_admin", "Selling, General & Administrative");
     ("operating_expenses", "Operating Expenses");
     ("operating_income", "Operating Income");
     ("interest_expense", "Interest Expense");
     ("interest_income", "Interest Income");
     ("other_income_expense", "Other Income (Expense)");
     ("income_before_tax", "Income Before Tax");
     ("income_tax_expense", "Income Tax Expense");
     ("net_income", "Net Income");
     ("eps_basic", "EPS (Basic)");
     ("eps_diluted", "EPS (Diluted)");
     ("shares_basic", "Shares Outstanding (Basic)");
     ("shares_diluted", "Shares Outstanding (Diluted)");
     ("cash_and_equivalents", "Cash & Cash Equivalents");
     ("short_term_investments", "Short-Term Investments");
     ("accounts_receivable", "Accounts Receivable");
     ("inventory", "Inventory");
     ("prepaid_expenses", "Prepaid Expenses");
     ("total_current_assets", "Total Current Assets");
     ("property_plant_equipment", "Property, Plant & Equipment");
     ("goodwill", "Goodwill");
     ("intangible_assets", "Intangible Assets");
     ("long_term_investments", "Long-Term Investments");
     ("other_assets", "Other Assets");
     ("total_assets", "Total Assets");
     ("accounts_payable", "Accounts Payable");
     ("accrued_liabilities", "Accrued Liabilities");
     ("deferred_revenue_current", "Deferred Revenue (Current)");
     ("short_term_debt", "Short-Term Debt");
     ("current_portion_long_term_debt", "Current Portion of Long-Term Debt");
     ("total_current_liabilities", "Total Current Liabilities");
     ("long_term_debt", "Long-Term Debt");
     ("deferred_tax_liabilities", "Deferred Tax Liabilities");
     ("other_liabilities", "Other Liabilities");
     ("total_liabilities", "Total Liabilities");
     ("common_stock", "Common Stock");
     ("additional_paid_in_capital", "Additional Paid-In Capital");
     ("retained_earnings", "Retained Earnings");
     ("accumulated_other_comprehensive_income", "Accumulated Other Comprehensive Income");
     ("treasury_stock", "Treasury Stock");
     ("total_stockholders_equity", "Total Stockholders' Equity");
     ("total_liabilities_and_equity", "Total Liabilities & Equity");
     ("net_income_cf", "Net Income");
     ("depreciation_amortization", "Depreciation & Amortization");
     ("stock_based_compensation", "Stock-Based Compensation");
     ("deferred_income_taxes", "Deferred Income Taxes");
     ("change_in_receivables", "Change in Receivables");
     ("change_in_inventory", "Change in Inventory");
     ("change_in_payables", "Change in Payables");
     ("other_operating_activities", "Other Operating Activities");
     ("net_cash_from_operating", "Net Cash from Operating Activities");
     ("capital_expenditures", "Capital Expenditures");
     ("acquisitions", "Acquisitions");
     ("purchases_of_investments", "Purchases of Investments");
     ("sales_of_investments", "Sales of Investments");
     ("net_cash_from_investing", "Net Cash from Investing Activities");
     ("debt_repayment", "Debt Repayment");
     ("debt_issuance", "Debt Issuance");
     ("share_repurchases", "Share Repurchases");
     ("dividends_paid", "Dividends Paid");
     ("stock_issuance", "Stock Issuance");
     ("net_cash_from_financing", "Net Cash from Financing Activities");
     ("effect_of_exchange_rate", "Effect of Exchange Rate");
     ("net_change_in_cash", "Net Change in Cash")].

End Mappings.

(** ** Data model ([models.py]) *)

Module Models.
Import Dates.

Inductive StatementType : Type := INCOME_STATEMENT | BALANCE_SHEET | CASH_FLOW.

Module LineItem.
Record t : Type := Make {
  label : string;
  xbrl_tag : string;
  value : option float;
  period_end : date;
  period_start : option date;
  decimals : Z;
  is_negated : bool;
}.

(** The [display_value] property: the value, its sign flipped for a
    negated item. *)
Definition display_value (self : t) : option float :=
  match value self with
  | None => None
  | Some v => Some (if is_negated self then (- v)%float else v)
  end.
End LineItem.

Module FinancialStatement.
Record t : Type := Make {
  statement_type : StatementType;
  period_end : date;
  fiscal_year : Z;
  fiscal_period : string;
  period_start : option date;
  line_items : gmap string LineItem.t;
}.

(** [self.line_items[key] = item]. *)
Definition add_line_item (self : t) (key : string) (item : LineItem.t) : t :=
  Make (statement_type self) (period_end self) (fiscal_year self)
       (fiscal_period self) (period_start self)
       (<[key := item]> (line_items self)).

Definition get_value (self : t) (key : string) : option float :=
  match line_items self !! key with
  | Some item => LineItem.value item
  | None => None
  end.

Definition to_dict (self : t) : gmap string (option float) :=
  LineItem.display_value <$> line_items self.
End FinancialStatement.

End Models.

(** ** Fact index, resolver and statement assemblers ([extractor.py]) *)

Module Extractor.
Import Py Dates Mappings Models.

(** One observation of the raw payload, each field as [val.get(...)] reads
    it ([PNone] for a key that is not there). *)
Record RawObs : Type := {
  r_val : PyVal; r_end : PyVal; r_start : PyVal; r_fy : PyVal; r_fp : PyVal;
  r_form : PyVal; r_filed : PyVal; r_accn : PyVal; r_frame : PyVal;
}.

(** [concept_data.get('units', {})]: unit type to observations, in the
    payload's order. *)
Definition Units : Type := list (string * list RawObs).

(** One namespace: concept name to its units, in the payload's order. *)
Definition Namespace : Type := list (string * Units).

(** [xbrl_facts.get('facts', {})], with the two namespaces the index
    reads (an absent one is empty). *)
Record XbrlFacts : Type := { us_gaap : Namespace; dei : Namespace }.

(** An indexed observation: the dict [_index_facts] appends. *)
Record Fact : Type := {
  f_value : PyVal; f_end : PyVal; f_start : PyVal; f_fy : PyVal; f_fp : PyVal;
  f_form : PyVal; f_filed : PyVal; f_accn : PyVal; f_frame : PyVal;
  f_unit : string;
}.

Definition make_fact (unit_type : string) (val : RawObs) : Fact :=
  {| f_value := r_val val; f_end := r_end val; f_start := r_start val;
     f_fy := r_fy val; f_fp := r_fp val; f_form := r_form val;
     f_filed := r_filed val; f_accn := r_accn val; f_frame := r_frame val;
     f_unit := unit_type |}.

(** The body of [for unit_type, values in units.items()]. *)
Definition index_unit (concept : string) (idx : gmap string (list Fact))
    (u : string * list RawObs) : gmap string (list Fact) :=
  let idx :=
    match idx !! concept with
    | None => <[concept := []]> idx
    | Some _ => idx
    end in
  foldl (fun idx val => alter (fun l => l ++ [make_fact (fst u) val]) concept idx)
        idx (snd u).

(** The loop over one namespace. *)
Definition index_namespace (ns : Namespace) (idx : gmap string (list Fact))
  : gmap string (list Fact) :=
  foldl (fun idx c => foldl (index_unit (fst c)) idx (snd c)) idx ns.

(** [_index_facts]: [facts_by_concept] after construction. *)
Definition _index_facts (xbrl_facts : XbrlFacts) : gmap string (list Fact) :=
  index_namespace (dei xbrl_facts) (index_namespace (us_gaap xbrl_facts) ∅).

Definition _parse_date (date_str : PyVal) : option date :=
  if negb (truthy date_str) then None
  else
    match date_str with
    | PStr s => strptime_ymd (take 10 (list_ascii_of_string s))
    | _ => None
    end.

(** The sort key of [_find_fact_value]: [x.get('end', '') or '']. *)
Definition end_key (x : Fact) : PyVal := py_or (f_end x) (PStr "").

Section Resolver.
Variable facts_by_concept : gmap string (list Fact).
Variable period_end : date.
Variable period_start : option date.
Variable form_type : option string.
Variable tolerance_days : Z.

(** [form_type and fact.get('form') != form_type]. *)
Definition form_mismatch (fact : Fact) : bool :=
  match form_type with
  | Some ft => negb (String.eqb ft "") && ne_str (f_form fact) ft
  | None => false
  end.

(** The start-date test of a duration fact: [true] when the fact carries a
    start date further than the tolerance from the target's. *)
Definition start_mismatch (fact : Fact) : bool :=
  match period_start with
  | Some ps =>
      match _parse_date (f_start fact) with
      | Some fact_start => Z.abs (days_between fact_start ps) >? tolerance_days
      | None => false
      end
  | None => false
  end.

(** One turn of [for fact in sorted_facts]: [Ok (Some v)] returns [v],
    [Ok None] goes on to the next fact. *)
Definition check_fact (fact : Fact) : Res (option float) :=
  if form_mismatch fact then Ok None
  else
    match _parse_date (f_end fact) with
    | None => Ok None
    | Some fact_end =>
        if Z.abs (days_between fact_end period_end) >? tolerance_days then Ok None
        else if start_mismatch fact then Ok None
        else
          match f_value fact with
          | PNone => Ok None
          | value =>
              match py_float value with
              | Ok v => Ok (Some v)
              | Raise ValueError | Raise TypeError => Ok None
              | Raise e => Raise e
              end
          end
    end.

Fixpoint scan_facts (sorted_facts : list Fact) : Res (option float) :=
  match sorted_facts with
  | [] => Ok None
  | fact :: rest =>
      match check_fact fact with
      | Ok (Some v) => Ok (Some v)
      | Ok None => scan_facts rest
      | Raise e => Raise e
      end
  end.

(** [for tag in tag_candidates]; [None] is the result [(None, None)]. *)
Fixpoint find_in_tags (tag_candidates : list string) : Res (option (float * string)) :=
  match tag_candidates with
  | [] => Ok None
  | tag :: rest =>
      match facts_by_concept !! tag with
      | None => find_in_tags rest
      | Some facts =>
          bind (sorted_reverse end_key facts) (fun sorted_facts =>
          bind (scan_facts sorted_facts) (fun r =>
            match r with
            | Some v => Ok (Some (v, tag))
            | None => find_in_tags rest
            end))
      end
  end.
End Resolver.

(** [_find_fact_value], with the signature of the source; the fiscal year
    and period are accepted and not consulted. *)
Definition _find_fact_value (facts_by_concept : gmap string (list Fact))
    (tag_candidates : list string) (period_end : date)
    (period_start : option date) (fiscal_year : option Z)
    (fiscal_period : option string) (form_type : option string)
    (tolerance_days : Z) : Res (option (float * string)) :=
  find_in_tags facts_by_concept period_end period_start form_type tolerance_days
               tag_candidates.

(** The [LineItem] the assemblers build for a resolved key. *)
Definition make_line_item (key matched_tag : string) (value : float)
    (period_start : option date) (period_end : date) : LineItem.t :=
  LineItem.Make (default key (LABELS !! key)) matched_tag (Some value)
                period_end period_start (-6)
                (bool_decide (key ∈ NEGATED_ITEMS)).

(** The loop shared by the three assemblers: resolve each key of the table
    in its declared order and add a line item when a value was found. *)
Fixpoint assemble (facts_by_concept : gmap string (list Fact))
    (table : list (string * list string)) (period_end : date)
    (period_start : option date) (fiscal_year : Z) (fiscal_period form_type : string)
    (statement : FinancialStatement.t) : Res FinancialStatement.t :=
  match table with
  | [] => Ok statement
  | (key, tag_candidates) :: table' =>
      bind (_find_fact_value facts_by_concept tag_candidates period_end period_start
              (Some fiscal_year) (Some fiscal_period) (Some form_type) 5)
        (fun r =>
           assemble facts_by_concept table' period_end period_start fiscal_year
             fiscal_period form_type
             match r with
             | Some (value, matched_tag) =>
                 FinancialStatement.add_line_item statement key
                   (make_line_item key matched_tag value period_start period_end)
             | None => statement
             end)
  end.

Definition extract_income_statement (facts_by_concept : gmap string (list Fact))
    (period_end period_start : date) (fiscal_year : Z)
    (fiscal_period form_type : string) : Res FinancialStatement.t :=
  assemble facts_by_concept INCOME_STATEMENT_TAGS period_end (Some period_start)
    fiscal_year fiscal_period form_type
    (FinancialStatement.Make INCOME_STATEMENT period_end fiscal_year fiscal_period
       (Some period_start) ∅).

Definition extract_balance_sheet (facts_by_concept : gmap string (list Fact))
    (period_end : date) (fiscal_year : Z)
    (fiscal_period form_type : string) : Res FinancialStatement.t :=
  assemble facts_by_concept BALANCE_SHEET_TAGS period_end None
    fiscal_year fiscal_period form_type
    (FinancialStatement.Make BALANCE_SHEET period_end fiscal_year fiscal_period
       None ∅).

Definition extract_cash_flow (facts_by_concept : gmap string (list Fact))
    (period_end period_start : date) (fiscal_year : Z)
    (fiscal_period form_type : string) : Res FinancialStatement.t :=
  assemble facts_by_concept CASH_FLOW_TAGS period_end (Some period_start)
    fiscal_year fiscal_period form_type
    (FinancialStatement.Make CASH_FLOW period_end fiscal_year fiscal_period
       (Some period_start) ∅).

End Extractor.

(** ** The value path of the spreadsheet export ([excel_exporter.py]) *)

Module Exporter.
Import Py Models.

(** [s.lower()]. *)
Fixpoint lower (s : string) : string :=
  match s with
  | EmptyString => EmptyString
  | String c s' => String (lower_ascii c) (lower s')
  end.

(** [sub in s]. *)
Fixpoint contains (sub s : string) : bool :=
  String.prefix sub s ||
  match s with
  | EmptyString => false
  | String _ s' => contains sub s'
  end.

(** The two number formats of the exporter. *)
Inductive NumFormat : Type := number_format | number_format_decimal.

(** What [_write_line_items] puts in column 2 for [key]: the display value,
    divided by 1000 unless the key names a per-share item, with its number
    format; [None] when no value cell is written. *)
Definition scaled_value (key : string) (item : LineItem.t)
  : option (float * NumFormat) :=
  match LineItem.value item with
  | None => None
  | Some _ =>
      match LineItem.display_value item with
      | None => None
      | Some display_value =>
          if contains "eps" (lower key) then
            Some (display_value, number_format_decimal)
          else if contains "shares" (lower key) then
            Some ((display_value / 1000)%float, number_format)
          else
            Some ((display_value / 1000)%float, number_format)
      end
  end.

(** One written row: its number, the label cell, the value cell if any, and
    whether the subtotal style was applied. *)
Record Written : Type := {
  w_row : Z;
  w_label : string;
  w_value : option (float * NumFormat);
  w_subtotal : bool;
}.

(** [_write_line_items]: the rows written for [line_order] from [start_row],
    and the next free row. A spacer ([None]) takes a row; a key the
    statement does not hold takes none. *)
Fixpoint _write_line_items (stmt : FinancialStatement.t)
    (line_order : list (option string * bool)) (row : Z) : list Written * Z :=
  match line_order with
  | [] => ([], row)
  | (None, _) :: rest => _write_line_items stmt rest (row + 1)
  | (Some key, is_subtotal) :: rest =>
      match FinancialStatement.line_items stmt !! key with
      | None => _write_line_items stmt rest row
      | Some item =>
          let '(ws, next) := _write_line_items stmt rest (row + 1) in
          ({| w_row := row; w_label := LineItem.label item;
              w_value := scaled_value key item; w_subtotal := is_subtotal |} :: ws,
           next)
      end
  end.

End Exporter.

(** ** Built-ins the rest of the program uses *)

Module Builtins.
Import Py Dates.

(** [s.zfill(width)]: zeros on the left up to [width] characters, after the
    sign when the text starts with one. *)
Definition zfill (width : nat) (s : string) : string :=
  let fill := (width - String.length s)%nat in
  if (width <=? String.length s)%nat then s
  else
    let zeros := string_of_list_ascii (replicate fill "0"%char) in
    match s with
    | String c rest =>
        if Ascii.eqb c "+" || Ascii.eqb c "-" then String c (zeros +:+ rest)
        else zeros +:+ s
    | EmptyString => zeros
    end.

(** [int(s)] for a [str], base ten: blanks stripped at both ends, an
    optional sign, then digits, single underscores allowed between them.
    [None] stands for [ValueError]. *)
Definition int_of_str (l : list ascii) : option Z :=
  let l := strip l in
  let '(neg, body) :=
    match l with
    | "-"%char :: r => (true, r)
    | "+"%char :: r => (false, r)
    | _ => (false, l)
    end in
  match drop_underscores None body with
  | Some ((_ :: _) as ds) =>
      if forallb is_digit ds then Some (if neg then - digits_val ds else digits_val ds)
      else None
  | _ => None
  end.

Definition _MAXORDINAL : Z := 3652059.

Definition _DAYS_IN_MONTH : list Z := [-1; 31; 28; 31; 30; 31; 30; 31; 31; 30; 31; 30; 31].

Definition _DAYS_BEFORE_MONTH : list Z :=
  [-1; 0; 31; 59; 90; 120; 151; 181; 212; 243; 273; 304; 334].

(** [_ord2ymd]: the date of an ordinal, day 1 being January 1st of year 1. *)
Definition _ord2ymd (n : Z) : date :=
  let n := n - 1 in
  let n400 := n / 146097 in
  let n := n mod 146097 in
  let year := n400 * 400 + 1 in
  let n100 := n / 36524 in
  let n := n mod 36524 in
  let n4 := n / 1461 in
  let n := n mod 1461 in
  let n1 := n / 365 in
  let n := n mod 365 in
  let year := year + n100 * 100 + n4 * 4 + n1 in
  if (n1 =? 4) || (n100 =? 4) then Date (year - 1) 12 31
  else
    let leapyear := (n1 =? 3) && (negb (n4 =? 24) || (n100 =? 3)) in
    let month := Z.shiftr (n + 50) 5 in
    let preceding :=
      nth (Z.to_nat month) _DAYS_BEFORE_MONTH 0
      + (if (2 <? month) && leapyear then 1 else 0) in
    let '(month, preceding) :=
      if preceding >? n then
        (month - 1,
         preceding - (nth (Z.to_nat (month - 1)) _DAYS_IN_MONTH 0
                      + (if (month - 1 =? 2) && leapyear then 1 else 0)))
      else (month, preceding) in
    Date year month (n - preceding + 1).

(** [d + timedelta(days=k)]. *)
Definition add_days (d : date) (k : Z) : Res date :=
  let o := toordinal d + k in
  if (0 <? o) && (o <=? _MAXORDINAL) then Ok (_ord2ymd o) else Raise OverflowError.

End Builtins.

(** ** The filing list ([client.py]) *)

Module FilingInfo.
Import Py.
(** One entry of the list [get_filings] returns: the form and the CIK are
    the strings the caller asked with, the rest comes from the payload. *)
Record t : Type := Make {
  form : string;
  accession_number : PyVal;
  filing_date : PyVal;
  report_date : PyVal;
  primary_document : PyVal;
  cik : string;
  company_name : PyVal;
  ticker : PyVal;
}.
End FilingInfo.

Module Client.
Import Py.

(** What [get_filings] reads of the submissions payload: the name, the
    ticker list if the payload has one, and the parallel arrays of
    [filings.recent] (an absent one is empty). *)
Record CompanyInfo : Type := {
  ci_name : PyVal;
  ci_tickers : option (list PyVal);
  forms : list PyVal;
  accession_numbers : list PyVal;
  filing_dates : list PyVal;
  report_dates : list PyVal;
  primary_docs : list PyVal;
}.

(** Outcome of [get_filings]: the list, or the [IndexError] of a read past
    the end of an array. *)
Inductive Outcome (A : Type) : Type :=
| Returns (a : A)
| IndexError.
Arguments Returns {A} a.
Arguments IndexError {A}.

(** The dict built for position [i]. *)
Definition filing_at (company_info : CompanyInfo) (cik form_type : string) (i : nat)
  : Outcome FilingInfo.t :=
  match accession_numbers company_info !! i, filing_dates company_info !! i,
        report_dates company_info !! i, primary_docs company_info !! i,
        default [PNone] (ci_tickers company_info) !! 0%nat with
  | Some accn, Some filed, Some report, Some doc, Some ticker =>
      Returns (FilingInfo.Make form_type accn filed report doc cik
                 (ci_name company_info) ticker)
  | _, _, _, _, _ => IndexError
  end.

(** The loop [for i, form in enumerate(forms)], from position [i] on with
    the filings collected so far. *)
Fixpoint scan_forms (company_info : CompanyInfo) (cik form_type : string) (count : Z)
    (i : nat) (rest : list PyVal) (filings : list FilingInfo.t)
  : Outcome (list FilingInfo.t) :=
  match rest with
  | [] => Returns filings
  | form :: rest' =>
      if negb (ne_str form form_type) then
        match filing_at company_info cik form_type i with
        | Returns f =>
            let filings := filings ++ [f] in
            if Z.of_nat (length filings) >=? count then Returns filings
            else scan_forms company_info cik form_type count (S i) rest' filings
        | IndexError => IndexError
        end
      else scan_forms company_info cik form_type count (S i) rest' filings
  end.

(** [get_filings], from the payload [get_company_info] fetched. *)
Definition get_filings (company_info : CompanyInfo) (cik form_type : string)
    (count : Z) : Outcome (list FilingInfo.t) :=
  scan_forms company_info cik form_type count 0 (forms company_info) [].

End Client.

(** ** Filing metadata ([extract_metadata]) *)

Module FilingMetadata.
Import Py Dates.
Record t : Type := Make {
  cik : string;
  company_name : PyVal;
  ticker : PyVal;
  form_type : string;
  filing_date : date;
  period_end : date;
  fiscal_year : Z;
  fiscal_period : string;
  accession_number : PyVal;
}.
End FilingMetadata.

Module Metadata.
Import Py Dates Exporter Builtins.

(** The block the source writes out for the report date and again for the
    filing date: a non-empty string is parsed from its first ten characters
    and a string that is no date raises [ValueError]; anything else gives
    today's date. *)
Definition read_date (v : PyVal) (today : date) : Res date :=
  match v with
  | PStr s =>
      if negb (String.eqb s "") then
        match strptime_ymd (take 10 (list_ascii_of_string s)) with
        | Some d => Ok d
        | None => Raise ValueError
        end
      else Ok today
  | _ => Ok today
  end.

(** [extract_metadata]. [entity_name] is [xbrl_facts.get('entityName', '')];
    [today] and [today'] are the two readings of [date.today()]. The form
    and the CIK of a filing are strings, so that [str] leaves them as they
    are. *)
Definition extract_metadata (filing_info : FilingInfo.t) (entity_name : PyVal)
    (today today' : date) : Res FilingMetadata.t :=
  bind (read_date (FilingInfo.report_date filing_info) today) (fun period_end =>
  bind (read_date (FilingInfo.filing_date filing_info) today') (fun filing_date =>
    let form_type := FilingInfo.form filing_info in
    let fiscal_year := year period_end in
    let fiscal_period := if contains "10-K" form_type then "FY" else "Q" in
    Ok (FilingMetadata.Make
          (zfill 10 (FilingInfo.cik filing_info))
          (py_or entity_name (FilingInfo.company_name filing_info))
          (FilingInfo.ticker filing_info)
          form_type filing_date period_end fiscal_year fiscal_period
          (FilingInfo.accession_number filing_info)))).

End Metadata.

(** ** Segments ([extract_segments], [models.py]) *)

Module Segments.
Import Dates.

Record Segment : Type := {
  name : string;
  segment_type : string;
  revenue : option float;
  operating_income : option float;
  assets : option float;
}.

Record SegmentData : Type := {
  period_end : date;
  fiscal_year : Z;
  fiscal_period : string;
  business_segments : list Segment;
  geographic_segments : list Segment;
}.

(** [extract_segments]: the header of the period, and no segment. *)
Definition extract_segments (period_end period_start : date) (fiscal_year : Z)
    (fiscal_period : string) : SegmentData :=
  {| period_end := period_end; fiscal_year := fiscal_year;
     fiscal_period := fiscal_period;
     business_segments := []; geographic_segments := [] |}.

End Segments.

(** ** The sheets of the workbook ([excel_exporter.py]) *)

Module Sheets.
Import Py Dates Models Exporter Segments.

(** A row a sheet writer fills below the title block of [_write_header],
    which takes rows 1 to 4 and is not modelled: bold captions from column
    1 on, a statement line, or a segment with its three figures. *)
Inductive Row : Type :=
| Captions (row : Z) (texts : list string)
| Line (w : Written)
| SegmentLine (row : Z) (name : string) (figures : list (option float)).

Definition row_of (r : Row) : Z :=
  match r with
  | Captions row _ => row
  | Line w => w_row w
  | SegmentLine row _ _ => row
  end.

(** The row [_write_header] returns. *)
Definition _write_header : Z := 6.

Definition column_headers (row : Z) : Row := Captions row ["Line Item"; "Amount"].

Definition income_line_order : list (option string * bool) :=
  [ (Some "revenue", false);
    (Some "cost_of_revenue", false);
    (Some "gross_profit", true);
    (Some "research_and_development", false);
    (Some "selling_general_admin", false);
    (Some "operating_expenses", false);
    (Some "operating_income", true);
    (Some "interest_income", false);
    (Some "interest_expense", false);
    (Some "other_income_expense", false);
    (Some "income_before_tax", true);
    (Some "income_tax_expense", false);
    (Some "net_income", true);
    (None, false);
    (Some "eps_basic", false);
    (Some "eps_diluted", false);
    (Some "shares_basic", false);
    (Some "shares_diluted", false) ].

Definition assets_order : list (option string * bool) :=
  [ (Some "cash_and_equivalents", false);
    (Some "short_term_investments", false);
    (Some "accounts_receivable", false);
    (Some "inventory", false);
    (Some "prepaid_expenses", false);
    (Some "total_current_assets", true);
    (Some "property_plant_equipment", false);
    (Some "goodwill", false);
    (Some "intangible_assets", false);
    (Some "long_term_investments", false);
    (Some "other_assets", false);
    (Some "total_assets", true) ].

Definition liabilities_order : list (option string * bool) :=
  [ (Some "accounts_payable", false);
    (Some "accrued_liabilities", false);
    (Some "deferred_revenue_current", false);
    (Some "short_term_debt", false);
    (Some "current_portion_long_term_debt", false);
    (Some "total_current_liabilities", true);
    (Some "long_term_debt", false);
    (Some "deferred_tax_liabilities", false);
    (Some "other_liabilities", false);
    (Some "total_liabilities", true) ].

Definition equity_order : list (option string * bool) :=
  [ (Some "common_stock", false);
    (Some "additional_paid_in_capital", false);
    (Some "retained_earnings", false);
    (Some "accumulated_other_comprehensive_income", false);
    (Some "treasury_stock", false);
    (Some "total_stockholders_equity", true);
    (Some "total_liabilities_and_equity", true) ].

Definition operating_order : list (option string * bool) :=
  [ (Some "net_income_cf", false);
    (Some "depreciation_amortization", false);
    (Some "stock_based_compensation", false);
    (Some "deferred_income_taxes", false);
    (Some "change_in_receivables", false);
    (Some "change_in_inventory", false);
    (Some "change_in_payables", false);
    (Some "other_operating_activities", false);
    (Some "net_cash_from_operating", true) ].

Definition investing_order : list (option string * bool) :=
  [ (Some "capital_expenditures", false);
    (Some "acquisitions", false);
    (Some "purchases_of_investments", false);
    (Some "sales_of_investments", false);
    (Some "net_cash_from_investing", true) ].

Definition financing_order : list (option string * bool) :=
  [ (Some "debt_issuance", false);
    (Some "debt_repayment", false);
    (Some "share_repurchases", false);
    (Some "dividends_paid", false);
    (Some "stock_issuance", false);
    (Some "net_cash_from_financing", true) ].

Definition net_change_order : list (option string * bool) :=
  [ (Some "effect_of_exchange_rate", false);
    (Some "net_change_in_cash", true) ].

Definition _write_income_statement (stmt : FinancialStatement.t) : list Row :=
  let row := _write_header in
  let head := [column_headers row] in
  let row := row + 1 in
  let '(lines, row) := _write_line_items stmt income_line_order row in
  head ++ (Line <$> lines).

Definition _write_balance_sheet (stmt : FinancialStatement.t) : list Row :=
  let row := _write_header in
  let head := [column_headers row] in
  let row := row + 1 in
  let assets := [Captions row ["ASSETS"]] in
  let row := row + 1 in
  let '(assets_lines, row) := _write_line_items stmt assets_order row in
  let row := row + 1 in
  let liabilities := [Captions row ["LIABILITIES"]] in
  let row := row + 1 in
  let '(liabilities_lines, row) := _write_line_items stmt liabilities_order row in
  let row := row + 1 in
  let equity := [Captions row ["STOCKHOLDERS' EQUITY"]] in
  let row := row + 1 in
  let '(equity_lines, row) := _write_line_items stmt equity_order row in
  head ++ assets ++ (Line <$> assets_lines)
       ++ liabilities ++ (Line <$> liabilities_lines)
       ++ equity ++ (Line <$> equity_lines).

Definition _write_cash_flow (stmt : FinancialStatement.t) : list Row :=
  let row := _write_header in
  let head := [column_headers row] in
  let row := row + 1 in
  let operating := [Captions row ["OPERATING ACTIVITIES"]] in
  let row := row + 1 in
  let '(operating_lines, row) := _write_line_items stmt operating_order row in
  let row := row + 1 in
  let investing := [Captions row ["INVESTING ACTIVITIES"]] in
  let row := row + 1 in
  let '(investing_lines, row) := _write_line_items stmt investing_order row in
  let row := row + 1 in
  let financing := [Captions row ["FINANCING ACTIVITIES"]] in
  let row := row + 1 in
  let '(financing_lines, row) := _write_line_items stmt financing_order row in
  let row := row + 1 in
  let '(net_change_lines, row) := _write_line_items stmt net_change_order row in
  head ++ operating ++ (Line <$> operating_lines)
       ++ investing ++ (Line <$> investing_lines)
       ++ financing ++ (Line <$> financing_lines)
       ++ (Line <$> net_change_lines).

(** The cell of a segment figure: [if segment.revenue:], so that a figure
    of zero is left out like a missing one. *)
Definition figure (x : option float) : option float :=
  match x with
  | Some v => if PrimFloat.eqb v 0 then None else Some (v / 1000)%float
  | None => None
  end.

(** The data rows of one segment list, and the next free row. *)
Fixpoint segment_rows (segments : list Segment) (row : Z) : list Row * Z :=
  match segments with
  | [] => ([], row)
  | segment :: rest =>
      let '(rows, next) := segment_rows rest (row + 1) in
      (SegmentLine row (name segment)
         [figure (revenue segment); figure (operating_income segment);
          figure (assets segment)] :: rows,
       next)
  end.

Definition _write_segments (seg_data : SegmentData) : list Row :=
  let row := _write_header in
  let '(business, row) :=
    match business_segments seg_data with
    | [] => ([], row)
    | segments =>
        let caption := Captions row ["BUSINESS SEGMENTS"] in
        let row := row + 1 in
        let headers := Captions row ["Segment"; "Revenue"; "Operating Income"; "Assets"] in
        let row := row + 1 in
        let '(rows, row) := segment_rows segments row in
        (caption :: headers :: rows, row + 1)
    end in
  let geographic :=
    match geographic_segments seg_data with
    | [] => []
    | segments =>
        let caption := Captions row ["GEOGRAPHIC SEGMENTS"] in
        let row := row + 1 in
        let headers := Captions row ["Region"; "Revenue"; "Operating Income"; "Assets"] in
        let row := row + 1 in
        caption :: headers :: (segment_rows segments row).1
    end in
  business ++ geographic.

Module ParsedFiling.
Record t : Type := Make {
  metadata : FilingMetadata.t;
  income_statement : option FinancialStatement.t;
  balance_sheet : option FinancialStatement.t;
  cash_flow_statement : option FinancialStatement.t;
  segment_data : option SegmentData;
}.
End ParsedFiling.

(** A workbook: its sheets in order, each with its title and rows. *)
Definition Workbook : Type := list (string * list Row).

(** [wb.create_sheet(title)] and the rows written to it. *)
Definition create_sheet (wb : Workbook) (title : string) (rows : list Row) : Workbook :=
  wb ++ [(title, rows)].

(** [export]: the workbook that is saved. [Workbook()] starts with the one
    sheet ["Sheet"]. *)
Definition export (parsed_filing : ParsedFiling.t) : Workbook :=
  let wb : Workbook := [("Sheet", [])] in
  let wb :=
    match ParsedFiling.income_statement parsed_filing with
    | Some stmt => create_sheet wb "Income Statement" (_write_income_statement stmt)
    | None => wb
    end in
  let wb :=
    match ParsedFiling.balance_sheet parsed_filing with
    | Some stmt => create_sheet wb "Balance Sheet" (_write_balance_sheet stmt)
    | None => wb
    end in
  let wb :=
    match ParsedFiling.cash_flow_statement parsed_filing with
    | Some stmt => create_sheet wb "Cash Flow" (_write_cash_flow stmt)
    | None => wb
    end in
  let wb :=
    match ParsedFiling.segment_data parsed_filing with
    | Some seg_data => create_sheet wb "Segments" (_write_segments seg_data)
    | None => wb
    end in
  if (1 <? Z.of_nat (length wb)) && bool_decide ("Sheet" ∈ wb.*1)
  then filter (fun sheet => sheet.1 <> "Sheet") wb
  else wb.

End Sheets.

(** ** Choice of the filing and of the period ([main.py]) *)

Module Main.
Import Py Dates Builtins.

(** [int(report_date[:4])]. *)
Definition filing_year (report_date : PyVal) : Res Z :=
  match report_date with
  | PStr s =>
      match int_of_str (take 4 (list_ascii_of_string s)) with
      | Some y => Ok y
      | None => Raise ValueError
      end
  | _ => Raise TypeError
  end.

(** The loop [for f in filings] that looks for the filing of a year;
    [Ok None] when it ends without a [break]. *)
Fixpoint find_filing (filings : list FilingInfo.t) (year : Z)
  : Res (option FilingInfo.t) :=
  match filings with
  | [] => Ok None
  | f :: rest =>
      if truthy (FilingInfo.report_date f) then
        bind (filing_year (FilingInfo.report_date f)) (fun y =>
          if y =? year then Ok (Some f) else find_filing rest year)
      else find_filing rest year
  end.

(** The filing [parse_sec_filing] goes on with: the one of the year, or the
    first of the list when no year is asked for. *)
Definition select_filing (filings : list FilingInfo.t) (year : option Z)
  : Res FilingInfo.t :=
  match filings with
  | [] => Raise ValueError
  | first :: _ =>
      match year with
      | Some y =>
          if negb (y =? 0) then
            bind (find_filing filings y) (fun found =>
              match found with
              | Some f => Ok f
              | None => Raise ValueError
              end)
          else Ok first
      | None => Ok first
      end
  end.

(** The start of the period [parse_sec_filing] queries durations with. *)
Definition period_start_of (form_type : string) (period_end : date) : Res date :=
  if String.eqb form_type "10-K" then
    match make_date (year period_end - 1) (month period_end) (day period_end) with
    | Some d => add_days d 1
    | None =>
        match make_date (year period_end - 1) (month period_end) 1 with
        | Some d => add_days d (day period_end)
        | None => Raise ValueError
        end
    end
  else add_days period_end (-90).

End Main.

(** ** The period of the verification script ([verify_data.py]) *)

Module VerifyData.
Import Py Dates Builtins.

(** The [period_start] of [fetch_sec_data]: the same day of the year before
    plus one day. No handler encloses the expression, in [fetch_sec_data]
    or in the [main] that calls it, so that the [ValueError] of a date that
    does not exist leaves the function. *)
Definition period_start (period_end : date) : Res date :=
  match make_date (year period_end - 1) (month period_end) (day period_end) with
  | Some d => add_days d 1
  | None => Raise ValueError
  end.

End VerifyData.

(** ** Vocabulary of the properties *)

Import Py Dates Mappings Models Extractor Exporter.

(** The three filters of the resolver, each stated on its own. *)

(** The form filter is active for a non-empty required form; an observation
    passes when its form field is that very string. *)
Definition form_ok (form_type : option string) (f : Fact) : bool :=
  match form_type with
  | Some ft =>
      String.eqb ft "" ||
      match f_form f with
      | PStr s => String.eqb s ft
      | _ => false
      end
  | None => true
  end.

(** The period end parses and lies within the tolerance of the target. *)
Definition end_ok (tolerance_days : Z) (target : date) (f : Fact) : bool :=
  match _parse_date (f_end f) with
  | Some d => Z.abs (days_between d target) <=? tolerance_days
  | None => false
  end.

(** With a target start and a start date on the observation, the two lie
    within the tolerance; otherwise nothing is asked. *)
Definition start_ok (tolerance_days : Z) (target : option date) (f : Fact) : bool :=
  match target, _parse_date (f_start f) with
  | Some p, Some d => Z.abs (days_between d p) <=? tolerance_days
  | _, _ => true
  end.

Definition passes_filters (period_end : date) (period_start : option date)
    (form_type : option string) (tolerance_days : Z) (f : Fact) : bool :=
  form_ok form_type f && end_ok tolerance_days period_end f
  && start_ok tolerance_days period_start f.

(** The number an observation yields: its value field, when present and
    convertible to a float. *)
Definition resolved_value (f : Fact) : option float :=
  match f_value f with
  | PNone => None
  | v =>
      match py_float v with
      | Ok x => Some x
      | Raise _ => None
      end
  end.

(** An acceptable match: passes every active filter and yields a number. *)
Definition acceptable (period_end : date) (period_start : option date)
    (form_type : option string) (tolerance_days : Z) (f : Fact) : bool :=
  passes_filters period_end period_start form_type tolerance_days f
  && bool_decide (is_Some (resolved_value f)).

Definition is_str (v : PyVal) : bool :=
  match v with
  | PStr _ => true
  | _ => false
  end.

(** A regular observation: its end field is a string or falsy, so that its
    sort key is a string, and its value is not an integer beyond the float
    range. Sorting and scanning regular observations raise nothing. *)
Definition regular (f : Fact) : bool :=
  is_str (end_key f) &&
  match py_float (f_value f) with
  | Raise OverflowError => false
  | _ => true
  end.

Definition index_regular (idx : gmap string (list Fact)) : Prop :=
  map_Forall (fun _ l => Forall (fun f => regular f = true) l) idx.

(** [a] does not sort before [b]: its key is not less than [b]'s. *)
Definition key_ge (a b : PyVal) : Prop := py_lt a b = Ok false.

(** Sorted by the end key, descending. *)
Definition end_descending (l : list Fact) : Prop :=
  StronglySorted (fun a b => key_ge (end_key a) (end_key b)) l.

(** A date that exists: what [date(y, m, d)] accepts (years from 1). *)
Definition valid_date (d : date) : bool :=
  (1 <=? year d) && (1 <=? month d) && (month d <=? 12)
  && (1 <=? day d) && (day d <=? _days_in_month (year d) (month d)).

(** Year, month and day as one number, ordered as the calendar is. *)
Definition date_code (d : date) : Z := year d * 10000 + month d * 100 + day d.

(** The ten-character form [YYYY-MM-DD], all fields zero-padded. *)
Definition iso10 (s : string) : bool :=
  match list_ascii_of_string s with
  | [y1; y2; y3; y4; h1; m1; m2; h2; d1; d2] =>
      is_digit y1 && is_digit y2 && is_digit y3 && is_digit y4
      && Ascii.eqb h1 "-" && is_digit m1 && is_digit m2
      && Ascii.eqb h2 "-" && is_digit d1 && is_digit d2
  | _ => false
  end.

(** The number the digits of such a string spell. *)
Definition iso_code (s : string) : Z :=
  match list_ascii_of_string s with
  | [y1; y2; y3; y4; _; m1; m2; _; d1; d2] =>
      (100 * two_digits y1 y2 + two_digits y3 y4) * 10000
      + two_digits m1 m2 * 100 + two_digits d1 d2
  | _ => 0
  end.

(** An observation whose end field is a date in the ten-character form. *)
Definition iso_end (f : Fact) : bool :=
  match f_end f with
  | PStr s => iso10 s && bool_decide (is_Some (_parse_date (PStr s)))
  | _ => false
  end.

(** [b] does not end after [a]. *)
Definition ends_no_later (a b : Fact) : Prop :=
  exists da db,
    _parse_date (f_end a) = Some da /\ _parse_date (f_end b) = Some db
    /\ toordinal db <= toordinal da.

(** Sorted by period-end date, descending. *)
Definition date_descending (l : list Fact) : Prop :=
  StronglySorted ends_no_later l.

(** The observations of [concept] in a namespace, in payload order. *)
Definition concept_facts (concept : string) (ns : Namespace) : list Fact :=
  flat_map (fun c =>
              if String.eqb (fst c) concept
              then flat_map (fun u => map (make_fact (fst u)) (snd u)) (snd c)
              else [])
           ns.

(** Whether the index loop reaches [concept] in a namespace: it is listed
    there with at least one unit. *)
Definition concept_indexed (concept : string) (ns : Namespace) : bool :=
  existsb (fun c => String.eqb (fst c) concept
                    && match snd c with [] => false | _ => true end) ns.

(** What an assembled statement owes to the resolver: a key of the table
    whose resolution gave nothing is not in the mapping, and a line item in
    the mapping always carries a value. *)
Definition no_missing_entries (idx : gmap string (list Fact))
    (table : list (string * list string)) (pe : date) (ps : option date)
    (fy : Z) (fp form : string) (stmt : FinancialStatement.t) : Prop :=
  forall key,
    (forall cands, (key, cands) ∈ table ->
       _find_fact_value idx cands pe ps (Some fy) (Some fp) (Some form) 5 = Ok None ->
       FinancialStatement.line_items stmt !! key = None)
    /\ (forall item, FinancialStatement.line_items stmt !! key = Some item ->
          exists v, LineItem.value item = Some v).

(** ** Scenarios *)

(** A payload observation with an end date, a form and an integer value,
    and no other field. *)
Definition obs (end_date form : string) (val : Z) : RawObs :=
  {| r_val := PInt val; r_end := PStr end_date; r_start := PNone;
     r_fy := PNone; r_fp := PNone; r_form := PStr form; r_filed := PNone;
     r_accn := PNone; r_frame := PNone |}.

(** The same with a start date. *)
Definition obs_from (start_date end_date form : string) (val : Z) : RawObs :=
  {| r_val := PInt val; r_end := PStr end_date; r_start := PStr start_date;
     r_fy := PNone; r_fp := PNone; r_form := PStr form; r_filed := PNone;
     r_accn := PNone; r_frame := PNone |}.

(** One us-gaap concept reported in USD. *)
Definition usd (concept : string) (values : list RawObs) : string * Units :=
  (concept, [("USD", values)]).

(** The end-to-end taxonomy of the specification: two annual
    [NetIncomeLoss] observations. *)
Definition net_income_payload : XbrlFacts :=
  {| us_gaap := [usd "NetIncomeLoss" [obs "2024-09-30" "10-K" 1000;
                                      obs "2023-09-30" "10-K" 900]];
     dei := [] |}.

(** The same observations, oldest first. *)
Definition net_income_payload_ascending : XbrlFacts :=
  {| us_gaap := [usd "NetIncomeLoss" [obs "2023-09-30" "10-K" 900;
                                      obs "2024-09-30" "10-K" 1000]];
     dei := [] |}.

(** Two candidates for one item, target 2024-09-28: the preferred one has
    an observation five days later, the other one on the very day. *)
Definition priority_payload : XbrlFacts :=
  {| us_gaap := [usd "SalesRevenueNet" [obs "2024-09-28" "10-K" 222];
                 usd "Revenues" [obs "2024-10-03" "10-K" 111]];
     dei := [] |}.

(** One concept observed 4 and 6 days on either side of 2024-09-28. *)
Definition tolerance_payload : XbrlFacts :=
  {| us_gaap := [usd "NetIncomeLoss" [obs "2024-09-22" "10-K" 94;
                                      obs "2024-09-24" "10-K" 96;
                                      obs "2024-10-02" "10-K" 104;
                                      obs "2024-10-04" "10-K" 106]];
     dei := [] |}.

(** A year ending 2024-09-28: one observation covering the last quarter
    only, one with no start date. *)
Definition duration_payload : XbrlFacts :=
  {| us_gaap := [usd "NetIncomeLoss"
                   [obs_from "2024-06-30" "2024-09-28" "10-K" 250;
                    obs "2024-09-28" "10-K" 1000]];
     dei := [] |}.

(** A statement for the year ending 2024-09-28 holding the one line item
    the assemblers build for [key] resolved to [value]. *)
Definition single_item_statement (key tag : string) (value : float)
  : FinancialStatement.t :=
  FinancialStatement.add_line_item
    (FinancialStatement.Make INCOME_STATEMENT (Date 2024 9 28) 2024 "FY"
       (Some (Date 2023 10 1)) ∅)
    key
    (make_line_item key tag value (Some (Date 2023 10 1)) (Date 2024 9 28)).

(** The end-to-end taxonomy with a third observation whose value is an
    integer of 401 digits. *)
Definition oversized_value_payload : XbrlFacts :=
  {| us_gaap := [usd "NetIncomeLoss" [obs "2024-09-30" "10-K" 1000;
                                      obs "2023-09-30" "10-K" 900;
                                      obs "2024-10-01" "10-K" (10 ^ 400)]];
     dei := [] |}.

(** The end-to-end taxonomy with a third observation whose end field is
    the number 20240930 instead of a string. *)
Definition numeric_end_payload : XbrlFacts :=
  {| us_gaap := [usd "NetIncomeLoss"
                   [obs "2024-09-30" "10-K" 1000;
                    obs "2023-09-30" "10-K" 900;
                    {| r_val := PInt 5; r_end := PInt 20240930; r_start := PNone;
                       r_fy := PNone; r_fp := PNone; r_form := PStr "10-K";
                       r_filed := PNone; r_accn := PNone; r_frame := PNone |}]];
     dei := [] |}.

(** ** Further vocabulary *)

(** The observation's end key is the string [k]. *)
Definition has_key (k : string) (f : Fact) : bool :=
  match end_key f with
  | PStr s => String.eqb s k
  | _ => false
  end.

(** The observation with its start date removed. *)
Definition without_start (f : Fact) : Fact :=
  {| f_value := f_value f; f_end := f_end f; f_start := PNone;
     f_fy := f_fy f; f_fp := f_fp f; f_form := f_form f;
     f_filed := f_filed f; f_accn := f_accn f; f_frame := f_frame f;
     f_unit := f_unit f |}.

(** Two observations of one concept with the same end field, as a
    restated figure next to the original one, then an older one. *)
Definition restated_payload : XbrlFacts :=
  {| us_gaap := [usd "NetIncomeLoss" [obs "2023-09-30" "10-K" 900;
                                      obs "2024-09-30" "10-K" 1000;
                                      obs "2024-09-30" "10-K" 1010]];
     dei := [] |}.

(** Two observations of one concept that end the same day, the second
    with a timestamp for its end field. *)
Definition timestamp_payload : XbrlFacts :=
  {| us_gaap := [usd "NetIncomeLoss" [obs "2024-09-30" "10-K" 1000;
                                      obs "2024-09-30T00:00:00" "10-K" 1010]];
     dei := [] |}.

(** The character of a decimal digit. *)
Definition digit_char (n : Z) : ascii := ascii_of_N (Z.to_N (48 + n)).

(** [d.isoformat()]: [YYYY-MM-DD], zero-padded. *)
Definition isoformat (d : date) : string :=
  string_of_list_ascii
    [digit_char (year d / 1000); digit_char (year d / 100 mod 10);
     digit_char (year d / 10 mod 10); digit_char (year d mod 10); "-"%char;
     digit_char (month d / 10); digit_char (month d mod 10); "-"%char;
     digit_char (day d / 10); digit_char (day d mod 10)].

(** Where the line items of an assembled statement come from: each one is
    the item built for a key of the table from the value and tag the
    resolver returned for the key's candidates, the tag being one of those
    candidates and a concept of the index. *)
Definition items_from_table (idx : gmap string (list Fact))
    (table : list (string * list string)) (pe : date) (ps : option date)
    (fy : Z) (fp form : string) (stmt : FinancialStatement.t) : Prop :=
  forall key item,
    FinancialStatement.line_items stmt !! key = Some item ->
    exists cands v tag,
      (key, cands) ∈ table
      /\ _find_fact_value idx cands pe ps (Some fy) (Some fp) (Some form) 5
         = Ok (Some (v, tag))
      /\ tag ∈ cands
      /\ is_Some (idx !! tag)
      /\ item = make_line_item key tag v ps pe.

(** The statement header an assembler starts from. *)
Definition empty_statement (type : StatementType) (pe : date) (ps : option date)
    (fy : Z) (fp : string) : FinancialStatement.t :=
  FinancialStatement.Make type pe fy fp ps ∅.

(** A payload with nothing in it. *)
Definition empty_payload : XbrlFacts := {| us_gaap := []; dei := [] |}.

(** ** Vocabulary for the calendar, the filings and the sheets *)

Import Builtins Client Sheets.

(** The month and day [_ord2ymd] gives the day of index [n] (from 0) of a
    year. *)
Definition month_day (leapyear : bool) (n : Z) : Z * Z :=
  let month := Z.shiftr (n + 50) 5 in
  let preceding :=
    nth (Z.to_nat month) _DAYS_BEFORE_MONTH 0
    + (if (2 <? month) && leapyear then 1 else 0) in
  let '(month, preceding) :=
    if preceding >? n then
      (month - 1,
       preceding - (nth (Z.to_nat (month - 1)) _DAYS_IN_MONTH 0
                    + (if (month - 1 =? 2) && leapyear then 1 else 0)))
    else (month, preceding) in
  (month, n - preceding + 1).

(** That month and day exist in a year that is leap or not, and are the
    day of index [n]. *)
Definition month_day_ok (leapyear : bool) (n : Z) : bool :=
  let '(m, d) := month_day leapyear n in
  (1 <=? m) && (m <=? 12) && (1 <=? d)
  && (d <=? (if (m =? 2) && leapyear then 29
             else nth (Z.to_nat m) [0; 31; 28; 31; 30; 31; 30; 31; 31; 30; 31; 30; 31] 0))
  && (nth (Z.to_nat m) [0; 0; 31; 59; 90; 120; 151; 181; 212; 243; 273; 304; 334] 0
      + (if (2 <? m) && leapyear then 1 else 0) + d =? n + 1).

(** The [n] integers from [lo] on. *)
Definition range (lo : Z) (n : nat) : list Z := (fun i => lo + Z.of_nat i) <$> seq 0 n.

(** The same day one year back. *)
Definition year_before (d : date) : date := Date (year d - 1) (month d) (day d).

(** February 29th. *)
Definition is_leap_day (d : date) : bool := (month d =? 2) && (day d =? 29).

(** The field is one [extract_metadata] can read: a date string, or a value
    that is empty or no string, for which today's date is taken. *)
Definition readable (v : PyVal) : bool :=
  negb (is_str v && truthy v) || bool_decide (is_Some (_parse_date v)).

(** A filing of the list is passed over by the search for year [y]: its
    report date is empty, or reads as another year. *)
Definition other_year (y : Z) (g : FilingInfo.t) : Prop :=
  truthy (FilingInfo.report_date g) = false
  \/ exists y', Main.filing_year (FilingInfo.report_date g) = Ok y' /\ y' <> y.

(** The parallel arrays reach as far as the form array, and the ticker
    list, if there is one, is not empty. *)
Definition aligned (company_info : CompanyInfo) : Prop :=
  (length (forms company_info) <= length (accession_numbers company_info))%nat
  /\ (length (forms company_info) <= length (filing_dates company_info))%nat
  /\ (length (forms company_info) <= length (report_dates company_info))%nat
  /\ (length (forms company_info) <= length (primary_docs company_info))%nat
  /\ ci_tickers company_info <> Some [].

(** The entry of position [i] of the payload. *)
Definition filing_row (company_info : CompanyInfo) (cik form_type : string) (i : nat)
  : FilingInfo.t :=
  FilingInfo.Make form_type
    (default PNone (accession_numbers company_info !! i))
    (default PNone (filing_dates company_info !! i))
    (default PNone (report_dates company_info !! i))
    (default PNone (primary_docs company_info !! i))
    cik (ci_name company_info)
    (default PNone (head (default [PNone] (ci_tickers company_info)))).

(** The entries of the payload filed under [form_type], from position
    [from] of the form array on, in the payload's order. *)
Definition filings_of_form (company_info : CompanyInfo) (cik form_type : string)
    (from : nat) (forms : list PyVal) : list FilingInfo.t :=
  omap id (imap (fun j form =>
                   if negb (ne_str form form_type)
                   then Some (filing_row company_info cik form_type (from + j))
                   else None) forms).

(** Number of spacers of a line order. *)
Definition spacers (line_order : list (option string * bool)) : Z :=
  Z.of_nat (length (filter (fun e => e.1 = None) line_order)).

(** The keys of a line order, spacers left out. *)
Definition order_keys (line_order : list (option string * bool)) : list string :=
  omap fst line_order.

(** The statement lines among the rows of a sheet. *)
Definition lines (rows : list Row) : list Written :=
  omap (fun r => match r with Line w => Some w | _ => None end) rows.

(** What a row shows of a line item: its label and the value cell. *)
Definition shown (key : string) (item : LineItem.t)
  : string * option (float * NumFormat) :=
  (LineItem.label item, scaled_value key item).

(** What the statement lines of a sheet show, in row order. *)
Definition shown_lines (rows : list Row) : list (string * option (float * NumFormat)) :=
  (fun w => (w_label w, w_value w)) <$> lines rows.

(** Rows that go down the page between [lo] and [hi]: their numbers
    increase strictly and stay in that range. *)
Definition page (lo hi : Z) (rows : list Row) : Prop :=
  lo <= hi
  /\ StronglySorted Z.lt (row_of <$> rows)
  /\ Forall (fun r => lo <= row_of r < hi) rows.

(** The keys each sheet asks for, in the order of its rows. *)
Definition income_keys : list string := order_keys income_line_order.

Definition balance_keys : list string :=
  order_keys assets_order ++ order_keys liabilities_order ++ order_keys equity_order.

Definition cash_flow_keys : list string :=
  order_keys operating_order ++ order_keys investing_order
  ++ order_keys financing_order ++ order_keys net_change_order.

(** The sheet of a part of the filing, if the part is there. *)
Definition sheet_of {A : Type} (title : string) (writer : A -> list Row)
    (part : option A) : Workbook :=
  match part with
  | Some x => [(title, writer x)]
  | None => []
  end.

(** The sheets of the parts a filing has, in the order of the workbook. *)
Definition sheets_of_parts (parsed_filing : ParsedFiling.t) : Workbook :=
  sheet_of "Income Statement" _write_income_statement
           (ParsedFiling.income_statement parsed_filing)
  ++ sheet_of "Balance Sheet" _write_balance_sheet
              (ParsedFiling.balance_sheet parsed_filing)
  ++ sheet_of "Cash Flow" _write_cash_flow
              (ParsedFiling.cash_flow_statement parsed_filing)
  ++ sheet_of "Segments" _write_segments (ParsedFiling.segment_data parsed_filing).

(** *** Scenarios *)

(** An annual filing of a company with the given report date. *)
Definition filing_of (report_date : string) : FilingInfo.t :=
  FilingInfo.Make "10-K" (PStr "0000320193-24-000123") (PStr "2024-11-01")
    (PStr report_date) (PStr "aapl-20240928.htm") "320193"
    (PStr "Apple Inc.") (PStr "AAPL").

(** A submissions payload with three annual reports among five filings. *)
Definition submissions : CompanyInfo :=
  {| ci_name := PStr "Apple Inc.";
     ci_tickers := Some [PStr "AAPL"];
     forms := [PStr "10-Q"; PStr "10-K"; PStr "8-K"; PStr "10-K"; PStr "10-K"];
     accession_numbers := [PStr "a5"; PStr "a4"; PStr "a3"; PStr "a2"; PStr "a1"];
     filing_dates := [PStr "2025-05-02"; PStr "2024-11-01"; PStr "2024-08-01";
                      PStr "2023-11-03"; PStr "2022-10-28"];
     report_dates := [PStr "2025-03-29"; PStr "2024-09-28"; PStr "";
                      PStr "2023-09-30"; PStr "2022-09-24"];
     primary_docs := [PStr "q.htm"; PStr "k24.htm"; PStr "e.htm"; PStr "k23.htm";
                      PStr "k22.htm"] |}.

(** ** The sort *)

Section SortFacts.
Context {A : Type} (key : A -> PyVal).

Lemma insert_desc_perm x l l' :
  insert_desc key x l = Ok l' -> l' ≡ₚ x :: l.
Proof.
  revert l'. induction l as [|y l IH]; intros l' H; simpl in H.
  - by inversion H.
  - destruct (py_lt (key x) (key y)) as [[|]|e]; simpl in H; try discriminate.
    + destruct (insert_desc key x l) as [r|e]; simpl in H; inversion H; subst.
      rewrite (IH r eq_refl). apply perm_swap.
    + by inversion H.
Qed.

Lemma sorted_reverse_perm l l' :
  sorted_reverse key l = Ok l' -> l' ≡ₚ l.
Proof.
  revert l'. induction l as [|x l IH]; intros l' H; simpl in H.
  - by inversion H.
  - destruct (sorted_reverse key l) as [r|e]; simpl in H; try discriminate.
    rewrite (insert_desc_perm _ _ _ H). by rewrite (IH r eq_refl).
Qed.

Lemma insert_desc_total x l :
  is_str (key x) = true -> Forall (fun y => is_str (key y) = true) l ->
  exists l', insert_desc key x l = Ok l'.
Proof.
  intros Hx Hl. induction Hl as [|y l Hy Hl IH]; simpl; [eauto|].
  destruct (key x) as [| | | |s]; try discriminate.
  destruct (key y) as [| | | |t]; try discriminate. simpl.
  destruct (String.ltb s t); [|eauto].
  destruct IH as [r ->]. simpl. eauto.
Qed.

Lemma sorted_reverse_total l :
  Forall (fun y => is_str (key y) = true) l ->
  exists l', sorted_reverse key l = Ok l'.
Proof.
  induction 1 as [|x l Hx Hl IH]; simpl; [eauto|].
  destruct IH as [r Hr]. rewrite Hr. simpl.
  apply insert_desc_total; [done|].
  apply sorted_reverse_perm in Hr. by rewrite Hr.
Qed.
End SortFacts.

Lemma ltb_false_leb s t : String.ltb s t = false <-> String.leb t s = true.
Proof.
  unfold String.ltb, String.leb. rewrite (String.compare_antisym s t).
  destruct (String.compare t s); simpl; intuition congruence.
Qed.

Lemma key_ge_str s t : key_ge (PStr s) (PStr t) <-> String.le t s.
Proof.
  unfold key_ge, String.le. simpl. split.
  - intros H. apply Is_true_true, ltb_false_leb. congruence.
  - intros H%Is_true_true%ltb_false_leb. by rewrite H.
Qed.

Lemma key_ge_trans a b c :
  is_str a = true -> is_str b = true -> is_str c = true ->
  key_ge a b -> key_ge b c -> key_ge a c.
Proof.
  destruct a as [| | | |s], b as [| | | |t], c as [| | | |u]; try discriminate.
  intros _ _ _. rewrite !key_ge_str. intros H1 H2. by trans t.
Qed.

Lemma key_ge_total a b :
  is_str a = true -> is_str b = true -> py_lt a b = Ok true -> key_ge b a.
Proof.
  destruct a as [| | | |s], b as [| | | |t]; try discriminate.
  intros _ _ H. apply key_ge_str. simpl in H.
  destruct (total String.le s t) as [Hle|Hle]; [done|].
  apply Is_true_true, ltb_false_leb in Hle. congruence.
Qed.

Section SortOrder.
Context {A : Type} (key : A -> PyVal).

Lemma insert_desc_sorted x l l' :
  is_str (key x) = true ->
  Forall (fun y => is_str (key y) = true) l ->
  StronglySorted (fun a b => key_ge (key a) (key b)) l ->
  insert_desc key x l = Ok l' ->
  StronglySorted (fun a b => key_ge (key a) (key b)) l'.
Proof.
  intros Hx Hl Hs. revert l'.
  induction Hs as [|y l Hs IH Hy]; intros l' H; simpl in H.
  - inversion H. repeat constructor.
  - apply Forall_cons in Hl as [Hky Hl].
    destruct (py_lt (key x) (key y)) as [[|]|e] eqn:Hlt; simpl in H; try discriminate.
    + destruct (insert_desc key x l) as [r|e] eqn:Hr; simpl in H; inversion H; subst.
      constructor; [by apply IH|].
      rewrite (insert_desc_perm _ _ _ _ Hr). constructor; [|done].
      by apply key_ge_total.
    + inversion H; subst. constructor; [by constructor|].
      constructor; [done|].
      rewrite Forall_forall in Hy, Hl. apply Forall_forall. intros z Hz.
      apply (key_ge_trans _ (key y)); [done|done|by apply Hl|done|by apply Hy].
Qed.

Lemma sorted_reverse_sorted l l' :
  Forall (fun y => is_str (key y) = true) l ->
  sorted_reverse key l = Ok l' ->
  StronglySorted (fun a b => key_ge (key a) (key b)) l'.
Proof.
  intros Hl. revert l'. induction Hl as [|x l Hx Hl IH]; intros l' H; simpl in H.
  - inversion H. constructor.
  - destruct (sorted_reverse key l) as [r|e] eqn:Hr; simpl in H; try discriminate.
    apply (insert_desc_sorted x r l'); [done| |by apply IH|done].
    by rewrite (sorted_reverse_perm _ _ _ Hr).
Qed.
End SortOrder.

(** ** Dates and their strings *)

Lemma days_before_year_succ y :
  _days_before_year (y + 1) = _days_before_year y + (if _is_leap y then 366 else 365).
Proof.
  unfold _days_before_year, _is_leap.
  replace (y + 1 - 1) with y by lia.
  destruct (y mod 4 =? 0) eqn:H4, (y mod 100 =? 0) eqn:H100, (y mod 400 =? 0) eqn:H400;
    simpl; Z.div_mod_to_equations; lia.
Qed.

Lemma days_before_year_mono a b : a <= b -> _days_before_year a <= _days_before_year b.
Proof. unfold _days_before_year. intros. Z.div_mod_to_equations. lia. Qed.

Lemma month_cases m : 1 <= m <= 12 ->
  m = 1 \/ m = 2 \/ m = 3 \/ m = 4 \/ m = 5 \/ m = 6 \/ m = 7 \/ m = 8 \/ m = 9 \/ m = 10 \/ m = 11 \/ m = 12.
Proof. lia. Qed.

Lemma day_of_year_bound y m d :
  1 <= m <= 12 -> d <= _days_in_month y m ->
  _days_before_month y m + d <= (if _is_leap y then 366 else 365).
Proof.
  intros Hm Hd. unfold _days_in_month, _days_before_month in *.
  destruct (_is_leap y);
  destruct (month_cases m Hm) as [->|[->|[->|[->|[->|[->|[->|[->|[->|[->|[->| ->]]]]]]]]]]];
    simpl in *; lia.
Qed.

Lemma days_before_month_next y m m' d :
  1 <= m -> m < m' <= 12 -> d <= _days_in_month y m ->
  _days_before_month y m + d <= _days_before_month y m'.
Proof.
  intros Hm Hm' Hd. unfold _days_in_month, _days_before_month in *.
  assert (1 <= m <= 12) as Hm1 by lia. assert (1 <= m' <= 12) as Hm2 by lia.
  destruct (_is_leap y);
  destruct (month_cases m Hm1) as [->|[->|[->|[->|[->|[->|[->|[->|[->|[->|[->| ->]]]]]]]]]]];
  destruct (month_cases m' Hm2) as [->|[->|[->|[->|[->|[->|[->|[->|[->|[->|[->| ->]]]]]]]]]]];
    simpl in *; lia.
Qed.

Lemma toordinal_mono d1 d2 :
  valid_date d1 = true -> valid_date d2 = true ->
  year d1 * 10000 + month d1 * 100 + day d1 <= year d2 * 10000 + month d2 * 100 + day d2 ->
  toordinal d1 <= toordinal d2.
Proof.
  unfold valid_date, toordinal. destruct d1 as [y1 m1 a1], d2 as [y2 m2 a2]. simpl.
  intros H1 H2 Hc.
  repeat (apply andb_true_iff in H1 as [H1 ?]). repeat (apply andb_true_iff in H2 as [H2 ?]).
  assert (_days_in_month y1 m1 <= 31 /\ _days_in_month y2 m2 <= 31) as [? ?].
  { unfold _days_in_month. split.
    - assert (1 <= m1 <= 12) as Hm by lia.
      destruct (_is_leap y1);
      destruct (month_cases m1 Hm) as [->|[->|[->|[->|[->|[->|[->|[->|[->|[->|[->| ->]]]]]]]]]]]; simpl; lia.
    - assert (1 <= m2 <= 12) as Hm by lia.
      destruct (_is_leap y2);
      destruct (month_cases m2 Hm) as [->|[->|[->|[->|[->|[->|[->|[->|[->|[->|[->| ->]]]]]]]]]]]; simpl; lia. }
  destruct (Z.lt_trichotomy y1 y2) as [Hy|[->|Hy]]; [| |lia].
  - pose proof (day_of_year_bound y1 m1 a1 ltac:(lia) ltac:(lia)).
    pose proof (days_before_year_succ y1).
    pose proof (days_before_year_mono (y1 + 1) y2 ltac:(lia)).
    assert (0 <= _days_before_month y2 m2).
    { unfold _days_before_month. assert (1 <= m2 <= 12) as Hm by lia.
      destruct (_is_leap y2);
      destruct (month_cases m2 Hm) as [->|[->|[->|[->|[->|[->|[->|[->|[->|[->|[->| ->]]]]]]]]]]]; simpl; lia. }
    destruct (_is_leap y1); lia.
  - destruct (Z.lt_trichotomy m1 m2) as [Hm|[->|Hm]]; [| lia |lia].
    pose proof (days_before_month_next y2 m1 m2 a1 ltac:(lia) ltac:(lia) ltac:(lia)). lia.
Qed.

Lemma is_digit_val c :
  is_digit c = true -> Z.of_N (N_of_ascii c) = 48 + digit_val c /\ 0 <= digit_val c <= 9.
Proof.
  unfold is_digit, digit_val. intros [H1 H2]%andb_true_iff.
  apply N.leb_le in H1, H2. lia.
Qed.

Ltac split_string s H :=
  destruct s as [|? s]; [discriminate H|].

Lemma iso10_chars s :
  iso10 s = true ->
  exists y1 y2 y3 y4 m1 m2 d1 d2,
    s = String y1 (String y2 (String y3 (String y4 (String "-"
          (String m1 (String m2 (String "-" (String d1 (String d2 "")))))))))
    /\ Forall (fun c => is_digit c = true) [y1; y2; y3; y4; m1; m2; d1; d2].
Proof.
  unfold iso10. intros H.
  do 10 (split_string s H). destruct s; [|discriminate H]. simpl in H.
  rewrite !andb_true_iff in H.
  destruct H as (((((((((?&?)&?)&?)&?)&?)&?)&?)&?)&?).
  repeat match goal with H : Ascii.eqb _ _ = true |- _ => apply Ascii.eqb_eq in H; subst end.
  do 8 eexists. split; [reflexivity|]. repeat constructor; assumption.
Qed.

Lemma parse_month_padded a b r :
  is_digit a = true -> is_digit b = true ->
  parse_month (a :: b :: "-"%char :: r)
  = if (1 <=? two_digits a b) && (two_digits a b <=? 12)
    then Some (two_digits a b, r) else None.
Proof.
  intros Ha Hb. unfold parse_month. rewrite Ha, Hb. simpl.
  destruct ((1 <=? two_digits a b) && (two_digits a b <=? 12)); [done|].
  destruct (Ascii.eqb_spec b "-") as [->|_]; [discriminate Hb|done].
Qed.

Lemma parse_day_padded a b :
  is_digit a = true -> is_digit b = true ->
  parse_day [a; b]
  = if (1 <=? two_digits a b) && (two_digits a b <=? 31)
    then Some (two_digits a b) else None.
Proof.
  intros Ha Hb. unfold parse_day. rewrite Ha, Hb. simpl.
  destruct ((1 <=? two_digits a b) && (two_digits a b <=? 31)); [done|].
  destruct (Ascii.eqb_spec a " ") as [->|_]; [discriminate Ha|done].
Qed.

Lemma make_date_valid y m d x :
  make_date y m d = Some x -> x = Date y m d /\ valid_date x = true.
Proof.
  unfold make_date, valid_date.
  destruct ((1 <=? y) && (y <=? 9999) && (1 <=? m) && (m <=? 12) && (1 <=? d)
            && (d <=? _days_in_month y m)) eqn:H; [|done].
  intros [= <-]. split; [done|]. simpl.
  rewrite !andb_true_iff in *. tauto.
Qed.

(** An end field in the ten-character form parses to the date its digits
    spell. *)
Lemma iso10_parse s d :
  iso10 s = true -> _parse_date (PStr s) = Some d ->
  valid_date d = true /\ date_code d = iso_code s.
Proof.
  intros (y1 & y2 & y3 & y4 & m1 & m2 & d1 & d2 & -> & Hd)%iso10_chars.
  repeat (apply Forall_cons in Hd as [? Hd]).
  unfold _parse_date, iso_code, date_code. simpl.
  repeat match goal with H : is_digit _ = true |- _ => rewrite H end. simpl.
  rewrite parse_month_padded by done.
  destruct ((1 <=? two_digits m1 m2) && (two_digits m1 m2 <=? 12)); [|done].
  rewrite parse_day_padded by done.
  destruct ((1 <=? two_digits d1 d2) && (two_digits d1 d2 <=? 31)); [|done].
  intros [-> Hv]%make_date_valid. split; [done|]. simpl. lia.
Qed.

Lemma digit_compare a b :
  is_digit a = true -> is_digit b = true ->
  Ascii.compare a b = (digit_val a ?= digit_val b).
Proof.
  intros [Ha _]%is_digit_val [Hb _]%is_digit_val. unfold Ascii.compare.
  rewrite <- N2Z.inj_compare, Ha, Hb. apply Z.add_compare_mono_l.
Qed.

(** For end fields in that form, string order is date order. *)
Lemma iso10_order s t :
  iso10 s = true -> iso10 t = true -> String.leb t s = true ->
  iso_code t <= iso_code s.
Proof.
  intros (y1 & y2 & y3 & y4 & m1 & m2 & d1 & d2 & -> & Hs)%iso10_chars.
  intros (z1 & z2 & z3 & z4 & n1 & n2 & e1 & e2 & -> & Ht)%iso10_chars.
  repeat (apply Forall_cons in Hs as [? Hs]). repeat (apply Forall_cons in Ht as [? Ht]).
  unfold String.leb, iso_code, two_digits. simpl.
  rewrite !digit_compare by done.
  repeat match goal with H : is_digit _ = true |- _ => apply is_digit_val in H as [_ ?] end.
  repeat match goal with
         | |- context [?a ?= ?b] => destruct (Z.compare_spec a b); simpl
         end; try done; lia.
Qed.

Lemma StronglySorted_impl {A : Type} (R R' : A -> A -> Prop) (P : A -> Prop) l :
  (forall a b, P a -> P b -> R a b -> R' a b) ->
  Forall P l -> StronglySorted R l -> StronglySorted R' l.
Proof.
  intros HR HP Hs. induction Hs as [|a l Hs IH Ha]; [constructor|].
  apply Forall_cons in HP as [HPa HP]. constructor; [by apply IH|].
  rewrite Forall_forall in Ha, HP. apply Forall_forall. intros b Hb.
  apply HR; auto.
Qed.

(** Among observations whose end field has the ten-character form, key
    order is date order. *)
Lemma iso_end_key_order a b :
  iso_end a = true -> iso_end b = true ->
  key_ge (end_key a) (end_key b) -> ends_no_later a b.
Proof.
  unfold iso_end, end_key, ends_no_later.
  destruct (f_end a) as [| | | |s]; try done. destruct (f_end b) as [| | | |t]; try done.
  intros [Hs [da Hda]%bool_decide_eq_true]%andb_true_iff.
  intros [Ht [db Hdb]%bool_decide_eq_true]%andb_true_iff.
  destruct (iso10_parse _ _ Hs Hda) as [Hva Hca].
  destruct (iso10_parse _ _ Ht Hdb) as [Hvb Hcb].
  assert (py_or (PStr s) (PStr "") = PStr s) as ->.
  { apply iso10_chars in Hs as (? & ? & ? & ? & ? & ? & ? & ? & -> & _). done. }
  assert (py_or (PStr t) (PStr "") = PStr t) as ->.
  { apply iso10_chars in Ht as (? & ? & ? & ? & ? & ? & ? & ? & -> & _). done. }
  intros Hge%key_ge_str. exists da, db. split_and!; [done..|].
  apply toordinal_mono; [done..|]. fold (date_code db). fold (date_code da).
  rewrite Hca, Hcb. apply iso10_order; [done..|]. by apply Is_true_true.
Qed.

(** ** The resolver *)

(** Case analysis on the value field of [f] and on the outcome of its
    conversion, wherever the conversion shows. *)
Ltac case_value f :=
  destruct (f_value f); try done;
  match goal with
  | |- context [py_float ?v] => destruct (py_float v) as [?|[]]
  | H : context [py_float ?v] |- _ => destruct (py_float v) as [?|[]]
  end.

Section ResolverFacts.
Variable idx : gmap string (list Fact).
Variable pe : date.
Variable ps : option date.
Variable ft : option string.
Variable tol : Z.

Local Arguments py_float : simpl never.

Lemma form_mismatch_form_ok f : form_mismatch ft f = negb (form_ok ft f).
Proof.
  unfold form_mismatch, form_ok, ne_str. destruct ft as [s|]; [|done].
  destruct (String.eqb s ""); simpl; [done|].
  by destruct (f_form f).
Qed.

Lemma start_mismatch_start_ok f : start_mismatch ps tol f = negb (start_ok tol ps f).
Proof.
  unfold start_mismatch, start_ok. destruct ps as [p|]; [|done].
  destruct (_parse_date (f_start f)) as [d|]; [|done].
  rewrite Z.gtb_ltb, Z.ltb_antisym. done.
Qed.

(** An observation that fails a filter is passed over. *)
Lemma check_fact_filtered f :
  passes_filters pe ps ft tol f = false -> check_fact pe ps ft tol f = Ok None.
Proof.
  unfold passes_filters, check_fact, end_ok. intros H.
  rewrite form_mismatch_form_ok, start_mismatch_start_ok.
  destruct (form_ok ft f); simpl in *; [|done].
  destruct (_parse_date (f_end f)) as [d|]; [|done].
  rewrite Z.gtb_ltb, Z.ltb_antisym.
  destruct (Z.abs (days_between d pe) <=? tol); simpl in *; [|done].
  by rewrite H.
Qed.

(** An observation that passes the filters is decided by its value. *)
Lemma check_fact_passed f :
  passes_filters pe ps ft tol f = true ->
  check_fact pe ps ft tol f =
    match f_value f with
    | PNone => Ok None
    | value =>
        match py_float value with
        | Ok v => Ok (Some v)
        | Raise OverflowError => Raise OverflowError
        | Raise _ => Ok None
        end
    end.
Proof.
  unfold passes_filters, check_fact, end_ok. intros H.
  rewrite form_mismatch_form_ok, start_mismatch_start_ok.
  destruct (form_ok ft f); simpl in *; [|done].
  destruct (_parse_date (f_end f)) as [d|]; [|done].
  rewrite Z.gtb_ltb, Z.ltb_antisym.
  destruct (Z.abs (days_between d pe) <=? tol); simpl in *; [|done].
  rewrite H. simpl.
  case_value f; done.
Qed.

Lemma check_fact_accept f v :
  passes_filters pe ps ft tol f = true -> resolved_value f = Some v ->
  check_fact pe ps ft tol f = Ok (Some v).
Proof.
  intros Hp Hv. rewrite (check_fact_passed _ Hp). unfold resolved_value in Hv.
  case_value f; congruence.
Qed.

Lemma check_fact_reject f :
  regular f = true -> acceptable pe ps ft tol f = false ->
  check_fact pe ps ft tol f = Ok None.
Proof.
  unfold regular, acceptable. intros [_ Hr]%andb_true_iff Ha.
  destruct (passes_filters pe ps ft tol f) eqn:Hp; [|by apply check_fact_filtered].
  rewrite (check_fact_passed _ Hp). simpl in Ha.
  apply bool_decide_eq_false in Ha. unfold resolved_value in Ha.
  case_value f; try done; exfalso; apply Ha; eauto.
Qed.

Lemma acceptable_value f :
  acceptable pe ps ft tol f = true ->
  passes_filters pe ps ft tol f = true /\ exists v, resolved_value f = Some v.
Proof.
  unfold acceptable. intros [Hp Hv]%andb_true_iff.
  apply bool_decide_eq_true in Hv as [v Hv]. eauto.
Qed.

(** Observations passed over leave the scan where it was. *)
Lemma scan_facts_skip l1 l2 :
  Forall (fun f => check_fact pe ps ft tol f = Ok None) l1 ->
  scan_facts pe ps ft tol (l1 ++ l2) = scan_facts pe ps ft tol l2.
Proof. induction 1 as [|f l1 Hf _ IH]; simpl; [done|]. by rewrite Hf. Qed.

Lemma scan_facts_none l :
  Forall (fun f => regular f = true) l ->
  Forall (fun f => acceptable pe ps ft tol f = false) l ->
  scan_facts pe ps ft tol l = Ok None.
Proof.
  intros Hr Ha. rewrite <- (app_nil_r l), scan_facts_skip; [done|].
  rewrite Forall_forall in Hr, Ha. apply Forall_forall. intros f Hf.
  apply check_fact_reject; auto.
Qed.

(** The scan returns the value of the first acceptable observation. *)
Lemma scan_facts_first l :
  Forall (fun f => regular f = true) l ->
  Exists (fun f => acceptable pe ps ft tol f = true) l ->
  exists l1 f l2 v,
    l = l1 ++ f :: l2
    /\ Forall (fun g => acceptable pe ps ft tol g = false) l1
    /\ acceptable pe ps ft tol f = true
    /\ resolved_value f = Some v
    /\ scan_facts pe ps ft tol l = Ok (Some v).
Proof.
  induction 1 as [|f l Hf Hl IH]; intros Hex; [by apply Exists_nil in Hex|].
  destruct (acceptable pe ps ft tol f) eqn:Ha.
  - destruct (acceptable_value _ Ha) as [Hp [v Hv]].
    exists [], f, l, v. simpl. rewrite (check_fact_accept _ _ Hp Hv). auto.
  - apply Exists_cons in Hex as [Hex|Hex]; [congruence|].
    destruct (IH Hex) as (l1 & g & l2 & v & -> & Hl1 & Hg & Hv & Hscan).
    exists (f :: l1), g, l2, v. simpl.
    rewrite (check_fact_reject _ Hf Ha). auto.
Qed.

(** What a returned value says of the observation it came from. *)
Lemma check_fact_some_inv f v :
  check_fact pe ps ft tol f = Ok (Some v) ->
  acceptable pe ps ft tol f = true /\ resolved_value f = Some v.
Proof.
  intros H. unfold acceptable.
  destruct (passes_filters pe ps ft tol f) eqn:Hp.
  - rewrite (check_fact_passed _ Hp) in H. unfold resolved_value.
    case_value f; inversion H; subst; (split; [by apply bool_decide_eq_true|done]).
  - by rewrite (check_fact_filtered _ Hp) in H.
Qed.

Lemma acceptable_not_passed_over f :
  acceptable pe ps ft tol f = true -> check_fact pe ps ft tol f <> Ok None.
Proof.
  intros [Hp [v Hv]]%acceptable_value. by rewrite (check_fact_accept _ _ Hp Hv).
Qed.

Lemma scan_facts_some_inv l v :
  scan_facts pe ps ft tol l = Ok (Some v) ->
  exists f, f ∈ l /\ check_fact pe ps ft tol f = Ok (Some v).
Proof.
  induction l as [|f l IH]; simpl; [done|].
  destruct (check_fact pe ps ft tol f) as [[w|]|e] eqn:Hc; try done.
  - intros H. inversion H; subst. exists f. split; [by left|done].
  - intros H. destruct (IH H) as (g & Hg & Hcg). exists g. split; [by right|done].
Qed.

Lemma scan_facts_none_inv l :
  scan_facts pe ps ft tol l = Ok None ->
  Forall (fun f => acceptable pe ps ft tol f = false) l.
Proof.
  induction l as [|f l IH]; simpl; [by constructor|].
  destruct (check_fact pe ps ft tol f) as [[w|]|e] eqn:Hc; try done.
  intros H. constructor; [|by apply IH].
  destruct (acceptable pe ps ft tol f) eqn:Ha; [|done].
  by apply acceptable_not_passed_over in Ha.
Qed.

(** A returned pair comes from a candidate none of whose predecessors has
    an acceptable observation. *)
Lemma find_in_tags_some_inv cands v tag :
  find_in_tags idx pe ps ft tol cands = Ok (Some (v, tag)) ->
  exists pre post facts f,
    cands = pre ++ tag :: post
    /\ (forall t l, t ∈ pre -> idx !! t = Some l ->
          Forall (fun g => acceptable pe ps ft tol g = false) l)
    /\ idx !! tag = Some facts
    /\ f ∈ facts
    /\ acceptable pe ps ft tol f = true
    /\ resolved_value f = Some v.
Proof.
  induction cands as [|t cands IH]; simpl; [done|]. intros H.
  assert (find_in_tags idx pe ps ft tol cands = Ok (Some (v, tag)) ->
          (forall l, idx !! t = Some l ->
             Forall (fun g => acceptable pe ps ft tol g = false) l) ->
          exists pre post facts f,
            t :: cands = pre ++ tag :: post
            /\ (forall t' l, t' ∈ pre -> idx !! t' = Some l ->
                  Forall (fun g => acceptable pe ps ft tol g = false) l)
            /\ idx !! tag = Some facts /\ f ∈ facts
            /\ acceptable pe ps ft tol f = true /\ resolved_value f = Some v) as Hnext.
  { intros Hrest Ht.
    destruct (IH Hrest) as (pre & post & facts & f & -> & Hpre & Hrem).
    exists (t :: pre), post, facts, f. split; [done|]. split; [|done].
    intros t' l [->|Ht']%elem_of_cons Hl; [by apply Ht|by eapply Hpre]. }
  destruct (idx !! t) as [l|] eqn:Hl; [|by apply Hnext].
  destruct (sorted_reverse end_key l) as [sorted|e] eqn:Hs; simpl in H; [|done].
  apply sorted_reverse_perm in Hs.
  destruct (scan_facts pe ps ft tol sorted) as [[w|]|e] eqn:Hscan; simpl in H; [| |done].
  - inversion H; subst w t.
    destruct (scan_facts_some_inv _ _ Hscan) as (f & Hf & [Ha Hv]%check_fact_some_inv).
    exists [], cands, l, f. split_and!; try done.
    + intros t' l' Ht'. by apply elem_of_nil in Ht'.
    + by rewrite <- Hs.
  - apply Hnext; [done|]. intros l' Hl'. inversion Hl'; subst l'.
    rewrite <- Hs. by apply scan_facts_none_inv.
Qed.

(** Candidates with no acceptable observation are passed over. *)
Lemma find_in_tags_skip pre rest :
  (forall t l, t ∈ pre -> idx !! t = Some l ->
     Forall (fun f => regular f = true) l
     /\ Forall (fun f => acceptable pe ps ft tol f = false) l) ->
  find_in_tags idx pe ps ft tol (pre ++ rest) = find_in_tags idx pe ps ft tol rest.
Proof.
  induction pre as [|t pre IH]; intros H; simpl; [done|].
  assert (find_in_tags idx pe ps ft tol (pre ++ rest)
          = find_in_tags idx pe ps ft tol rest) as Hrest.
  { apply IH. intros t' l Ht'. apply H. by right. }
  destruct (idx !! t) as [l|] eqn:Hl; [|done].
  destruct (H t l) as [Hr Ha]; [by left|done|].
  destruct (sorted_reverse_total end_key l) as [sorted Hs].
  { eapply Forall_impl; [exact Hr|]. unfold regular. by intros f [? _]%andb_true_iff. }
  rewrite Hs. simpl. apply sorted_reverse_perm in Hs.
  rewrite scan_facts_none; [done|by rewrite Hs..].
Qed.

(** On a regular index the resolver raises nothing. *)
Lemma find_in_tags_total tags :
  index_regular idx -> exists r, find_in_tags idx pe ps ft tol tags = Ok r.
Proof.
  intros Hreg. induction tags as [|t tags IH]; simpl; [eauto|].
  destruct (idx !! t) as [l|] eqn:Hl; [|done].
  pose proof (Hreg t l Hl) as Hr. simpl in Hr.
  destruct (sorted_reverse_total end_key l) as [sorted Hs].
  { eapply Forall_impl; [exact Hr|]. unfold regular. by intros f [? _]%andb_true_iff. }
  rewrite Hs. simpl.
  assert (Forall (fun f => regular f = true) sorted) as Hrs.
  { by rewrite (sorted_reverse_perm _ _ _ Hs). }
  destruct (decide (Exists (fun f => acceptable pe ps ft tol f = true) sorted)) as [Hex|Hex].
  - destruct (scan_facts_first _ Hrs Hex) as (? & ? & ? & v & _ & _ & _ & _ & ->).
    simpl. eauto.
  - rewrite scan_facts_none; [done..|].
    apply Forall_forall. intros f Hf.
    destruct (acceptable pe ps ft tol f) eqn:Ha; [|done].
    exfalso. apply Hex, Exists_exists. eauto.
Qed.
End ResolverFacts.

(** ** Properties of the resolver *)

(** C1. Candidate priority is absolute.
    First, whenever the resolver returns a value with a tag, the tag stands
    in the candidate list after candidates that hold no acceptable match
    (an observation passing the form, period-end and period-start filters
    and yielding a number), and the value is that of an acceptable
    observation of the tag: a lower-priority candidate's match, exact or
    not, is never returned past a higher-priority candidate that has one.
    Second, for a candidate list [pre ++ tag :: post] where no candidate of
    [pre] has an acceptable match and [tag] has one, the resolver does
    return a value of [tag], whatever [post] holds: that of an acceptable
    observation of [tag] with the greatest end key. A match at the tolerance
    boundary is acceptable ([end_ok] uses [<=]). For the second part the
    observations of the candidates consulted are regular, so that neither
    the sort nor a conversion raises. *)
Theorem first_candidate_with_match_wins
    (idx : gmap string (list Fact)) (pe : date) (ps : option date)
    (fy : option Z) (fp ft : option string) (tol : Z) (cands : list string) :
  (forall v tag,
     _find_fact_value idx cands pe ps fy fp ft tol = Ok (Some (v, tag)) ->
     exists pre post facts f,
       cands = pre ++ tag :: post
       /\ (forall t l, t ∈ pre -> idx !! t = Some l ->
             Forall (fun g => acceptable pe ps ft tol g = false) l)
       /\ idx !! tag = Some facts
       /\ f ∈ facts
       /\ acceptable pe ps ft tol f = true
       /\ resolved_value f = Some v)
  /\ (forall pre tag post facts,
        cands = pre ++ tag :: post ->
        (forall t l, t ∈ pre ++ [tag] -> idx !! t = Some l ->
           Forall (fun f => regular f = true) l) ->
        (forall t l, t ∈ pre -> idx !! t = Some l ->
           Forall (fun f => acceptable pe ps ft tol f = false) l) ->
        idx !! tag = Some facts ->
        Exists (fun f => acceptable pe ps ft tol f = true) facts ->
        exists f v,
          f ∈ facts
          /\ acceptable pe ps ft tol f = true
          /\ resolved_value f = Some v
          /\ (forall g, g ∈ facts -> acceptable pe ps ft tol g = true ->
                key_ge (end_key f) (end_key g))
          /\ _find_fact_value idx cands pe ps fy fp ft tol = Ok (Some (v, tag))).
Proof.
  split; [intros v tag H; by apply find_in_tags_some_inv|].
  intros pre tag post facts -> Hreg Hpre Htag Hex. unfold _find_fact_value.
  rewrite find_in_tags_skip.
  2:{ intros t l Ht Hl. split; [|by eapply Hpre].
      eapply Hreg; [|done]. apply elem_of_app. by left. }
  assert (Forall (fun f => regular f = true) facts) as Hr.
  { eapply Hreg; [|done]. apply elem_of_app. right. by left. }
  assert (Forall (fun f => is_str (end_key f) = true) facts) as Hstr.
  { eapply Forall_impl; [exact Hr|]. unfold regular. by intros f [? _]%andb_true_iff. }
  destruct (sorted_reverse_total end_key facts Hstr) as [sorted Hs].
  pose proof (sorted_reverse_perm _ _ _ Hs) as Hperm.
  pose proof (sorted_reverse_sorted _ _ _ Hstr Hs) as Hsorted.
  destruct (scan_facts_first pe ps ft tol sorted) as (l1 & f & l2 & v & -> & Hl1 & Ha & Hv & Hscan).
  { by rewrite Hperm. }
  { by rewrite Hperm. }
  exists f, v. split_and!; [| done | done | |].
  - rewrite <- Hperm. apply elem_of_app. right. by left.
  - intros g Hg Hga. rewrite <- Hperm in Hg.
    apply StronglySorted_app in Hsorted as (_ & _ & Hsorted).
    apply StronglySorted_cons in Hsorted as [Hf _].
    apply elem_of_app in Hg as [Hg|Hg].
    + rewrite Forall_forall in Hl1. specialize (Hl1 g Hg). congruence.
    + apply elem_of_cons in Hg as [->|Hg].
      * rewrite <- Hperm in Hstr. rewrite Forall_forall in Hstr.
        assert (is_str (end_key f) = true) as Hk.
        { apply Hstr, elem_of_app. right. by left. }
        destruct (end_key f) as [| | | |s]; try discriminate.
        apply key_ge_str. done.
      * rewrite Forall_forall in Hf. by apply Hf.
  - simpl. rewrite Htag, Hs. simpl. by rewrite Hscan.
Qed.

(** Three revenue candidates at target 2024-09-28, tolerance 5: the first
    is not in the index, [Revenues] has an observation on 2024-10-03 (the
    boundary) and [SalesRevenueNet] one on the very day; the value of
    [Revenues] is returned. *)
Lemma first_candidate_with_match_wins_witness :
  _find_fact_value (_index_facts priority_payload)
    ["RevenueFromContractWithCustomerExcludingAssessedTax"; "Revenues"; "SalesRevenueNet"]
    (Date 2024 9 28) None None None (Some "10-K") 5
  = Ok (Some (111%float, "Revenues")).
Proof.
  destruct (proj2 (first_candidate_with_match_wins (_index_facts priority_payload)
                     (Date 2024 9 28) None None None (Some "10-K") 5
                     ["RevenueFromContractWithCustomerExcludingAssessedTax";
                      "Revenues"; "SalesRevenueNet"])
              ["RevenueFromContractWithCustomerExcludingAssessedTax"]
              "Revenues" ["SalesRevenueNet"]
              [make_fact "USD" (obs "2024-10-03" "10-K" 111)])
    as (f & v & Hf & _ & Hv & _ & H).
  - reflexivity.
  - intros t l Ht Hl. simpl in Ht.
    rewrite !elem_of_cons, elem_of_nil in Ht.
    destruct Ht as [->|[->|[]]]; vm_compute in Hl; inversion Hl; subst.
    repeat constructor.
  - intros t l Ht Hl.
    rewrite !elem_of_cons, elem_of_nil in Ht.
    destruct Ht as [->|[]]; vm_compute in Hl; inversion Hl.
  - vm_compute. reflexivity.
  - apply Exists_cons_hd. vm_compute. reflexivity.
  - apply list_elem_of_singleton in Hf. subst f.
    vm_compute in Hv. inversion Hv; subst v. exact H.
Defined.

(** C4. The tolerance rejects one observation at a time. An observation
    whose period end lies further than the tolerance from the target ([far])
    is passed over and the scan goes on with the rest of the candidate's
    list; one within the tolerance that passes the other filters and yields
    a number ([near]) is returned, also when it comes after a rejected one.
    At tolerance 5, a distance of 6 days is [far] and one of 4 days is
    [near]. *)
Theorem tolerance_rejects_one_observation
    (pe : date) (ps : option date) (ft : option string) (tol : Z)
    (far near : Fact) (rest : list Fact) (dfar dnear : date) (v : float) :
  _parse_date (f_end far) = Some dfar ->
  tol < Z.abs (days_between dfar pe) ->
  _parse_date (f_end near) = Some dnear ->
  Z.abs (days_between dnear pe) <= tol ->
  form_ok ft near = true ->
  start_ok tol ps near = true ->
  resolved_value near = Some v ->
  scan_facts pe ps ft tol (far :: rest) = scan_facts pe ps ft tol rest
  /\ scan_facts pe ps ft tol (near :: rest) = Ok (Some v)
  /\ scan_facts pe ps ft tol (far :: near :: rest) = Ok (Some v).
Proof.
  intros Hfar Hdfar Hnear Hdnear Hform Hstart Hv.
  assert (check_fact pe ps ft tol far = Ok None) as Hcf.
  { apply check_fact_filtered. unfold passes_filters, end_ok. rewrite Hfar.
    replace (Z.abs (days_between dfar pe) <=? tol) with false by (symmetry; lia).
    by rewrite andb_false_r. }
  assert (check_fact pe ps ft tol near = Ok (Some v)) as Hcn.
  { apply check_fact_accept; [|done]. unfold passes_filters, end_ok.
    rewrite Hform, Hstart, Hnear.
    by replace (Z.abs (days_between dnear pe) <=? tol) with true by (symmetry; lia). }
  simpl. by rewrite Hcf, Hcn.
Qed.

(** Observations 6, 4, -4 and -6 days from 2024-09-28, tolerance 5: the
    latest one is rejected and the next one, 4 days away, is the result. *)
Lemma tolerance_rejects_one_observation_witness :
  sorted_reverse end_key
    (default [] (_index_facts tolerance_payload !! "NetIncomeLoss"))
  = Ok (map (make_fact "USD")
          [obs "2024-10-04" "10-K" 106; obs "2024-10-02" "10-K" 104;
           obs "2024-09-24" "10-K" 96; obs "2024-09-22" "10-K" 94])
  /\ Z.abs (days_between (Date 2024 10 4) (Date 2024 9 28)) = 6
  /\ Z.abs (days_between (Date 2024 10 2) (Date 2024 9 28)) = 4
  /\ scan_facts (Date 2024 9 28) None (Some "10-K") 5
       (map (make_fact "USD")
          [obs "2024-10-04" "10-K" 106; obs "2024-10-02" "10-K" 104;
           obs "2024-09-24" "10-K" 96; obs "2024-09-22" "10-K" 94])
     = Ok (Some 104%float)
  /\ _find_fact_value (_index_facts tolerance_payload) ["NetIncomeLoss"]
       (Date 2024 9 28) None None None (Some "10-K") 5
     = Ok (Some (104%float, "NetIncomeLoss")).
Proof.
  split; [vm_compute; reflexivity|].
  split; [vm_compute; reflexivity|].
  split; [vm_compute; reflexivity|].
  split; [|vm_compute; reflexivity].
  apply (tolerance_rejects_one_observation (Date 2024 9 28) None (Some "10-K") 5
           (make_fact "USD" (obs "2024-10-04" "10-K" 106))
           (make_fact "USD" (obs "2024-10-02" "10-K" 104))
           (map (make_fact "USD")
              [obs "2024-09-24" "10-K" 96; obs "2024-09-22" "10-K" 94])
           (Date 2024 10 4) (Date 2024 10 2) 104%float);
    vm_compute; first [reflexivity | discriminate].
Defined.

(** C6. The start-date filter of a duration item. With a target start date,
    an observation that passes the form and period-end filters and yields a
    number is passed over when it carries a start date further than the
    tolerance from the target's, and is returned when it carries one within
    the tolerance or carries none. *)
Theorem start_date_checked_only_when_present
    (pe p : date) (ft : option string) (tol : Z)
    (fact : Fact) (rest : list Fact) (v : float) :
  form_ok ft fact = true ->
  end_ok tol pe fact = true ->
  resolved_value fact = Some v ->
  (forall s, _parse_date (f_start fact) = Some s ->
     tol < Z.abs (days_between s p) ->
     scan_facts pe (Some p) ft tol (fact :: rest)
     = scan_facts pe (Some p) ft tol rest)
  /\ (forall s, _parse_date (f_start fact) = Some s ->
        Z.abs (days_between s p) <= tol ->
        scan_facts pe (Some p) ft tol (fact :: rest) = Ok (Some v))
  /\ (f_start fact = PNone ->
      scan_facts pe (Some p) ft tol (fact :: rest) = Ok (Some v)).
Proof.
  intros Hform Hend Hv. split_and!.
  - intros s Hs Hd. simpl. rewrite check_fact_filtered; [done|].
    unfold passes_filters, start_ok. rewrite Hs.
    replace (Z.abs (days_between s p) <=? tol) with false by (symmetry; lia).
    by rewrite andb_false_r.
  - intros s Hs Hd. simpl. rewrite (check_fact_accept _ _ _ _ _ v); [done| |done].
    unfold passes_filters, start_ok. rewrite Hform, Hend, Hs.
    by replace (Z.abs (days_between s p) <=? tol) with true by (symmetry; lia).
  - intros Hs. simpl. rewrite (check_fact_accept _ _ _ _ _ v); [done| |done].
    unfold passes_filters, start_ok. by rewrite Hform, Hend, Hs.
Qed.

(** A year from 2023-10-01 to 2024-09-28: the observation starting on
    2024-06-30 is rejected, the one with no start date is returned. *)
Lemma start_date_checked_only_when_present_witness :
  scan_facts (Date 2024 9 28) (Some (Date 2023 10 1)) (Some "10-K") 5
    [make_fact "USD" (obs_from "2024-06-30" "2024-09-28" "10-K" 250);
     make_fact "USD" (obs "2024-09-28" "10-K" 1000)]
  = scan_facts (Date 2024 9 28) (Some (Date 2023 10 1)) (Some "10-K") 5
      [make_fact "USD" (obs "2024-09-28" "10-K" 1000)]
  /\ scan_facts (Date 2024 9 28) (Some (Date 2023 10 1)) (Some "10-K") 5
       [make_fact "USD" (obs "2024-09-28" "10-K" 1000)]
     = Ok (Some 1000%float)
  /\ _find_fact_value (_index_facts duration_payload) ["NetIncomeLoss"]
       (Date 2024 9 28) (Some (Date 2023 10 1)) None None (Some "10-K") 5
     = Ok (Some (1000%float, "NetIncomeLoss")).
Proof.
  split; [|split; [|vm_compute; reflexivity]].
  - apply (start_date_checked_only_when_present (Date 2024 9 28) (Date 2023 10 1)
             (Some "10-K") 5
             (make_fact "USD" (obs_from "2024-06-30" "2024-09-28" "10-K" 250))
             [make_fact "USD" (obs "2024-09-28" "10-K" 1000)] 250%float
             eq_refl eq_refl eq_refl)
      with (s := Date 2024 6 30); vm_compute; reflexivity.
  - apply (start_date_checked_only_when_present (Date 2024 9 28) (Date 2023 10 1)
             (Some "10-K") 5
             (make_fact "USD" (obs "2024-09-28" "10-K" 1000)) [] 1000%float
             eq_refl eq_refl eq_refl).
    reflexivity.
Defined.

(** The boundary scenario of the specification: the same taxonomy with the
    target period end 2024-09-22, 8 days from the nearest observation,
    resolves to nothing. *)
Example net_income_out_of_tolerance :
  _find_fact_value (_index_facts net_income_payload) ["NetIncomeLoss"]
    (Date 2024 9 22) None None None (Some "10-K") 5
  = Ok None.
Proof. vm_compute. reflexivity. Qed.

(** C9. The form filter. With a required form type, an observation whose
    form field differs from it is passed over, whatever else it holds. And
    the end-to-end scenario: for the taxonomy with [NetIncomeLoss]
    observations (2024-09-30, 10-K, 1000) and (2023-09-30, 10-K, 900), the
    target period end 2024-09-28, tolerance 5 and form 10-K, the resolver
    returns 1000 from [NetIncomeLoss], for any target start and fiscal
    period. *)
Theorem form_filter_skips_other_forms
    (pe : date) (ps : option date) (form_type : string) (tol : Z)
    (fact : Fact) (rest : list Fact) (fy : option Z) (fp : option string) :
  form_type <> "" ->
  f_form fact <> PStr form_type ->
  scan_facts pe ps (Some form_type) tol (fact :: rest)
  = scan_facts pe ps (Some form_type) tol rest
  /\ _find_fact_value (_index_facts net_income_payload) ["NetIncomeLoss"]
       (Date 2024 9 28) ps fy fp (Some "10-K") 5
     = Ok (Some (1000%float, "NetIncomeLoss")).
Proof.
  intros Hne Hform. split.
  - simpl. rewrite check_fact_filtered; [done|].
    unfold passes_filters, form_ok.
    apply String.eqb_neq in Hne as ->. simpl.
    destruct (f_form fact) as [| | | |s]; try done.
    destruct (String.eqb_spec s form_type) as [->|?]; [done|done].
  - destruct ps; vm_compute; reflexivity.
Qed.

(** A 10-Q observation nearer to the target is passed over for the 10-K
    one. *)
Lemma form_filter_skips_other_forms_witness :
  scan_facts (Date 2024 9 28) None (Some "10-K") 5
    [make_fact "USD" (obs "2024-09-29" "10-Q" 250);
     make_fact "USD" (obs "2024-09-30" "10-K" 1000)]
  = Ok (Some 1000%float)
  /\ _find_fact_value (_index_facts net_income_payload) ["NetIncomeLoss"]
       (Date 2024 9 28) None None None (Some "10-K") 5
     = Ok (Some (1000%float, "NetIncomeLoss")).
Proof.
  destruct (form_filter_skips_other_forms (Date 2024 9 28) None "10-K" 5
              (make_fact "USD" (obs "2024-09-29" "10-Q" 250))
              [make_fact "USD" (obs "2024-09-30" "10-K" 1000)] None None)
    as [Hskip Hscenario].
  - discriminate.
  - discriminate.
  - split; [|exact Hscenario]. rewrite Hskip. vm_compute. reflexivity.
Defined.

(** ** Statement assembly *)

Section AssembleFacts.
Variable idx : gmap string (list Fact).
Variable pe : date.
Variable ps : option date.
Variable fy : Z.
Variables fp form : string.

(** A key the table does not list keeps its entry. *)
Lemma assemble_other table stmt0 stmt key :
  key ∉ table.*1 ->
  assemble idx table pe ps fy fp form stmt0 = Ok stmt ->
  FinancialStatement.line_items stmt !! key
  = FinancialStatement.line_items stmt0 !! key.
Proof.
  revert stmt0. induction table as [|[k cands] table IH]; intros stmt0 Hk H; simpl in H.
  - by inversion H.
  - apply not_elem_of_cons in Hk as [Hne Hk].
    destruct (_find_fact_value idx cands pe ps (Some fy) (Some fp) (Some form) 5)
      as [[[v tag]|]|e]; simpl in H; try discriminate.
    + rewrite (IH _ Hk H). simpl. by apply lookup_insert_ne.
    + by apply IH.
Qed.

(** The entry of a listed key is decided by its resolution alone. *)
Lemma assemble_lookup table stmt0 stmt key cands :
  NoDup table.*1 ->
  (key, cands) ∈ table ->
  assemble idx table pe ps fy fp form stmt0 = Ok stmt ->
  exists r, _find_fact_value idx cands pe ps (Some fy) (Some fp) (Some form) 5 = Ok r
    /\ FinancialStatement.line_items stmt !! key
       = match r with
         | Some (v, tag) => Some (make_line_item key tag v ps pe)
         | None => FinancialStatement.line_items stmt0 !! key
         end.
Proof.
  revert stmt0. induction table as [|[k c] table IH]; intros stmt0 Hnd Hin H.
  - by apply elem_of_nil in Hin.
  - simpl in Hnd. apply NoDup_cons in Hnd as [Hk Hnd]. simpl in H.
    destruct (_find_fact_value idx c pe ps (Some fy) (Some fp) (Some form) 5)
      as [r|e] eqn:Hr; simpl in H; [|discriminate].
    apply elem_of_cons in Hin as [Heq|Hin].
    + inversion Heq; subst k c. exists r. split; [done|].
      rewrite (assemble_other _ _ _ _ Hk H).
      destruct r as [[v tag]|]; [|done]. simpl. by apply lookup_insert_eq.
    + destruct (IH _ Hnd Hin H) as (r' & Hr' & Hl). exists r'. split; [done|].
      rewrite Hl. destruct r' as [[v tag]|]; [done|].
      destruct r as [[v tag]|]; [|done]. simpl. apply lookup_insert_ne.
      intros ->. apply Hk. apply list_elem_of_fmap. by exists (key, cands).
Qed.

(** Every line item of the result was there before or carries a value. *)
Lemma assemble_values table stmt0 stmt key item :
  assemble idx table pe ps fy fp form stmt0 = Ok stmt ->
  FinancialStatement.line_items stmt !! key = Some item ->
  FinancialStatement.line_items stmt0 !! key = Some item
  \/ exists v, LineItem.value item = Some v.
Proof.
  revert stmt0. induction table as [|[k c] table IH]; intros stmt0 H Hl; simpl in H.
  - inversion H; subst. by left.
  - destruct (_find_fact_value idx c pe ps (Some fy) (Some fp) (Some form) 5)
      as [[[v tag]|]|e]; simpl in H; try discriminate.
    + destruct (IH _ H Hl) as [Hl0|?]; [|by right].
      simpl in Hl0. destruct (decide (k = key)) as [->|Hne].
      * rewrite lookup_insert_eq in Hl0. inversion Hl0; subst. right. by exists v.
      * rewrite lookup_insert_ne in Hl0 by done. by left.
    + by apply IH.
Qed.

Lemma assemble_no_missing table stmt0 stmt :
  NoDup table.*1 ->
  FinancialStatement.line_items stmt0 = ∅ ->
  assemble idx table pe ps fy fp form stmt0 = Ok stmt ->
  no_missing_entries idx table pe ps fy fp form stmt.
Proof.
  intros Hnd H0 H key. split.
  - intros cands Hin Hnone.
    destruct (assemble_lookup _ _ _ _ _ Hnd Hin H) as (r & Hr & ->).
    rewrite Hnone in Hr. inversion Hr; subst.
    by rewrite H0.
  - intros item Hl. destruct (assemble_values _ _ _ _ _ H Hl) as [Hl0|?]; [|done].
    by rewrite H0 in Hl0.
Qed.

(** On a regular index the assembly raises nothing. *)
Lemma assemble_total table stmt0 :
  index_regular idx ->
  exists stmt, assemble idx table pe ps fy fp form stmt0 = Ok stmt.
Proof.
  intros Hreg. revert stmt0.
  induction table as [|[k c] table IH]; intros stmt0; simpl; [eauto|].
  unfold _find_fact_value.
  destruct (find_in_tags_total idx pe ps (Some form) 5 c Hreg) as [r ->]. simpl.
  apply IH.
Qed.
End AssembleFacts.

(** A key resolved during assembly reads back, through [get_value], as the
    very number the resolver returned. *)
Lemma assembled_get_value
    (idx : gmap string (list Fact)) (pe : date) (ps : option date) (fy : Z)
    (fp form : string) table stmt0 stmt key cands v tag :
  NoDup table.*1 ->
  (key, cands) ∈ table ->
  assemble idx table pe ps fy fp form stmt0 = Ok stmt ->
  _find_fact_value idx cands pe ps (Some fy) (Some fp) (Some form) 5
  = Ok (Some (v, tag)) ->
  FinancialStatement.get_value stmt key = Some v.
Proof.
  intros Hnd Hin H Hr.
  destruct (assemble_lookup idx pe ps fy fp form _ _ _ _ _ Hnd Hin H) as (r & Hr' & Hl).
  rewrite Hr in Hr'. inversion Hr'; subst r.
  unfold FinancialStatement.get_value. by rewrite Hl.
Qed.

Lemma tables_have_distinct_keys :
  NoDup INCOME_STATEMENT_TAGS.*1 /\ NoDup BALANCE_SHEET_TAGS.*1
  /\ NoDup CASH_FLOW_TAGS.*1.
Proof.
  split_and!; apply (bool_decide_unpack _); vm_compute; reflexivity.
Qed.

(** C5. Unresolved keys are absent. In the statement each of the three
    assemblers returns, a key whose resolution gave no value is not in the
    line-item mapping, and every line item that is in the mapping carries a
    value: nothing is inserted with a null value. On an index of regular
    observations the three assemblers do return a statement. *)
Theorem unresolved_keys_are_absent
    (idx : gmap string (list Fact)) (pe ps : date) (fy : Z) (fp form : string) :
  (forall inc, extract_income_statement idx pe ps fy fp form = Ok inc ->
     no_missing_entries idx INCOME_STATEMENT_TAGS pe (Some ps) fy fp form inc)
  /\ (forall bal, extract_balance_sheet idx pe fy fp form = Ok bal ->
        no_missing_entries idx BALANCE_SHEET_TAGS pe None fy fp form bal)
  /\ (forall cf, extract_cash_flow idx pe ps fy fp form = Ok cf ->
        no_missing_entries idx CASH_FLOW_TAGS pe (Some ps) fy fp form cf)
  /\ (index_regular idx ->
      exists inc bal cf,
        extract_income_statement idx pe ps fy fp form = Ok inc
        /\ extract_balance_sheet idx pe fy fp form = Ok bal
        /\ extract_cash_flow idx pe ps fy fp form = Ok cf).
Proof.
  destruct tables_have_distinct_keys as (Hi & Hb & Hc).
  unfold extract_income_statement, extract_balance_sheet, extract_cash_flow.
  split_and!.
  - intros inc H. refine (assemble_no_missing _ _ _ _ _ _ _ _ _ Hi _ H). reflexivity.
  - intros bal H. refine (assemble_no_missing _ _ _ _ _ _ _ _ _ Hb _ H). reflexivity.
  - intros cf H. refine (assemble_no_missing _ _ _ _ _ _ _ _ _ Hc _ H). reflexivity.
  - intros Hreg.
    destruct (assemble_total idx pe (Some ps) fy fp form INCOME_STATEMENT_TAGS
                (FinancialStatement.Make INCOME_STATEMENT pe fy fp (Some ps) ∅) Hreg)
      as [inc Hinc].
    destruct (assemble_total idx pe None fy fp form BALANCE_SHEET_TAGS
                (FinancialStatement.Make BALANCE_SHEET pe fy fp None ∅) Hreg)
      as [bal Hbal].
    destruct (assemble_total idx pe (Some ps) fy fp form CASH_FLOW_TAGS
                (FinancialStatement.Make CASH_FLOW pe fy fp (Some ps) ∅) Hreg)
      as [cf Hcf].
    exists inc, bal, cf. by rewrite Hinc, Hbal, Hcf.
Qed.

(** The end-to-end taxonomy holds net income only: the income statement
    for the year ending 2024-09-28 has a net-income line and no revenue
    line. *)
Lemma unresolved_keys_are_absent_witness :
  exists inc,
    extract_income_statement (_index_facts net_income_payload)
      (Date 2024 9 28) (Date 2023 10 1) 2024 "FY" "10-K" = Ok inc
    /\ FinancialStatement.line_items inc !! "revenue" = None
    /\ FinancialStatement.get_value inc "net_income" = Some 1000%float.
Proof.
  destruct (unresolved_keys_are_absent (_index_facts net_income_payload)
              (Date 2024 9 28) (Date 2023 10 1) 2024 "FY" "10-K")
    as (Hmissing & _ & _ & Htotal).
  destruct Htotal as (inc & _ & _ & Hinc & _).
  { apply (bool_decide_unpack _). vm_compute. reflexivity. }
  exists inc. split; [exact Hinc|]. split.
  - apply (proj1 (Hmissing inc Hinc "revenue")
             ["RevenueFromContractWithCustomerExcludingAssessedTax"; "Revenues";
              "SalesRevenueNet"; "SalesRevenueGoodsNet";
              "RevenueFromContractWithCustomerIncludingAssessedTax"]).
    + by left.
    + vm_compute. reflexivity.
  - vm_compute in Hinc. inversion Hinc. vm_compute. reflexivity.
Defined.

(** ** Presentation *)

(** The row [_write_line_items] writes for a key of the statement carries
    the item's label and its scaled value. *)
Lemma write_line_items_row stmt line_order row key is_subtotal item :
  (Some key, is_subtotal) ∈ line_order ->
  FinancialStatement.line_items stmt !! key = Some item ->
  exists w,
    w ∈ (_write_line_items stmt line_order row).1
    /\ w_label w = LineItem.label item
    /\ w_value w = scaled_value key item.
Proof.
  intros Hin Hl. revert row.
  induction line_order as [|[[k|] sub] rest IH]; intros row; simpl.
  - by apply elem_of_nil in Hin.
  - apply elem_of_cons in Hin as [Heq|Hin].
    + inversion Heq; subst k sub. rewrite Hl.
      destruct (_write_line_items stmt rest (row + 1)) as [ws next]. simpl.
      eexists. split; [by left|]. done.
    + destruct (IH Hin row) as (w & Hw & Hrow).
      destruct (IH Hin (row + 1)) as (w' & Hw' & Hrow').
      destruct (FinancialStatement.line_items stmt !! k); [|by eauto].
      destruct (_write_line_items stmt rest (row + 1)) as [ws next]. simpl in *.
      exists w'. split; [by right|done].
  - apply elem_of_cons in Hin as [Heq|Hin]; [done|]. by apply IH.
Qed.

(** C8, as the code has it. Negation is the display value's, scaling the
    export's. The line item the assemblers build for [key] with raw value
    [v] has display value [-v] when [key] is a negated item and [v]
    otherwise, not scaled; the export writes that display value divided by
    1000, or undivided for a key containing [eps]. So [cost_of_revenue] at
    500 has display value -500 and [revenue] at 500 has 500; the export
    writes 12,345,000 of revenue as 12,345, basic EPS 3.21 as 3.21 and
    1,000,000 basic shares as 1,000. *)
Theorem display_value_negates_export_scales
    (key tag : string) (v : float) (ps : option date) (pe : date) :
  let negated := bool_decide (key ∈ NEGATED_ITEMS) in
  let d := if negated then (- v)%float else v in
  LineItem.display_value (make_line_item key tag v ps pe) = Some d
  /\ fst <$> scaled_value key (make_line_item key tag v ps pe)
     = Some (if contains "eps" (lower key) then d else (d / 1000)%float)
  /\ LineItem.display_value (make_line_item "cost_of_revenue" tag 500 ps pe)
     = Some (-500)%float
  /\ LineItem.display_value (make_line_item "revenue" tag 500 ps pe)
     = Some 500%float
  /\ fst <$> scaled_value "revenue" (make_line_item "revenue" tag 12345000 ps pe)
     = Some 12345%float
  /\ fst <$> scaled_value "eps_basic" (make_line_item "eps_basic" tag 3.21 ps pe)
     = Some 3.21%float
  /\ fst <$> scaled_value "shares_basic"
               (make_line_item "shares_basic" tag 1000000 ps pe)
     = Some 1000%float.
Proof.
  intros negated d. split_and!; try (vm_compute; reflexivity).
  unfold scaled_value, LineItem.display_value. simpl.
  fold negated. fold d.
  destruct (contains "eps" (lower key)); [done|].
  by destruct (contains "shares" (lower key)).
Qed.

(** C8, as stated, fails: no one surface gives the five figures. The
    display value of a revenue of 12,345,000 is 12,345,000, not 12,345, and
    the export writes a cost of revenue of 500 as -0.5, not -500. *)
Lemma display_examples_need_two_surfaces :
  LineItem.display_value
    (make_line_item "revenue" "Revenues" 12345000
       (Some (Date 2023 10 1)) (Date 2024 9 28))
  = Some 12345000%float
  /\ LineItem.display_value
       (make_line_item "revenue" "Revenues" 12345000
          (Some (Date 2023 10 1)) (Date 2024 9 28))
     <> Some 12345%float
  /\ fst <$> scaled_value "cost_of_revenue"
               (make_line_item "cost_of_revenue" "CostOfRevenue" 500
                  (Some (Date 2023 10 1)) (Date 2024 9 28))
     = Some (-0.5)%float
  /\ fst <$> scaled_value "cost_of_revenue"
               (make_line_item "cost_of_revenue" "CostOfRevenue" 500
                  (Some (Date 2023 10 1)) (Date 2024 9 28))
     <> Some (-500)%float.
Proof.
  split_and!; try (vm_compute; reflexivity).
  - intros H. vm_compute in H.
    apply (f_equal (fun o => match o with
                             | Some x => PrimFloat.eqb x 12345
                             | None => false
                             end)) in H.
    vm_compute in H. discriminate.
  - intros H. vm_compute in H.
    apply (f_equal (fun o => match o with
                             | Some x => PrimFloat.eqb x (-500)
                             | None => false
                             end)) in H.
    vm_compute in H. discriminate.
Qed.

(** C3, as the code has it. The dictionary of a statement carries the
    display value of each line item, negated where the item says so and not
    scaled; the export writes that same display value divided by 1000, or
    undivided for a key containing [eps], in a row it writes whenever the
    line order names the key. *)
Theorem to_dict_negates_export_also_scales
    (stmt : FinancialStatement.t) (key : string) (item : LineItem.t) (v : float) :
  FinancialStatement.line_items stmt !! key = Some item ->
  LineItem.value item = Some v ->
  let d := if LineItem.is_negated item then (- v)%float else v in
  FinancialStatement.to_dict stmt !! key = Some (Some d)
  /\ fst <$> scaled_value key item
     = Some (if contains "eps" (lower key) then d else (d / 1000)%float)
  /\ (forall line_order row is_subtotal,
        (Some key, is_subtotal) ∈ line_order ->
        exists w,
          w ∈ (_write_line_items stmt line_order row).1
          /\ w_value w = scaled_value key item).
Proof.
  intros Hl Hv d. split_and!.
  - unfold FinancialStatement.to_dict. rewrite lookup_fmap, Hl. simpl.
    unfold LineItem.display_value. by rewrite Hv.
  - unfold scaled_value, LineItem.display_value. rewrite Hv. fold d.
    destruct (contains "eps" (lower key)); [done|].
    by destruct (contains "shares" (lower key)).
  - intros line_order row is_subtotal Hin.
    destruct (write_line_items_row stmt line_order row key is_subtotal item Hin Hl)
      as (w & Hw & _ & Hval).
    by exists w.
Qed.

Lemma to_dict_negates_export_also_scales_witness :
  FinancialStatement.to_dict (single_item_statement "cost_of_revenue" "CostOfRevenue" 500)
    !! "cost_of_revenue" = Some (Some (-500)%float)
  /\ fst <$> scaled_value "cost_of_revenue"
               (make_line_item "cost_of_revenue" "CostOfRevenue" 500
                  (Some (Date 2023 10 1)) (Date 2024 9 28))
     = Some (-0.5)%float.
Proof.
  destruct (to_dict_negates_export_also_scales
              (single_item_statement "cost_of_revenue" "CostOfRevenue" 500)
              "cost_of_revenue"
              (make_line_item "cost_of_revenue" "CostOfRevenue" 500
                 (Some (Date 2023 10 1)) (Date 2024 9 28))
              500%float) as (Hdict & Hexport & _).
  - vm_compute. reflexivity.
  - reflexivity.
  - vm_compute in Hdict, Hexport. split; [vm_compute; exact Hdict|vm_compute; exact Hexport].
Defined.

(** C3, as stated, fails: for revenue resolved to 500 the dictionary holds
    500 and the export writes 0.5. *)
Lemma to_dict_differs_from_export :
  FinancialStatement.to_dict (single_item_statement "revenue" "Revenues" 500)
    !! "revenue" = Some (Some 500%float)
  /\ fst <$> scaled_value "revenue"
               (make_line_item "revenue" "Revenues" 500
                  (Some (Date 2023 10 1)) (Date 2024 9 28))
     = Some 0.5%float
  /\ FinancialStatement.to_dict (single_item_statement "revenue" "Revenues" 500)
       !! "revenue"
     <> Some (fst <$> scaled_value "revenue"
                        (make_line_item "revenue" "Revenues" 500
                           (Some (Date 2023 10 1)) (Date 2024 9 28))).
Proof.
  split_and!; [vm_compute; reflexivity..|].
  intros H. vm_compute in H.
  apply (f_equal (fun o => match o with
                           | Some (Some x) => PrimFloat.eqb x 500
                           | _ => false
                           end)) in H.
  vm_compute in H. discriminate.
Qed.

(** C10. [get_value] returns the raw value of the line item stored under
    the key: no negation, no scaling. For a negated item holding [v] it
    returns [v], while the display value is [-v] and the export writes
    [-v / 1000] ([-v] for a key containing [eps]). *)
Theorem get_value_is_raw
    (stmt : FinancialStatement.t) (key : string) (item : LineItem.t) (v : float) :
  FinancialStatement.line_items stmt !! key = Some item ->
  LineItem.value item = Some v ->
  FinancialStatement.get_value stmt key = Some v
  /\ (LineItem.is_negated item = true ->
      LineItem.display_value item = Some (- v)%float
      /\ fst <$> scaled_value key item
         = Some (if contains "eps" (lower key) then (- v)%float
                 else (- v / 1000)%float)).
Proof.
  intros Hl Hv. split.
  - unfold FinancialStatement.get_value. by rewrite Hl.
  - intros Hn. unfold scaled_value, LineItem.display_value. rewrite Hv, Hn.
    split; [done|].
    destruct (contains "eps" (lower key)); [done|].
    by destruct (contains "shares" (lower key)).
Qed.

Lemma get_value_is_raw_witness :
  FinancialStatement.get_value
    (single_item_statement "cost_of_revenue" "CostOfRevenue" 500) "cost_of_revenue"
  = Some 500%float
  /\ LineItem.display_value
       (make_line_item "cost_of_revenue" "CostOfRevenue" 500
          (Some (Date 2023 10 1)) (Date 2024 9 28))
     = Some (-500)%float
  /\ fst <$> scaled_value "cost_of_revenue"
               (make_line_item "cost_of_revenue" "CostOfRevenue" 500
                  (Some (Date 2023 10 1)) (Date 2024 9 28))
     = Some (-0.5)%float.
Proof.
  destruct (get_value_is_raw
              (single_item_statement "cost_of_revenue" "CostOfRevenue" 500)
              "cost_of_revenue"
              (make_line_item "cost_of_revenue" "CostOfRevenue" 500
                 (Some (Date 2023 10 1)) (Date 2024 9 28))
              500%float) as [Hget Hneg].
  - vm_compute. reflexivity.
  - reflexivity.
  - split; [exact Hget|]. apply Hneg. vm_compute. reflexivity.
Defined.

(** ** The fact index *)

Section IndexFacts.
Implicit Types (idx : gmap string (list Fact)) (c : string).

Lemma append_values_lookup (g : RawObs -> Fact) c c' values idx :
  foldl (fun idx val => alter (fun l => l ++ [g val]) c idx) idx values !! c'
  = if decide (c = c') then (fun l => l ++ map g values) <$> idx !! c'
    else idx !! c'.
Proof.
  revert idx. induction values as [|val values IH]; intros idx; simpl.
  - case_decide; [|done]. destruct (idx !! c'); simpl; [|done].
    by rewrite app_nil_r.
  - rewrite IH. case_decide as Hc; [subst c'|].
    + rewrite lookup_alter_eq. destruct (idx !! c); simpl; [|done].
      by rewrite <- app_assoc.
    + by rewrite lookup_alter_ne.
Qed.

Lemma index_unit_lookup c c' idx u :
  index_unit c idx u !! c'
  = if decide (c = c')
    then Some (default [] (idx !! c') ++ map (make_fact (fst u)) (snd u))
    else idx !! c'.
Proof.
  unfold index_unit. rewrite append_values_lookup.
  case_decide as Hc; [subst c'|].
  - destruct (idx !! c) eqn:Hl; simpl; [by rewrite Hl|].
    by rewrite lookup_insert_eq.
  - destruct (idx !! c); [done|]. by rewrite lookup_insert_ne.
Qed.

Lemma index_units_lookup c c' idx units :
  foldl (index_unit c) idx units !! c'
  = if decide (c = c')
    then match units with
         | [] => idx !! c'
         | _ => Some (default [] (idx !! c')
                      ++ flat_map (fun u => map (make_fact (fst u)) (snd u)) units)
         end
    else idx !! c'.
Proof.
  revert idx. induction units as [|u units IH]; intros idx; simpl.
  - by case_decide.
  - rewrite IH. case_decide as Hc; [subst c'|].
    + rewrite index_unit_lookup. rewrite decide_True by done. simpl.
      destruct units as [|u' units]; simpl.
      * by rewrite app_nil_r.
      * by rewrite <- !app_assoc.
    + rewrite index_unit_lookup. by rewrite decide_False.
Qed.

Lemma concept_facts_not_indexed c ns :
  concept_indexed c ns = false -> concept_facts c ns = [].
Proof.
  induction ns as [|[c0 units] ns IH]; simpl; [done|].
  intros [H1 H2]%orb_false_iff. rewrite (IH H2), app_nil_r.
  destruct (String.eqb c0 c); [|done]. simpl in H1. by destruct units.
Qed.

Lemma index_namespace_lookup c ns idx :
  index_namespace ns idx !! c
  = match idx !! c with
    | Some l => Some (l ++ concept_facts c ns)
    | None => if concept_indexed c ns then Some (concept_facts c ns) else None
    end.
Proof.
  unfold index_namespace. revert idx.
  induction ns as [|[c0 units] ns IH]; intros idx; simpl.
  - destruct (idx !! c); [|done]. by rewrite app_nil_r.
  - rewrite IH, index_units_lookup.
    destruct (String.eqb_spec c0 c) as [->|Hne].
    + rewrite decide_True by done. destruct units as [|u units]; simpl.
      * done.
      * destruct (idx !! c); simpl; [by rewrite <- !app_assoc|].
        by destruct (concept_indexed c ns).
    + rewrite decide_False by done. simpl. done.
Qed.

(** The index lists each concept's observations in payload order. *)
Lemma index_facts_lookup xbrl c facts :
  _index_facts xbrl !! c = Some facts ->
  facts = concept_facts c (us_gaap xbrl ++ dei xbrl).
Proof.
  assert (concept_facts c (us_gaap xbrl ++ dei xbrl)
          = concept_facts c (us_gaap xbrl) ++ concept_facts c (dei xbrl)) as ->
    by apply flat_map_app.
  unfold _index_facts. rewrite !index_namespace_lookup, lookup_empty.
  destruct (concept_indexed c (us_gaap xbrl)) eqn:Hus.
  - congruence.
  - rewrite (concept_facts_not_indexed _ _ Hus). simpl.
    destruct (concept_indexed c (dei xbrl)); congruence.
Qed.
End IndexFacts.

(** C2, as the code has it. The index keeps the observations of a concept
    in payload order, us-gaap before dei, and sorts nothing. The resolver
    sorts at each query: for a concept whose end fields are strings or
    falsy, the list it scans is a permutation of the indexed one, sorted by
    end key descending, which is period-end date descending when the end
    fields are dates in the form [YYYY-MM-DD]. *)
Theorem index_in_payload_order_sorted_at_query
    (xbrl : XbrlFacts) (concept : string) (facts : list Fact) :
  _index_facts xbrl !! concept = Some facts ->
  Forall (fun f => is_str (end_key f) = true) facts ->
  facts = concept_facts concept (us_gaap xbrl ++ dei xbrl)
  /\ exists sorted_facts,
       sorted_reverse end_key facts = Ok sorted_facts
       /\ sorted_facts ≡ₚ facts
       /\ end_descending sorted_facts
       /\ (Forall (fun f => iso_end f = true) facts -> date_descending sorted_facts)
       /\ forall pe ps fy fp ft tol,
            _find_fact_value (_index_facts xbrl) [concept] pe ps fy fp ft tol
            = match scan_facts pe ps ft tol sorted_facts with
              | Ok (Some v) => Ok (Some (v, concept))
              | Ok None => Ok None
              | Raise e => Raise e
              end.
Proof.
  intros Hl Hstr. split; [by apply index_facts_lookup|].
  destruct (sorted_reverse_total end_key facts Hstr) as [sorted_facts Hs].
  pose proof (sorted_reverse_perm _ _ _ Hs) as Hperm.
  pose proof (sorted_reverse_sorted _ _ _ Hstr Hs) as Hsorted.
  exists sorted_facts. split_and!; [done..| |].
  - intros Hiso. rewrite <- Hperm in Hiso.
    eapply StronglySorted_impl; [|exact Hiso|exact Hsorted].
    intros a b. apply iso_end_key_order.
  - intros. unfold _find_fact_value. simpl. rewrite Hl, Hs. simpl.
    by destruct (scan_facts pe ps ft tol sorted_facts) as [[v|]|e].
Qed.

(** The payload listing 2023 before 2024: the index keeps that order and
    the resolver scans 2024 first. *)
Lemma index_in_payload_order_sorted_at_query_witness :
  _index_facts net_income_payload_ascending !! "NetIncomeLoss"
  = Some (map (make_fact "USD")
            [obs "2023-09-30" "10-K" 900; obs "2024-09-30" "10-K" 1000])
  /\ sorted_reverse end_key
       (map (make_fact "USD")
          [obs "2023-09-30" "10-K" 900; obs "2024-09-30" "10-K" 1000])
     = Ok (map (make_fact "USD")
             [obs "2024-09-30" "10-K" 1000; obs "2023-09-30" "10-K" 900])
  /\ date_descending
       (map (make_fact "USD")
          [obs "2024-09-30" "10-K" 1000; obs "2023-09-30" "10-K" 900]).
Proof.
  split; [vm_compute; reflexivity|]. split; [vm_compute; reflexivity|].
  destruct (index_in_payload_order_sorted_at_query net_income_payload_ascending
              "NetIncomeLoss"
              (map (make_fact "USD")
                 [obs "2023-09-30" "10-K" 900; obs "2024-09-30" "10-K" 1000]))
    as (_ & sorted_facts & Hs & _ & _ & Hdesc & _).
  - vm_compute. reflexivity.
  - repeat constructor.
  - vm_compute in Hs. inversion Hs; subst sorted_facts.
    apply Hdesc. repeat constructor.
Defined.

(** C2, as stated, fails: built from a payload that lists 2023 before 2024,
    the index holds the two observations in that order, which is descending
    neither by date nor by end key. *)
Lemma index_not_sorted_at_build :
  _index_facts net_income_payload_ascending !! "NetIncomeLoss"
  = Some (map (make_fact "USD")
            [obs "2023-09-30" "10-K" 900; obs "2024-09-30" "10-K" 1000])
  /\ ~ date_descending
         (map (make_fact "USD")
            [obs "2023-09-30" "10-K" 900; obs "2024-09-30" "10-K" 1000])
  /\ ~ end_descending
         (map (make_fact "USD")
            [obs "2023-09-30" "10-K" 900; obs "2024-09-30" "10-K" 1000]).
Proof.
  split; [vm_compute; reflexivity|]. split.
  - intros H. apply StronglySorted_cons in H as [H _].
    apply Forall_cons in H as [(da & db & Ha & Hb & Hle) _].
    vm_compute in Ha, Hb. inversion Ha; inversion Hb; subst da db.
    vm_compute in Hle. by apply Hle.
  - intros H. apply StronglySorted_cons in H as [H _].
    apply Forall_cons in H as [H _]. vm_compute in H. discriminate.
Qed.

(** ** Malformed observations *)

(** An observation whose end date does not parse, or whose value is absent
    or raises [ValueError] or [TypeError] on conversion, is passed over:
    the scan of a sorted list is the scan of the list without it. *)
Lemma malformed_fact_passed_over
    (pe : date) (ps : option date) (ft : option string) (tol : Z)
    (before after : list Fact) (f : Fact) :
  Forall (fun g => check_fact pe ps ft tol g = Ok None) before ->
  _parse_date (f_end f) = None
  \/ f_value f = PNone
  \/ py_float (f_value f) = Raise ValueError
  \/ py_float (f_value f) = Raise TypeError ->
  check_fact pe ps ft tol f = Ok None
  /\ scan_facts pe ps ft tol (before ++ f :: after) = scan_facts pe ps ft tol after.
Proof.
  intros Hb Hf.
  assert (check_fact pe ps ft tol f = Ok None) as Hc.
  { destruct (passes_filters pe ps ft tol f) eqn:Hp; [|by apply check_fact_filtered].
    rewrite (check_fact_passed _ _ _ _ _ Hp).
    destruct Hf as [Hf|[Hf|[Hf|Hf]]].
    - unfold passes_filters, end_ok in Hp. rewrite Hf in Hp.
      by rewrite andb_false_r in Hp.
    - by rewrite Hf.
    - destruct (f_value f); [done|..]; by rewrite Hf.
    - destruct (f_value f); [done|..]; by rewrite Hf. }
  split; [done|]. rewrite scan_facts_skip by done. simpl. by rewrite Hc.
Qed.

(** C7 at its failing inputs. With the end-to-end taxonomy the resolver
    finds 1000 for net income. One more observation whose value is an
    integer too large for a float makes the same query, and the whole
    income statement, raise [OverflowError]; one more observation whose end
    field is a number makes them raise [TypeError] in the sort. *)
Theorem malformed_observation_aborts_resolution :
  _find_fact_value (_index_facts net_income_payload) ["NetIncomeLoss"]
    (Date 2024 9 28) None None None (Some "10-K") 5
  = Ok (Some (1000%float, "NetIncomeLoss"))
  /\ _find_fact_value (_index_facts oversized_value_payload) ["NetIncomeLoss"]
       (Date 2024 9 28) None None None (Some "10-K") 5
     = Raise OverflowError
  /\ extract_income_statement (_index_facts oversized_value_payload)
       (Date 2024 9 28) (Date 2023 10 1) 2024 "FY" "10-K"
     = Raise OverflowError
  /\ _find_fact_value (_index_facts numeric_end_payload) ["NetIncomeLoss"]
       (Date 2024 9 28) None None None (Some "10-K") 5
     = Raise TypeError
  /\ extract_income_statement (_index_facts numeric_end_payload)
       (Date 2024 9 28) (Date 2023 10 1) 2024 "FY" "10-K"
     = Raise TypeError.
Proof. split_and!; vm_compute; reflexivity. Qed.

(** * Further properties *)

(** ** More on the resolver *)

Section ResolverLaws.
Variable idx : gmap string (list Fact).

(** The scan and the resolver see the query only through [check_fact]. *)
Lemma scan_facts_ext pe ps ft tol pe' ps' ft' tol' l :
  Forall (fun f => check_fact pe ps ft tol f = check_fact pe' ps' ft' tol' f) l ->
  scan_facts pe ps ft tol l = scan_facts pe' ps' ft' tol' l.
Proof. induction 1 as [|f l Hf _ IH]; simpl; [done|]. by rewrite Hf, IH. Qed.

Lemma find_in_tags_ext pe ps ft tol pe' ps' ft' tol' cands :
  (forall t l, t ∈ cands -> idx !! t = Some l ->
     Forall (fun f => check_fact pe ps ft tol f = check_fact pe' ps' ft' tol' f) l) ->
  find_in_tags idx pe ps ft tol cands = find_in_tags idx pe' ps' ft' tol' cands.
Proof.
  induction cands as [|t cands IH]; intros H; simpl; [done|].
  rewrite IH by (intros t' l Ht'; apply H; by right).
  destruct (idx !! t) as [l|] eqn:Hl; [|done].
  destruct (sorted_reverse end_key l) as [sorted|e] eqn:Hs; [|done]. simpl.
  rewrite (scan_facts_ext pe ps ft tol pe' ps' ft' tol'); [done|].
  rewrite (sorted_reverse_perm _ _ _ Hs). apply (H t); [by left|done].
Qed.

(** The resolver over a concatenated candidate list. *)
Lemma find_in_tags_app pe ps ft tol cands more :
  find_in_tags idx pe ps ft tol (cands ++ more)
  = match find_in_tags idx pe ps ft tol cands with
    | Ok None => find_in_tags idx pe ps ft tol more
    | r => r
    end.
Proof.
  induction cands as [|t cands IH]; simpl; [done|].
  destruct (idx !! t) as [l|]; [|done].
  destruct (sorted_reverse end_key l) as [sorted|e]; [|done]. simpl.
  by destruct (scan_facts pe ps ft tol sorted) as [[v|]|e].
Qed.

(** No resolution means no candidate held an acceptable observation. *)
Lemma find_in_tags_none_inv pe ps ft tol cands :
  find_in_tags idx pe ps ft tol cands = Ok None ->
  forall t l, t ∈ cands -> idx !! t = Some l ->
    Forall (fun f => acceptable pe ps ft tol f = false) l.
Proof.
  induction cands as [|t cands IH]; simpl; intros H t' l' Ht' Hl'.
  - by apply elem_of_nil in Ht'.
  - destruct (idx !! t) as [l|] eqn:Hl.
    + destruct (sorted_reverse end_key l) as [sorted|e] eqn:Hs; simpl in H; [|done].
      destruct (scan_facts pe ps ft tol sorted) as [[v|]|e] eqn:Hscan; simpl in H; try done.
      apply elem_of_cons in Ht' as [->|Ht']; [|by eapply IH].
      rewrite Hl in Hl'. inversion Hl'; subst l'.
      rewrite <- (sorted_reverse_perm _ _ _ Hs). by eapply scan_facts_none_inv.
    + apply elem_of_cons in Ht' as [->|Ht']; [congruence|by eapply IH].
Qed.
End ResolverLaws.

(** An empty form type is no form filter: the query with the required form
    [""] gives what the query with no required form gives. *)
Theorem empty_form_type_is_no_filter
    (idx : gmap string (list Fact)) (cands : list string) (pe : date)
    (ps : option date) (fy : option Z) (fp : option string) (tol : Z) :
  _find_fact_value idx cands pe ps fy fp (Some "") tol
  = _find_fact_value idx cands pe ps fy fp None tol.
Proof.
  unfold _find_fact_value. apply find_in_tags_ext. intros t l _ _.
  apply Forall_forall. intros f _. reflexivity.
Qed.

(** Candidates that are not in the index do not matter: dropping them from
    the candidate list leaves the result as it was. *)
Theorem unindexed_candidates_do_not_matter
    (idx : gmap string (list Fact)) (cands : list string) (pe : date)
    (ps : option date) (fy : option Z) (fp ft : option string) (tol : Z) :
  _find_fact_value idx
    (List.filter (fun t => bool_decide (is_Some (idx !! t))) cands)
    pe ps fy fp ft tol
  = _find_fact_value idx cands pe ps fy fp ft tol.
Proof.
  unfold _find_fact_value. induction cands as [|t cands IH]; simpl; [done|].
  destruct (idx !! t) as [l|] eqn:Hl; simpl.
  - rewrite Hl, IH. done.
  - exact IH.
Qed.

(** The candidates are tried in order and the first outcome stands: over
    [cands ++ more] the resolver gives what it gives over [cands], be it a
    value or an exception, and goes on to [more] only when [cands] gave
    nothing. So appending synonyms to a candidate list never changes an
    item that already resolved. *)
Theorem later_candidates_only_fill_gaps
    (idx : gmap string (list Fact)) (cands more : list string) (pe : date)
    (ps : option date) (fy : option Z) (fp ft : option string) (tol : Z) :
  _find_fact_value idx (cands ++ more) pe ps fy fp ft tol
  = match _find_fact_value idx cands pe ps fy fp ft tol with
    | Ok None => _find_fact_value idx more pe ps fy fp ft tol
    | r => r
    end.
Proof.
  unfold _find_fact_value. induction cands as [|t cands IH]; simpl; [done|].
  destruct (idx !! t) as [l|]; [|done].
  destruct (sorted_reverse end_key l) as [sorted|e]; [|done]. simpl.
  by destruct (scan_facts pe ps ft tol sorted) as [[v|]|e].
Qed.

(** An observation acceptable at one tolerance is acceptable at a wider
    one. *)
Lemma acceptable_mono pe ps ft tol tol' f :
  tol <= tol' ->
  acceptable pe ps ft tol f = true -> acceptable pe ps ft tol' f = true.
Proof.
  intros Htol. unfold acceptable, passes_filters, end_ok, start_ok.
  rewrite !andb_true_iff. intros [[[Hform Hend] Hstart] Hv]. split_and!; try done.
  - destruct (_parse_date (f_end f)); [|done]. lia.
  - destruct ps; [|done]. destruct (_parse_date (f_start f)); [|done]. lia.
Qed.

(** Widening the tolerance never loses a resolution. On an index of regular
    observations, an item that resolves to [tag] at tolerance [tol] still
    resolves at any [tol' >= tol], to [tag] or to a candidate that stands
    before it in the list. *)
Theorem wider_tolerance_keeps_resolution
    (idx : gmap string (list Fact)) (cands : list string) (pe : date)
    (ps : option date) (fy : option Z) (fp ft : option string)
    (tol tol' : Z) (v : float) (tag : string) :
  index_regular idx ->
  tol <= tol' ->
  _find_fact_value idx cands pe ps fy fp ft tol = Ok (Some (v, tag)) ->
  exists v' tag' pre post,
    _find_fact_value idx cands pe ps fy fp ft tol' = Ok (Some (v', tag'))
    /\ cands = pre ++ tag' :: post
    /\ tag ∈ tag' :: post.
Proof.
  unfold _find_fact_value. intros Hreg Htol H.
  destruct (find_in_tags_some_inv _ _ _ _ _ _ _ _ H)
    as (pre & post & facts & f & Hc & _ & Hfacts & Hf & Ha & _).
  apply (acceptable_mono _ _ _ _ _ _ Htol) in Ha.
  destruct (find_in_tags_total idx pe ps ft tol' cands Hreg) as [[[v' tag']|] H'].
  - destruct (find_in_tags_some_inv _ _ _ _ _ _ _ _ H')
      as (pre' & post' & facts' & f' & Hc' & Hpre' & _).
    exists v', tag', pre', post'. split_and!; [done..|].
    assert (tag ∈ cands) as Hin.
    { rewrite Hc. apply elem_of_app. right. by left. }
    rewrite Hc' in Hin. apply elem_of_app in Hin as [Hin|Hin]; [|done].
    pose proof (Hpre' tag facts Hin Hfacts) as Hnone.
    rewrite Forall_forall in Hnone. specialize (Hnone f Hf). congruence.
  - pose proof (find_in_tags_none_inv idx _ _ _ _ _ H' tag facts) as Hnone.
    rewrite Forall_forall in Hnone.
    assert (tag ∈ cands) as Hin.
    { rewrite Hc. apply elem_of_app. right. by left. }
    specialize (Hnone Hin Hfacts f Hf). congruence.
Qed.

(** At tolerance 5 the 2024-10-04 observation, 6 days off, is passed over
    for the one of 2024-10-02; at tolerance 6 it is the result. *)
Lemma wider_tolerance_keeps_resolution_witness :
  _find_fact_value (_index_facts tolerance_payload) ["NetIncomeLoss"]
    (Date 2024 9 28) None None None (Some "10-K") 5
  = Ok (Some (104%float, "NetIncomeLoss"))
  /\ _find_fact_value (_index_facts tolerance_payload) ["NetIncomeLoss"]
       (Date 2024 9 28) None None None (Some "10-K") 6
     = Ok (Some (106%float, "NetIncomeLoss")).
Proof.
  split; [vm_compute; reflexivity|].
  destruct (wider_tolerance_keeps_resolution (_index_facts tolerance_payload)
              ["NetIncomeLoss"] (Date 2024 9 28) None None None (Some "10-K")
              5 6 104%float "NetIncomeLoss")
    as (v' & tag' & pre & post & H & _ & _).
  - apply (bool_decide_unpack _). vm_compute. reflexivity.
  - lia.
  - vm_compute. reflexivity.
  - rewrite H. vm_compute in H. inversion H. reflexivity.
Defined.

(** *** Equal end dates *)

Lemma string_compare_refl s : String.compare s s = Eq.
Proof.
  induction s as [|c s IH]; simpl; [done|].
  unfold Ascii.compare. by rewrite N.compare_refl.
Qed.

Section SortStable.
Context {A : Type} (key : A -> PyVal) (k : string).

(** The sort keeps the elements of one key in their original order. *)
Lemma insert_desc_filter x l l' :
  insert_desc key x l = Ok l' ->
  List.filter (fun y => match key y with PStr s => String.eqb s k | _ => false end) l'
  = List.filter (fun y => match key y with PStr s => String.eqb s k | _ => false end)
      (x :: l).
Proof.
  revert l'. induction l as [|y l IH]; intros l' H; simpl in H.
  - by inversion H.
  - destruct (py_lt (key x) (key y)) as [[|]|e] eqn:Hlt; simpl in H; try discriminate.
    + destruct (insert_desc key x l) as [r|e]; simpl in H; inversion H; subst l'.
      specialize (IH r eq_refl). simpl in *. rewrite IH.
      destruct (key x) as [| | | |s] eqn:Hx; try done.
      destruct (String.eqb_spec s k) as [->|Hne]; [|done].
      destruct (key y) as [| | | |t]; try done. simpl in Hlt.
      destruct (String.eqb_spec t k) as [->|Hne]; [|done].
      unfold String.ltb in Hlt. by rewrite string_compare_refl in Hlt.
    + by inversion H.
Qed.

Lemma sorted_reverse_filter l l' :
  sorted_reverse key l = Ok l' ->
  List.filter (fun y => match key y with PStr s => String.eqb s k | _ => false end) l'
  = List.filter (fun y => match key y with PStr s => String.eqb s k | _ => false end) l.
Proof.
  revert l'. induction l as [|x l IH]; intros l' H; simpl in H.
  - by inversion H.
  - destruct (sorted_reverse key l) as [r|e]; simpl in H; [|done].
    rewrite (insert_desc_filter _ _ _ H). simpl. by rewrite (IH r eq_refl).
Qed.
End SortStable.

Lemma filter_andb {A : Type} (P Q : A -> bool) l :
  List.filter (fun x => P x && Q x) l = List.filter Q (List.filter P l).
Proof.
  induction l as [|x l IH]; simpl; [done|].
  destruct (P x); simpl; [|done]. destruct (Q x); by rewrite IH.
Qed.

(** Of several acceptable observations of a concept whose end fields are
    the same string, the one listed first in the payload is the one
    returned: the resolver returns the value of the first observation, in
    index order, among the acceptable ones with the greatest end key. The
    key is the text of the end field, not the day it denotes. *)
Theorem equal_end_keys_resolve_in_payload_order
    (idx : gmap string (list Fact)) (tag : string) (facts : list Fact)
    (pe : date) (ps : option date) (fy : option Z) (fp ft : option string)
    (tol : Z) :
  idx !! tag = Some facts ->
  Forall (fun f => regular f = true) facts ->
  Exists (fun f => acceptable pe ps ft tol f = true) facts ->
  exists f v k,
    _find_fact_value idx [tag] pe ps fy fp ft tol = Ok (Some (v, tag))
    /\ resolved_value f = Some v
    /\ end_key f = PStr k
    /\ (forall g, g ∈ facts -> acceptable pe ps ft tol g = true ->
          key_ge (PStr k) (end_key g))
    /\ head (List.filter (fun g => has_key k g && acceptable pe ps ft tol g) facts)
       = Some f.
Proof.
  intros Hl Hr Hex.
  assert (Forall (fun f => is_str (end_key f) = true) facts) as Hstr.
  { eapply Forall_impl; [exact Hr|]. unfold regular. by intros f [? _]%andb_true_iff. }
  destruct (sorted_reverse_total end_key facts Hstr) as [sorted Hs].
  pose proof (sorted_reverse_perm _ _ _ Hs) as Hperm.
  pose proof (sorted_reverse_sorted _ _ _ Hstr Hs) as Hsorted.
  destruct (scan_facts_first pe ps ft tol sorted)
    as (l1 & f & l2 & v & Heq & Hl1 & Ha & Hv & Hscan).
  { by rewrite Hperm. }
  { by rewrite Hperm. }
  assert (f ∈ facts) as Hf.
  { rewrite <- Hperm, Heq. apply elem_of_app. right. by left. }
  assert (is_str (end_key f) = true) as Hk.
  { rewrite Forall_forall in Hstr. by apply Hstr. }
  destruct (end_key f) as [| | | |k] eqn:Hkey; try discriminate.
  exists f, v, k. split_and!; try done.
  - unfold _find_fact_value. simpl. rewrite Hl, Hs. simpl. by rewrite Hscan.
  - intros g Hg Hga. rewrite <- Hperm, Heq in Hg. subst sorted.
    apply StronglySorted_app in Hsorted as (_ & _ & Hsorted).
    apply StronglySorted_cons in Hsorted as [Hfg _].
    apply elem_of_app in Hg as [Hg|Hg].
    + rewrite Forall_forall in Hl1. specialize (Hl1 g Hg). congruence.
    + apply elem_of_cons in Hg as [->|Hg].
      * rewrite Hkey. by apply key_ge_str.
      * rewrite Forall_forall in Hfg. rewrite <- Hkey. by apply Hfg.
  - rewrite filter_andb. unfold has_key.
    rewrite <- (sorted_reverse_filter end_key k facts sorted Hs), <- filter_andb.
    rewrite Heq, List.filter_app.
    replace (List.filter _ l1) with (@nil Fact).
    + simpl. by rewrite Hkey, String.eqb_refl, Ha.
    + symmetry. clear -Hl1. induction Hl1 as [|g l1 Hg _ IH]; simpl; [done|].
      rewrite Hg, andb_false_r. apply IH.
Qed.

(** Net income reported twice with the end field [2024-09-30], 1000 and
    then 1010, after an older figure: the one listed first is returned. *)
Lemma equal_end_keys_resolve_in_payload_order_witness :
  _find_fact_value (_index_facts restated_payload) ["NetIncomeLoss"]
    (Date 2024 9 28) None None None (Some "10-K") 5
  = Ok (Some (1000%float, "NetIncomeLoss")).
Proof.
  destruct (equal_end_keys_resolve_in_payload_order (_index_facts restated_payload)
              "NetIncomeLoss"
              (map (make_fact "USD")
                 [obs "2023-09-30" "10-K" 900; obs "2024-09-30" "10-K" 1000;
                  obs "2024-09-30" "10-K" 1010])
              (Date 2024 9 28) None None None (Some "10-K") 5)
    as (f & v & k & H & _).
  - vm_compute. reflexivity.
  - repeat constructor.
  - apply Exists_cons_tl, Exists_cons_hd. vm_compute. reflexivity.
  - rewrite H. vm_compute in H. inversion H. reflexivity.
Defined.

(** Two end fields that denote one day and differ as text are no tie: the
    greater text comes first in the sort, here the timestamp, listed
    second. *)
Example same_day_other_text_resolves_by_text :
  _find_fact_value (_index_facts timestamp_payload) ["NetIncomeLoss"]
    (Date 2024 9 30) None None None (Some "10-K") 5
  = Ok (Some (1010%float, "NetIncomeLoss")).
Proof. vm_compute. reflexivity. Qed.

(** *** Start dates *)

(** A duration query checks the start date only of observations that carry
    one that parses. Over candidates whose observations carry none (absent,
    empty, not a string, or not a date), the query with a target start date
    gives what the query without one gives. *)
Theorem start_filter_needs_a_parsed_start
    (idx : gmap string (list Fact)) (cands : list string) (pe p : date)
    (fy : option Z) (fp ft : option string) (tol : Z) :
  (forall t l, t ∈ cands -> idx !! t = Some l ->
     Forall (fun f => _parse_date (f_start f) = None) l) ->
  _find_fact_value idx cands pe (Some p) fy fp ft tol
  = _find_fact_value idx cands pe None fy fp ft tol.
Proof.
  intros H. unfold _find_fact_value. apply find_in_tags_ext.
  intros t l Ht Hl. eapply Forall_impl; [exact (H t l Ht Hl)|].
  intros f Hf. unfold check_fact, start_mismatch. by rewrite Hf.
Qed.

(** The end-to-end taxonomy carries no start dates: the annual query with a
    start date resolves as the query without one. *)
Lemma start_filter_needs_a_parsed_start_witness :
  _find_fact_value (_index_facts net_income_payload) ["NetIncomeLoss"]
    (Date 2024 9 28) (Some (Date 2023 10 1)) None None (Some "10-K") 5
  = _find_fact_value (_index_facts net_income_payload) ["NetIncomeLoss"]
      (Date 2024 9 28) None None None (Some "10-K") 5.
Proof.
  apply (start_filter_needs_a_parsed_start (_index_facts net_income_payload)
           ["NetIncomeLoss"] (Date 2024 9 28) (Date 2023 10 1) None None
           (Some "10-K") 5).
  intros t l Ht Hl. apply list_elem_of_singleton in Ht. subst t.
  vm_compute in Hl. inversion Hl. repeat constructor.
Defined.

Section SortMap.
Context {A : Type} (key : A -> PyVal) (g : A -> A).
Hypothesis key_g : forall x, key (g x) = key x.

Lemma insert_desc_map x l :
  insert_desc key (g x) (map g l)
  = match insert_desc key x l with
    | Ok r => Ok (map g r)
    | Raise e => Raise e
    end.
Proof.
  induction l as [|y l IH]; simpl; [done|]. rewrite !key_g.
  destruct (py_lt (key x) (key y)) as [[|]|e]; simpl; [|done..].
  rewrite IH. by destruct (insert_desc key x l).
Qed.

Lemma sorted_reverse_map l :
  sorted_reverse key (map g l)
  = match sorted_reverse key l with
    | Ok r => Ok (map g r)
    | Raise e => Raise e
    end.
Proof.
  induction l as [|x l IH]; simpl; [done|]. rewrite IH.
  destruct (sorted_reverse key l) as [r|e]; simpl; [|done].
  apply insert_desc_map.
Qed.
End SortMap.

(** An instant query never looks at start dates: with no target start date,
    the resolver gives the same result on the index and on the index with
    every start date removed. A fact that spans a period is therefore as
    good a match for a balance-sheet item as a point-in-time one. *)
Theorem instant_query_ignores_start_dates
    (idx : gmap string (list Fact)) (cands : list string) (pe : date)
    (fy : option Z) (fp ft : option string) (tol : Z) :
  _find_fact_value (fmap (map without_start) idx) cands pe None fy fp ft tol
  = _find_fact_value idx cands pe None fy fp ft tol.
Proof.
  unfold _find_fact_value. induction cands as [|t cands IH]; simpl; [done|].
  rewrite lookup_fmap, IH. destruct (idx !! t) as [l|]; simpl; [|done].
  rewrite (sorted_reverse_map end_key without_start) by done.
  destruct (sorted_reverse end_key l) as [sorted|e]; simpl; [|done].
  replace (scan_facts pe None ft tol (map without_start sorted))
    with (scan_facts pe None ft tol sorted); [done|].
  clear. induction sorted as [|f sorted IHs]; simpl; [done|].
  by rewrite IHs.
Qed.

(** *** Tolerance bounds *)

(** A negative tolerance resolves nothing: no distance in days is below
    zero, so the resolver returns no value (it may still raise in the
    sort). *)
Theorem negative_tolerance_resolves_nothing
    (idx : gmap string (list Fact)) (cands : list string) (pe : date)
    (ps : option date) (fy : option Z) (fp ft : option string) (tol : Z)
    (r : option (float * string)) :
  tol < 0 ->
  _find_fact_value idx cands pe ps fy fp ft tol = Ok r ->
  r = None.
Proof.
  intros Htol H. destruct r as [[v tag]|]; [|done].
  destruct (find_in_tags_some_inv _ _ _ _ _ _ _ _ H)
    as (_ & _ & _ & f & _ & _ & _ & _ & Ha & _).
  unfold acceptable, passes_filters, end_ok in Ha.
  destruct (_parse_date (f_end f)) as [d|].
  - replace (Z.abs (days_between d pe) <=? tol) with false in Ha by (symmetry; lia).
    by rewrite andb_false_r in Ha.
  - by rewrite andb_false_r in Ha.
Qed.

Lemma negative_tolerance_resolves_nothing_witness :
  _find_fact_value (_index_facts net_income_payload) ["NetIncomeLoss"]
    (Date 2024 9 30) None None None (Some "10-K") (-1)
  = Ok None.
Proof.
  destruct (_find_fact_value (_index_facts net_income_payload) ["NetIncomeLoss"]
              (Date 2024 9 30) None None None (Some "10-K") (-1))
    as [r|e] eqn:H.
  - f_equal.
    apply (negative_tolerance_resolves_nothing (_index_facts net_income_payload)
             ["NetIncomeLoss"] (Date 2024 9 30) None None None (Some "10-K") (-1));
      [lia|exact H].
  - vm_compute in H. discriminate H.
Defined.

(** ** More on the fact index *)

Lemma concept_indexed_app c ns ns' :
  concept_indexed c (ns ++ ns') = concept_indexed c ns || concept_indexed c ns'.
Proof. apply existsb_app. Qed.

(** The index holds exactly what the payload lists. A concept is indexed
    when a namespace lists it with at least one unit, and its list then
    holds all its observations, of every unit, us-gaap before dei, in
    payload order, none dropped and none merged; a concept whose units hold
    no observation is indexed with an empty list, and a concept listed
    without units, or not listed, is not in the index. *)
Theorem index_holds_exactly_the_payload (xbrl : XbrlFacts) (concept : string) :
  _index_facts xbrl !! concept
  = if concept_indexed concept (us_gaap xbrl ++ dei xbrl)
    then Some (concept_facts concept (us_gaap xbrl ++ dei xbrl))
    else None.
Proof.
  assert (concept_facts concept (us_gaap xbrl ++ dei xbrl)
          = concept_facts concept (us_gaap xbrl) ++ concept_facts concept (dei xbrl)) as ->
    by apply flat_map_app.
  rewrite concept_indexed_app.
  unfold _index_facts. rewrite !index_namespace_lookup, lookup_empty.
  destruct (concept_indexed concept (us_gaap xbrl)) eqn:Hus; simpl; [done|].
  rewrite (concept_facts_not_indexed _ _ Hus). simpl.
  by destruct (concept_indexed concept (dei xbrl)).
Qed.

(** ** More on dates *)

Lemma strptime_ymd_valid l d :
  strptime_ymd l = Some d -> valid_date d = true /\ year d <= 9999.
Proof.
  unfold strptime_ymd.
  destruct l as [|y1 [|y2 [|y3 [|y4 [|c r]]]]]; try done.
  destruct (Ascii.eqb c "-" && is_digit y1 && is_digit y2 && is_digit y3 && is_digit y4);
    [|done].
  destruct (parse_month r) as [[m r']|]; [|done].
  destruct (parse_day r') as [dd|]; [|done].
  intros H. pose proof H as [-> Hv]%make_date_valid. split; [done|].
  unfold make_date in H. simpl.
  match type of H with (if ?c then _ else _) = _ => destruct c eqn:Hc end; [|done].
  rewrite !andb_true_iff in Hc. lia.
Qed.

(** Whatever [_parse_date] returns is a date of the calendar: it came from
    a non-empty string, its month is between 1 and 12, its day exists in
    that month of that year, and its year is between 1 and 9999. *)
Theorem parsed_dates_are_calendar_dates (date_str : PyVal) (d : date) :
  _parse_date date_str = Some d ->
  (exists s, date_str = PStr s /\ s <> "")
  /\ valid_date d = true
  /\ year d <= 9999.
Proof.
  unfold _parse_date. destruct (truthy date_str) eqn:Ht; [|done]. simpl.
  destruct date_str as [| | | |s]; try done.
  intros [Hv Hy]%strptime_ymd_valid. split_and!; [|done..].
  exists s. split; [done|]. intros ->. done.
Qed.

Lemma parsed_dates_are_calendar_dates_witness :
  valid_date (Date 2024 2 29) = true /\ _parse_date (PStr "2023-02-29") = None.
Proof.
  split; [|vm_compute; reflexivity].
  apply (parsed_dates_are_calendar_dates (PStr "2024-02-29") (Date 2024 2 29)).
  vm_compute. reflexivity.
Defined.

Lemma list_ascii_of_string_app s t :
  list_ascii_of_string (s ++ t)%string
  = list_ascii_of_string s ++ list_ascii_of_string t.
Proof. induction s as [|c s IH]; simpl; [done|]. by rewrite IH. Qed.

Lemma list_ascii_of_string_length s :
  length (list_ascii_of_string s) = String.length s.
Proof. induction s as [|c s IH]; simpl; [done|]. by rewrite IH. Qed.

(** Only the first ten characters of a date string count: a timestamp
    parses as the date it starts with. *)
Theorem parse_date_reads_ten_characters (s t : string) :
  String.length s = 10%nat ->
  _parse_date (PStr (s ++ t)) = _parse_date (PStr s).
Proof.
  intros Hlen. unfold _parse_date.
  assert (truthy (PStr (s ++ t)) = true /\ truthy (PStr s) = true) as [-> ->].
  { by destruct s. }
  simpl. rewrite list_ascii_of_string_app.
  assert (length (list_ascii_of_string s) = 10%nat) as Hl
    by (by rewrite list_ascii_of_string_length).
  assert (take 10 (list_ascii_of_string s ++ list_ascii_of_string t)
          = list_ascii_of_string s) as ->
    by (rewrite <- Hl; apply take_app_length).
  by rewrite take_ge by lia.
Qed.

Lemma parse_date_reads_ten_characters_witness :
  _parse_date (PStr "2024-09-30T16:30:00Z") = Some (Date 2024 9 30).
Proof.
  etransitivity;
    [exact (parse_date_reads_ten_characters "2024-09-30" "T16:30:00Z" eq_refl)|].
  vm_compute. reflexivity.
Defined.

Lemma digit_char_spec n :
  0 <= n <= 9 ->
  is_digit (digit_char n) = true /\ digit_val (digit_char n) = n.
Proof.
  intros Hn.
  assert (exists k : nat, (k < 10)%nat /\ n = Z.of_nat k) as (k & Hk & ->)
    by (exists (Z.to_nat n); lia).
  do 10 (destruct k as [|k]; [by vm_compute|]). lia.
Qed.

Lemma two_digits_char a b :
  0 <= a <= 9 -> 0 <= b <= 9 ->
  two_digits (digit_char a) (digit_char b) = 10 * a + b.
Proof.
  intros [_ Ha]%digit_char_spec [_ Hb]%digit_char_spec.
  unfold two_digits. by rewrite Ha, Hb.
Qed.

(** Round trip: every date of the calendar, written [YYYY-MM-DD], parses
    back to itself. *)
Theorem parse_date_reads_iso_dates (d : date) :
  valid_date d = true ->
  year d <= 9999 ->
  _parse_date (PStr (isoformat d)) = Some d.
Proof.
  destruct d as [y m dd]. unfold valid_date, isoformat. simpl.
  rewrite !andb_true_iff. intros [[[[Hy Hm1] Hm2] Hd1] Hd2] Hy2.
  assert (_days_in_month y m <= 31) as Hdim.
  { unfold _days_in_month. assert (1 <= m <= 12) as Hm by lia.
    destruct ((m =? 2) && _is_leap y); [lia|].
    destruct (month_cases m Hm) as [->|[->|[->|[->|[->|[->|[->|[->|[->|[->|[->| ->]]]]]]]]]]];
      simpl; lia. }
  assert (0 <= y / 1000 <= 9 /\ 0 <= y / 100 mod 10 <= 9 /\ 0 <= y / 10 mod 10 <= 9
          /\ 0 <= y mod 10 <= 9 /\ 0 <= m / 10 <= 9 /\ 0 <= m mod 10 <= 9
          /\ 0 <= dd / 10 <= 9 /\ 0 <= dd mod 10 <= 9)
    as (Hy1 & Hy3 & Hy4 & Hy5 & Hma & Hmb & Hda & Hdb)
    by (Z.div_mod_to_equations; lia).
  unfold _parse_date. simpl truthy. cbv iota. simpl negb. cbv iota.
  cbn [list_ascii_of_string take].
  unfold strptime_ymd.
  rewrite (proj1 (digit_char_spec _ Hy1)), (proj1 (digit_char_spec _ Hy3)),
    (proj1 (digit_char_spec _ Hy4)), (proj1 (digit_char_spec _ Hy5)).
  simpl andb. cbv iota.
  rewrite parse_month_padded by (by apply digit_char_spec).
  rewrite !two_digits_char by done.
  replace ((1 <=? 10 * (m / 10) + m mod 10) && (10 * (m / 10) + m mod 10 <=? 12))
    with true by (symmetry; apply andb_true_iff; Z.div_mod_to_equations; lia).
  rewrite parse_day_padded by (by apply digit_char_spec).
  rewrite !two_digits_char by done.
  replace ((1 <=? 10 * (dd / 10) + dd mod 10) && (10 * (dd / 10) + dd mod 10 <=? 31))
    with true by (symmetry; apply andb_true_iff; Z.div_mod_to_equations; lia).
  replace (100 * (10 * (y / 1000) + y / 100 mod 10) + (10 * (y / 10 mod 10) + y mod 10))
    with y by (Z.div_mod_to_equations; lia).
  replace (10 * (m / 10) + m mod 10) with m by (Z.div_mod_to_equations; lia).
  replace (10 * (dd / 10) + dd mod 10) with dd by (Z.div_mod_to_equations; lia).
  unfold make_date.
  replace ((1 <=? y) && (y <=? 9999) && (1 <=? m) && (m <=? 12) && (1 <=? dd)
           && (dd <=? _days_in_month y m)) with true; [done|].
  symmetry. rewrite !andb_true_iff. lia.
Qed.

Lemma parse_date_reads_iso_dates_witness :
  isoformat (Date 2024 2 29) = "2024-02-29"
  /\ _parse_date (PStr "2024-02-29") = Some (Date 2024 2 29).
Proof.
  split; [vm_compute; reflexivity|].
  exact (parse_date_reads_iso_dates (Date 2024 2 29) eq_refl ltac:(simpl; lia)).
Defined.

(** ** More on statement assembly *)

Section AssembleMore.
Variable idx : gmap string (list Fact).
Variable pe : date.
Variable ps : option date.
Variable fy : Z.
Variables fp form : string.

Lemma assemble_items table stmt0 stmt :
  NoDup table.*1 ->
  FinancialStatement.line_items stmt0 = ∅ ->
  assemble idx table pe ps fy fp form stmt0 = Ok stmt ->
  items_from_table idx table pe ps fy fp form stmt.
Proof.
  intros Hnd H0 H key item Hl.
  destruct (decide (key ∈ table.*1)) as [Hin|Hout].
  - apply list_elem_of_fmap in Hin as ([k cands] & -> & Hin). simpl in *.
    destruct (assemble_lookup idx pe ps fy fp form _ _ _ _ _ Hnd Hin H)
      as ([[v tag]|] & Hr & Hitem).
    + rewrite Hitem in Hl. inversion Hl; subst item.
      pose proof Hr as Hinv. unfold _find_fact_value in Hinv.
      apply find_in_tags_some_inv in Hinv
        as (pre & post & facts & f & -> & _ & Hfacts & _).
      exists (pre ++ tag :: post), v, tag. split_and!; try done.
      apply elem_of_app. right. by left.
    + rewrite Hitem, H0 in Hl. done.
  - rewrite (assemble_other idx pe ps fy fp form _ _ _ _ Hout H), H0 in Hl. done.
Qed.

(** The header of the statement is not touched by the assembly. *)
Lemma assemble_header table stmt0 stmt :
  assemble idx table pe ps fy fp form stmt0 = Ok stmt ->
  FinancialStatement.statement_type stmt = FinancialStatement.statement_type stmt0
  /\ FinancialStatement.period_end stmt = FinancialStatement.period_end stmt0
  /\ FinancialStatement.period_start stmt = FinancialStatement.period_start stmt0
  /\ FinancialStatement.fiscal_year stmt = FinancialStatement.fiscal_year stmt0
  /\ FinancialStatement.fiscal_period stmt = FinancialStatement.fiscal_period stmt0.
Proof.
  revert stmt0. induction table as [|[k c] table IH]; intros stmt0 H; simpl in H.
  - by inversion H.
  - destruct (_find_fact_value idx c pe ps (Some fy) (Some fp) (Some form) 5)
      as [[[v tag]|]|e]; simpl in H; try discriminate.
    + by destruct (IH _ H) as (-> & -> & -> & -> & ->).
    + by apply IH.
Qed.

(** A table none of whose candidate tags is indexed adds nothing. *)
Lemma assemble_nothing_indexed table stmt0 :
  (forall key cands tag, (key, cands) ∈ table -> tag ∈ cands -> idx !! tag = None) ->
  assemble idx table pe ps fy fp form stmt0 = Ok stmt0.
Proof.
  revert stmt0. induction table as [|[k c] table IH]; intros stmt0 H; simpl; [done|].
  assert (_find_fact_value idx c pe ps (Some fy) (Some fp) (Some form) 5 = Ok None) as ->.
  { unfold _find_fact_value.
    assert (forall tag, tag ∈ c -> idx !! tag = None) as Hc
      by (intros tag Htag; apply (H k c); [by left|done]).
    clear -Hc. induction c as [|t c IHc]; simpl; [done|].
    rewrite (Hc t) by (by left). apply IHc. intros tag Htag. apply Hc. by right. }
  simpl. apply IH. intros key cands tag Hin. apply (H key cands tag). by right.
Qed.
End AssembleMore.

(** Every line item of an assembled statement is accounted for. In the
    statement each assembler returns, a line item under [key] is the item
    built for that key of the assembler's table: its label is the key's
    label (the key itself without one), its negation flag says whether the
    key is a negated item, its period is the one requested, and its value and
    tag are what the resolver returned for the key's candidates, the tag
    being one of those candidates and a concept of the index. No key from
    outside the table appears. *)
Theorem line_items_come_from_the_table
    (idx : gmap string (list Fact)) (pe ps : date) (fy : Z) (fp form : string) :
  (forall inc, extract_income_statement idx pe ps fy fp form = Ok inc ->
     items_from_table idx INCOME_STATEMENT_TAGS pe (Some ps) fy fp form inc)
  /\ (forall bal, extract_balance_sheet idx pe fy fp form = Ok bal ->
        items_from_table idx BALANCE_SHEET_TAGS pe None fy fp form bal)
  /\ (forall cf, extract_cash_flow idx pe ps fy fp form = Ok cf ->
        items_from_table idx CASH_FLOW_TAGS pe (Some ps) fy fp form cf).
Proof.
  destruct tables_have_distinct_keys as (Hi & Hb & Hc).
  unfold extract_income_statement, extract_balance_sheet, extract_cash_flow.
  split_and!; intros stmt H.
  - refine (assemble_items _ _ _ _ _ _ _ _ _ Hi _ H). reflexivity.
  - refine (assemble_items _ _ _ _ _ _ _ _ _ Hb _ H). reflexivity.
  - refine (assemble_items _ _ _ _ _ _ _ _ _ Hc _ H). reflexivity.
Qed.

(** The statements carry the header they were asked for: the statement
    type of the assembler, the requested period end, fiscal year and fiscal
    period, and the requested period start, which a balance sheet does not
    have. *)
Theorem statements_carry_the_requested_period
    (idx : gmap string (list Fact)) (pe ps : date) (fy : Z) (fp form : string) :
  (forall inc, extract_income_statement idx pe ps fy fp form = Ok inc ->
     exists items,
       inc = FinancialStatement.Make INCOME_STATEMENT pe fy fp (Some ps) items)
  /\ (forall bal, extract_balance_sheet idx pe fy fp form = Ok bal ->
        exists items,
          bal = FinancialStatement.Make BALANCE_SHEET pe fy fp None items)
  /\ (forall cf, extract_cash_flow idx pe ps fy fp form = Ok cf ->
        exists items,
          cf = FinancialStatement.Make CASH_FLOW pe fy fp (Some ps) items).
Proof.
  unfold extract_income_statement, extract_balance_sheet, extract_cash_flow.
  split_and!; intros [t e y p s items] H; exists items;
    apply assemble_header in H as (Ht & He & Hs & Hy & Hp); simpl in *; congruence.
Qed.

(** Missing data is not an error. When none of the candidate tags of the
    three tables is a concept of the index, as with an empty payload, each
    assembler returns its statement with no line item. *)
Theorem no_indexed_candidate_gives_empty_statements
    (idx : gmap string (list Fact)) (pe ps : date) (fy : Z) (fp form : string) :
  (forall key cands tag,
     (key, cands) ∈ INCOME_STATEMENT_TAGS ++ BALANCE_SHEET_TAGS ++ CASH_FLOW_TAGS ->
     tag ∈ cands -> idx !! tag = None) ->
  extract_income_statement idx pe ps fy fp form
  = Ok (empty_statement INCOME_STATEMENT pe (Some ps) fy fp)
  /\ extract_balance_sheet idx pe fy fp form
     = Ok (empty_statement BALANCE_SHEET pe None fy fp)
  /\ extract_cash_flow idx pe ps fy fp form
     = Ok (empty_statement CASH_FLOW pe (Some ps) fy fp).
Proof.
  intros H. unfold extract_income_statement, extract_balance_sheet, extract_cash_flow.
  split_and!; apply assemble_nothing_indexed; intros key cands tag Hin;
    apply (H key cands tag); rewrite !elem_of_app; auto.
Qed.

Lemma no_indexed_candidate_gives_empty_statements_witness :
  _index_facts empty_payload = ∅
  /\ extract_balance_sheet (_index_facts empty_payload) (Date 2024 9 28) 2024 "FY" "10-K"
     = Ok (empty_statement BALANCE_SHEET (Date 2024 9 28) None 2024 "FY").
Proof.
  split; [reflexivity|].
  apply (no_indexed_candidate_gives_empty_statements (_index_facts empty_payload)
           (Date 2024 9 28) (Date 2023 10 1) 2024 "FY" "10-K").
  intros key cands tag _ _. apply lookup_empty.
Defined.

(** Net income reads the same on both statements. The cash-flow key
    [net_income_cf] and the income-statement key [net_income] share their
    first candidates, so when the cash-flow statement holds net income, the
    income statement assembled for the same period holds the same number. *)
Theorem net_income_agrees_across_statements
    (idx : gmap string (list Fact)) (pe ps : date) (fy : Z) (fp form : string)
    (inc cf : FinancialStatement.t) (v : float) :
  extract_income_statement idx pe ps fy fp form = Ok inc ->
  extract_cash_flow idx pe ps fy fp form = Ok cf ->
  FinancialStatement.get_value cf "net_income_cf" = Some v ->
  FinancialStatement.get_value inc "net_income" = Some v.
Proof.
  destruct tables_have_distinct_keys as (Hi & _ & Hc).
  unfold extract_income_statement, extract_cash_flow. intros Hinc Hcf Hv.
  destruct (assemble_lookup idx pe (Some ps) fy fp form CASH_FLOW_TAGS
              (empty_statement CASH_FLOW pe (Some ps) fy fp) cf
              "net_income_cf" ["NetIncomeLoss"; "ProfitLoss"] Hc) as (r & Hr & Hl);
    [by left|exact Hcf|].
  unfold FinancialStatement.get_value in Hv. rewrite Hl in Hv.
  destruct r as [[w tag]|]; [|done]. simpl in Hv. inversion Hv; subst w.
  apply (assembled_get_value idx pe (Some ps) fy fp form INCOME_STATEMENT_TAGS
           (empty_statement INCOME_STATEMENT pe (Some ps) fy fp) inc
           "net_income"
           ["NetIncomeLoss"; "ProfitLoss";
            "NetIncomeLossAvailableToCommonStockholdersBasic"] v tag Hi);
    [|exact Hinc|].
  - apply (bool_decide_unpack _). vm_compute. reflexivity.
  - unfold _find_fact_value in *.
    change ["NetIncomeLoss"; "ProfitLoss";
            "NetIncomeLossAvailableToCommonStockholdersBasic"]
      with (["NetIncomeLoss"; "ProfitLoss"]
            ++ ["NetIncomeLossAvailableToCommonStockholdersBasic"]).
    by rewrite find_in_tags_app, Hr.
Qed.

Lemma net_income_agrees_across_statements_witness :
  exists inc cf,
    extract_income_statement (_index_facts net_income_payload)
      (Date 2024 9 28) (Date 2023 10 1) 2024 "FY" "10-K" = Ok inc
    /\ extract_cash_flow (_index_facts net_income_payload)
         (Date 2024 9 28) (Date 2023 10 1) 2024 "FY" "10-K" = Ok cf
    /\ FinancialStatement.get_value cf "net_income_cf" = Some 1000%float
    /\ FinancialStatement.get_value inc "net_income" = Some 1000%float.
Proof.
  destruct (extract_income_statement (_index_facts net_income_payload)
              (Date 2024 9 28) (Date 2023 10 1) 2024 "FY" "10-K") as [inc|e] eqn:Hinc;
    [|vm_compute in Hinc; discriminate Hinc].
  destruct (extract_cash_flow (_index_facts net_income_payload)
              (Date 2024 9 28) (Date 2023 10 1) 2024 "FY" "10-K") as [cf|e] eqn:Hcf;
    [|vm_compute in Hcf; discriminate Hcf].
  assert (FinancialStatement.get_value cf "net_income_cf" = Some 1000%float) as Hv.
  { vm_compute in Hcf. inversion Hcf. vm_compute. reflexivity. }
  exists inc, cf. split_and!; [done..|].
  exact (net_income_agrees_across_statements _ _ _ _ _ _ inc cf _ Hinc Hcf Hv).
Defined.

(** * The calendar, the filings and the sheets *)

(** ** Ordinals and dates *)

Lemma elem_of_range lo n x : lo <= x < lo + Z.of_nat n -> x ∈ range lo n.
Proof.
  intros H. unfold range. apply list_elem_of_fmap.
  exists (Z.to_nat (x - lo)). split; [lia|].
  apply elem_of_seq. lia.
Qed.

(** Within a year, [_ord2ymd] finds a month and a day that exist and that
    are the day of the index. *)
Lemma month_day_year (leapyear : bool) (n : Z) :
  0 <= n < (if leapyear then 366 else 365) -> month_day_ok leapyear n = true.
Proof.
  intros Hn.
  assert (forallb (month_day_ok true) (range 0 366)
          && forallb (month_day_ok false) (range 0 365) = true) as Hall
    by (vm_compute; reflexivity).
  apply andb_true_iff in Hall as [Ht Hf].
  destruct leapyear.
  - rewrite forallb_forall in Ht. apply Ht, list_elem_of_In, elem_of_range. lia.
  - rewrite forallb_forall in Hf. apply Hf, list_elem_of_In, elem_of_range. lia.
Qed.

(** The days before a year, from its place in the cycles of 400, 100 and 4
    years. *)
Lemma days_before_year_cycles a b c e :
  0 <= a -> 0 <= b <= 3 -> 0 <= c <= 24 -> 0 <= e <= 3 ->
  _days_before_year (a * 400 + 1 + b * 100 + c * 4 + e)
  = 146097 * a + 36524 * b + 1461 * c + 365 * e.
Proof.
  intros. unfold _days_before_year. Z.div_mod_to_equations. lia.
Qed.

Lemma is_leap_cycles a b c e :
  0 <= a -> 0 <= b <= 3 -> 0 <= c <= 24 -> 0 <= e <= 3 ->
  _is_leap (a * 400 + 1 + b * 100 + c * 4 + e)
  = (e =? 3) && (negb (c =? 24) || (b =? 3)).
Proof.
  intros. unfold _is_leap.
  destruct (e =? 3) eqn:He, (c =? 24) eqn:Hc, (b =? 3) eqn:Hb; simpl;
    repeat match goal with
    | |- context [?x mod ?k =? 0] => destruct (Z.eqb_spec (x mod k) 0)
    end; simpl; try reflexivity; exfalso; Z.div_mod_to_equations; lia.
Qed.

(** [date.fromordinal(n)] is a date of the calendar, and its ordinal is [n]. *)
Lemma ord2ymd_toordinal n :
  1 <= n -> valid_date (_ord2ymd n) = true /\ toordinal (_ord2ymd n) = n.
Proof.
  intros Hn. unfold _ord2ymd.
  set (N := n - 1).
  set (a := N / 146097). set (r400 := N mod 146097).
  set (b := r400 / 36524). set (r100 := r400 mod 36524).
  set (c := r100 / 1461). set (r4 := r100 mod 1461).
  set (e := r4 / 365). set (r1 := r4 mod 365).
  assert (0 <= a /\ 0 <= b <= 4 /\ 0 <= c <= 24 /\ 0 <= e <= 4
          /\ 0 <= r1 < 365
          /\ n = 146097 * a + 36524 * b + 1461 * c + 365 * e + r1 + 1
          /\ (b = 4 -> c = 0 /\ e = 0 /\ r1 = 0)
          /\ (e = 4 -> c <= 23 /\ r1 = 0)) as Hdec.
  { subst a r400 b r100 c r4 e r1 N. Z.div_mod_to_equations. lia. }
  destruct Hdec as (Ha & Hb & Hc & He & Hr & Hsum & Hb4 & He4).
  destruct ((e =? 4) || (b =? 4)) eqn:Hlast.
  - assert (exists b' c', 0 <= b' <= 3 /\ 0 <= c' <= 24
            /\ (c' =? 24) && negb (b' =? 3) = false
            /\ a * 400 + 1 + b * 100 + c * 4 + e - 1
               = a * 400 + 1 + b' * 100 + c' * 4 + 3
            /\ n = 146097 * a + 36524 * b' + 1461 * c' + 1461)
      as (b' & c' & Hb' & Hc' & Hleap & Hy & Hn').
    { apply orb_true_iff in Hlast as [H4|H4]; apply Z.eqb_eq in H4.
      - destruct (He4 H4). exists b, c.
        destruct (Z.eqb_spec c 24); [lia|]. simpl. lia.
      - destruct (Hb4 H4) as (? & ? & ?). exists 3, 24. simpl. lia. }
    rewrite Hy. clearbody a b c e r1. clear Hsum. subst n.
    unfold valid_date, toordinal, _days_in_month, _days_before_month.
    cbn [year month day].
    rewrite is_leap_cycles, days_before_year_cycles by lia.
    destruct (c' =? 24), (b' =? 3); try done; simpl; split; try lia;
      rewrite ?andb_true_iff; split_and?; lia.
  - clear Hb4 He4. apply orb_false_iff in Hlast as [He4 Hb4].
    assert (0 <= b <= 3) as Hb' by lia. assert (0 <= e <= 3) as He' by lia.
    pose proof (month_day_year ((e =? 3) && (negb (c =? 24) || (b =? 3))) r1) as Hmd.
    unfold month_day_ok, month_day in Hmd.
    set (leapyear := (e =? 3) && (negb (c =? 24) || (b =? 3))) in *.
    destruct (if _ >? r1 then _ else _) as [m p] eqn:Hmp.
    rewrite !andb_true_iff in Hmd.
    destruct Hmd as [[[[Hm1 Hm2] Hd1] Hd2] Hord]; [destruct leapyear; lia|].
    unfold valid_date, toordinal, _days_in_month, _days_before_month. cbn [year month day].
    rewrite is_leap_cycles, days_before_year_cycles by lia. fold leapyear.
    split.
    + rewrite !andb_true_iff. split_and!; try done. lia.
    + lia.
Qed.

Lemma days_before_month_nonneg y m : 1 <= m <= 12 -> 0 <= _days_before_month y m.
Proof.
  intros Hm. unfold _days_before_month.
  destruct (_is_leap y);
  destruct (month_cases m Hm) as [->|[->|[->|[->|[->|[->|[->|[->|[->|[->|[->| ->]]]]]]]]]]];
    simpl; lia.
Qed.

Lemma valid_date_inv d :
  valid_date d = true ->
  1 <= year d /\ 1 <= month d <= 12 /\ 1 <= day d <= _days_in_month (year d) (month d).
Proof. unfold valid_date. rewrite !andb_true_iff. lia. Qed.

Lemma toordinal_year_bounds d :
  valid_date d = true ->
  _days_before_year (year d) < toordinal d <= _days_before_year (year d + 1).
Proof.
  intros (Hy & Hm & Hd)%valid_date_inv. unfold toordinal.
  pose proof (days_before_month_nonneg (year d) (month d) Hm).
  pose proof (day_of_year_bound (year d) (month d) (day d) Hm (proj2 Hd)).
  rewrite days_before_year_succ. lia.
Qed.

(** Two dates of the calendar with one ordinal are one date. *)
Lemma toordinal_inj d1 d2 :
  valid_date d1 = true -> valid_date d2 = true ->
  toordinal d1 = toordinal d2 -> d1 = d2.
Proof.
  intros H1 H2 Heq.
  pose proof (toordinal_year_bounds d1 H1) as B1.
  pose proof (toordinal_year_bounds d2 H2) as B2.
  apply valid_date_inv in H1 as (Hy1 & Hm1 & Hd1).
  apply valid_date_inv in H2 as (Hy2 & Hm2 & Hd2).
  assert (year d1 = year d2) as Hy.
  { destruct (Z.lt_trichotomy (year d1) (year d2)) as [Hlt|[?|Hlt]]; [|done|].
    - pose proof (days_before_year_mono (year d1 + 1) (year d2)). lia.
    - pose proof (days_before_year_mono (year d2 + 1) (year d1)). lia. }
  destruct d1 as [y1 m1 a1], d2 as [y2 m2 a2]. simpl in *. subst y2.
  unfold toordinal in Heq. simpl in Heq.
  assert (m1 = m2) as ->.
  { destruct (Z.lt_trichotomy m1 m2) as [Hlt|[?|Hlt]]; [|done|].
    - pose proof (days_before_month_next y1 m1 m2 a1). lia.
    - pose proof (days_before_month_next y1 m2 m1 a2). lia. }
  f_equal. lia.
Qed.

(** [date.fromordinal(d.toordinal())] is [d]. *)
Lemma toordinal_ord2ymd d :
  valid_date d = true -> _ord2ymd (toordinal d) = d.
Proof.
  intros Hd.
  pose proof (toordinal_year_bounds d Hd) as B.
  pose proof (valid_date_inv d Hd) as (Hy & _).
  pose proof (days_before_year_mono 1 (year d) Hy) as H1. change (_days_before_year 1) with 0 in H1.
  destruct (ord2ymd_toordinal (toordinal d)) as [Hv Ho]; [lia|].
  by apply toordinal_inj.
Qed.

Lemma ord2ymd_year n :
  1 <= n <= _MAXORDINAL -> year (_ord2ymd n) <= 9999.
Proof.
  intros Hn. destruct (ord2ymd_toordinal n) as [Hv Ho]; [lia|].
  pose proof (toordinal_year_bounds _ Hv) as B.
  destruct (Z.le_gt_cases (year (_ord2ymd n)) 9999) as [|Hgt]; [done|].
  pose proof (days_before_year_mono 10000 (year (_ord2ymd n))) as Hm.
  change (_days_before_year 10000) with 3652059 in Hm.
  unfold _MAXORDINAL in Hn. lia.
Qed.

(** Adding days gives the date that many days on, as long as its ordinal
    stays in range. *)
Lemma add_days_ok d k :
  valid_date d = true -> 1 <= toordinal d + k <= _MAXORDINAL ->
  exists r, add_days d k = Ok r /\ valid_date r = true /\ year r <= 9999
            /\ toordinal r = toordinal d + k.
Proof.
  intros Hd Hk. unfold add_days.
  destruct (Z.ltb_spec 0 (toordinal d + k)); [|lia].
  destruct (Z.leb_spec (toordinal d + k) _MAXORDINAL); [|lia]. simpl.
  destruct (ord2ymd_toordinal (toordinal d + k)) as [Hv Ho]; [lia|].
  eexists. split_and!; [done|done| |done]. by apply ord2ymd_year.
Qed.

Lemma leap_years_are_apart y : _is_leap y = true -> _is_leap (y - 1) = false.
Proof.
  unfold _is_leap. rewrite andb_true_iff. intros [H4%Z.eqb_eq _].
  destruct (Z.eqb_spec ((y - 1) mod 4) 0) as [H4'|]; [|done].
  exfalso. Z.div_mod_to_equations. lia.
Qed.

Lemma make_date_ok y m d :
  valid_date (Date y m d) = true -> y <= 9999 -> make_date y m d = Some (Date y m d).
Proof.
  intros (Hy & Hm & Hd)%valid_date_inv Hy'. simpl in *. unfold make_date.
  destruct (Z.leb_spec 1 y), (Z.leb_spec y 9999), (Z.leb_spec 1 m), (Z.leb_spec m 12),
    (Z.leb_spec 1 d), (Z.leb_spec d (_days_in_month y m)); simpl; try lia. done.
Qed.

Lemma toordinal_below_max d :
  valid_date d = true -> year d <= 9998 -> toordinal d + 365 <= _MAXORDINAL.
Proof.
  intros Hd Hy. pose proof (toordinal_year_bounds d Hd) as B.
  pose proof (days_before_year_mono (year d + 1) 9999) as Hm.
  change (_days_before_year 9999) with 3651694 in Hm. unfold _MAXORDINAL. lia.
Qed.

Lemma toordinal_positive d : valid_date d = true -> 1 <= toordinal d.
Proof.
  intros Hd. pose proof (toordinal_year_bounds d Hd) as B.
  pose proof (valid_date_inv d Hd) as (Hy & _).
  pose proof (days_before_year_mono 1 (year d) Hy) as H1.
  change (_days_before_year 1) with 0 in H1. lia.
Qed.

Lemma year_before_valid d :
  valid_date d = true -> 2 <= year d -> is_leap_day d = false ->
  valid_date (year_before d) = true
  /\ 365 <= toordinal d - toordinal (year_before d) <= 366.
Proof.
  intros (Hy & Hm & Hd)%valid_date_inv Hy2 Hl.
  destruct d as [y m d]. unfold is_leap_day, year_before, valid_date, toordinal in *.
  cbn [year month day] in *.
  pose proof (days_before_year_succ (y - 1)) as Hs.
  replace (y - 1 + 1) with y in Hs by lia.
  pose proof (leap_years_are_apart y) as Hap.
  unfold _days_in_month, _days_before_month in *.
  destruct (_is_leap y), (_is_leap (y - 1)); try (by discriminate Hap);
  destruct (month_cases m Hm) as [->|[->|[->|[->|[->|[->|[->|[->|[->|[->|[->| ->]]]]]]]]]]];
    simpl in *; rewrite ?andb_true_iff; split; split_and?; try lia.
  all: destruct (Z.eqb_spec d 29); try done; lia.
Qed.

(** The period of an annual report. For a [10-K] whose period ends on a
    date of the calendar from year 2 on, [parse_sec_filing] finds a period
    start, itself a date of the calendar, 364 or 365 days before the end;
    unless the end is a February 29th, the start is the day after the same
    day of the year before. *)
Theorem annual_period_is_a_year_long (pe : date) :
  valid_date pe = true -> 2 <= year pe <= 9999 ->
  exists ps,
    Main.period_start_of "10-K" pe = Ok ps
    /\ valid_date ps = true
    /\ 364 <= days_between pe ps <= 365
    /\ (is_leap_day pe = false -> days_between ps (year_before pe) = 1).
Proof.
  intros Hv Hy. unfold Main.period_start_of. cbn [String.eqb Ascii.eqb Bool.eqb].
  destruct (is_leap_day pe) eqn:Hl.
  - destruct pe as [y m d]. unfold is_leap_day in Hl. cbn [year month day] in *.
    apply andb_true_iff in Hl as [->%Z.eqb_eq ->%Z.eqb_eq].
    pose proof (valid_date_inv _ Hv) as (_ & _ & Hd). simpl in Hd.
    assert (_is_leap y = true) as Hleap.
    { unfold _days_in_month in Hd. destruct (_is_leap y); [done|]. simpl in Hd. lia. }
    pose proof (leap_years_are_apart y Hleap) as Hprev.
    assert (make_date (y - 1) 2 29 = None) as ->.
    { unfold make_date, _days_in_month. rewrite Hprev. simpl.
      by rewrite !andb_false_r. }
    assert (valid_date (Date (y - 1) 2 1) = true) as Hv1.
    { unfold valid_date, _days_in_month. cbn [year month day]. rewrite Hprev. simpl.
      rewrite !andb_true_iff. lia. }
    rewrite (make_date_ok _ _ _ Hv1) by lia.
    pose proof (toordinal_below_max _ Hv1) as Hmax. simpl in Hmax.
    pose proof (toordinal_positive _ Hv1) as Hpos.
    destruct (add_days_ok (Date (y - 1) 2 1) 29 Hv1) as (ps & -> & Hps & _ & Ho); [lia|].
    exists ps. split; [done|]. split; [done|].
    split; [|intros Hx; by vm_compute in Hx].
    unfold days_between. rewrite Ho. unfold toordinal. cbn [year month day].
    pose proof (days_before_year_succ (y - 1)) as Hs.
    replace (y - 1 + 1) with y in Hs by lia. rewrite Hprev in Hs.
    unfold _days_before_month. rewrite Hprev, Hleap. simpl. lia.
  - destruct (year_before_valid pe Hv) as [Hvb Hlen]; [lia|done|].
    unfold year_before in *.
    rewrite (make_date_ok _ _ _ Hvb) by (simpl; lia).
    pose proof (toordinal_below_max _ Hvb) as Hmax. simpl in Hmax.
    pose proof (toordinal_positive _ Hvb) as Hpos.
    destruct (add_days_ok _ 1 Hvb) as (ps & -> & Hps & _ & Ho); [lia|].
    exists ps. unfold days_between. split_and!; [done|done|lia|lia|lia].
Qed.

Lemma annual_period_is_a_year_long_witness :
  exists ps,
    Main.period_start_of "10-K" (Date 2024 9 28) = Ok ps
    /\ valid_date ps = true
    /\ 364 <= days_between (Date 2024 9 28) ps <= 365
    /\ (is_leap_day (Date 2024 9 28) = false
        -> days_between ps (year_before (Date 2024 9 28)) = 1).
Proof.
  apply (annual_period_is_a_year_long (Date 2024 9 28)); [reflexivity|simpl; lia].
Defined.

(** The leap-day fallback. For a period ending on February 29th,
    [parse_sec_filing] starts the period on March 2nd of the year before:
    the fallback adds the day number, 29, to February 1st of a year whose
    February has 28 days. [fetch_sec_data] of [verify_data.py], which
    computes the start without the fallback, raises [ValueError] there. *)
Theorem leap_day_period_starts_on_march_2 (y : Z) :
  _is_leap y = true -> 2 <= y <= 9999 ->
  Main.period_start_of "10-K" (Date y 2 29) = Ok (Date (y - 1) 3 2)
  /\ VerifyData.period_start (Date y 2 29) = Raise ValueError.
Proof.
  intros Hleap Hy.
  pose proof (leap_years_are_apart y Hleap) as Hprev.
  assert (make_date (y - 1) 2 29 = None) as Hnone.
  { unfold make_date, _days_in_month. rewrite Hprev. simpl.
    by rewrite !andb_false_r. }
  assert (valid_date (Date (y - 1) 2 1) = true) as Hv1.
  { unfold valid_date, _days_in_month. cbn [year month day]. rewrite Hprev. simpl.
    rewrite !andb_true_iff. lia. }
  assert (valid_date (Date (y - 1) 3 2) = true) as Hv2.
  { unfold valid_date, _days_in_month. cbn [year month day]. simpl.
    rewrite !andb_true_iff. lia. }
  unfold Main.period_start_of, VerifyData.period_start.
  cbn [String.eqb Ascii.eqb Bool.eqb year month day]. rewrite Hnone.
  split; [|done].
  rewrite (make_date_ok _ _ _ Hv1) by lia.
  pose proof (toordinal_below_max _ Hv1) as Hmax. simpl in Hmax.
  pose proof (toordinal_positive _ Hv1) as Hpos.
  destruct (add_days_ok (Date (y - 1) 2 1) 29 Hv1) as (ps & -> & Hps & _ & Ho); [lia|].
  f_equal. apply toordinal_inj; [done|done|].
  rewrite Ho. unfold toordinal, _days_before_month. cbn [year month day].
  rewrite Hprev. simpl. lia.
Qed.

Lemma leap_day_period_starts_on_march_2_witness :
  Main.period_start_of "10-K" (Date 2024 2 29) = Ok (Date 2023 3 2)
  /\ VerifyData.period_start (Date 2024 2 29) = Raise ValueError.
Proof.
  apply (leap_day_period_starts_on_march_2 2024); [reflexivity|lia].
Defined.

(** The period of any other form. For a form type other than [10-K],
    the period start is the date 90 days before the period end. *)
Theorem other_forms_look_ninety_days_back (form_type : string) (pe : date) :
  form_type <> "10-K" -> valid_date pe = true -> 2 <= year pe <= 9999 ->
  exists ps,
    Main.period_start_of form_type pe = Ok ps
    /\ valid_date ps = true
    /\ days_between pe ps = 90.
Proof.
  intros Hf Hv Hy. unfold Main.period_start_of.
  destruct (String.eqb_spec form_type "10-K") as [|_]; [done|].
  pose proof (toordinal_year_bounds pe Hv) as B.
  pose proof (days_before_year_mono (year pe + 1) 10000) as Hhi.
  change (_days_before_year 10000) with 3652059 in Hhi.
  pose proof (days_before_year_mono 2 (year pe)) as Hlo.
  change (_days_before_year 2) with 365 in Hlo.
  destruct (add_days_ok pe (-90) Hv) as (ps & -> & Hps & _ & Ho);
    [unfold _MAXORDINAL; lia|].
  exists ps. unfold days_between. split_and!; [done|done|lia].
Qed.

Lemma other_forms_look_ninety_days_back_witness :
  exists ps,
    Main.period_start_of "10-Q" (Date 2024 3 30) = Ok ps
    /\ valid_date ps = true
    /\ days_between (Date 2024 3 30) ps = 90.
Proof.
  apply (other_forms_look_ninety_days_back "10-Q" (Date 2024 3 30));
    [discriminate|reflexivity|simpl; lia].
Defined.

(** ** Filing metadata *)

(** The date block of [extract_metadata], through [_parse_date]. *)
Lemma read_date_parse v today :
  Metadata.read_date v today
  = if readable v then Ok (default today (_parse_date v)) else Raise ValueError.
Proof.
  unfold Metadata.read_date, readable, _parse_date.
  destruct v as [|b|z|f|s]; simpl; try done.
  - by destruct b.
  - by destruct (negb (z =? 0)).
  - by destruct (negb (PrimFloat.eqb f 0)).
  - destruct (negb (String.eqb s "")); simpl; [|done].
    by destruct (strptime_ymd _).
Qed.

(** The dates of the metadata. [extract_metadata] returns metadata when
    the report date and the filing date are both readable: each date is
    then the one [_parse_date] reads off the field, or today's date for a
    field that is empty or no string, and the fiscal year is the year of
    the period end. Otherwise, that is when one of the two is a non-empty
    string that is no date, which [_parse_date] answers with [None],
    [extract_metadata] raises [ValueError]. *)
Theorem metadata_dates_follow_the_filing
    (filing_info : FilingInfo.t) (entity_name : PyVal) (today today' : date) :
  if readable (FilingInfo.report_date filing_info)
     && readable (FilingInfo.filing_date filing_info)
  then
    exists meta,
      Metadata.extract_metadata filing_info entity_name today today' = Ok meta
      /\ FilingMetadata.period_end meta
         = default today (_parse_date (FilingInfo.report_date filing_info))
      /\ FilingMetadata.filing_date meta
         = default today' (_parse_date (FilingInfo.filing_date filing_info))
      /\ FilingMetadata.fiscal_year meta = year (FilingMetadata.period_end meta)
  else
    Metadata.extract_metadata filing_info entity_name today today' = Raise ValueError.
Proof.
  unfold Metadata.extract_metadata. rewrite !read_date_parse.
  destruct (readable (FilingInfo.report_date filing_info)); simpl; [|done].
  destruct (readable (FilingInfo.filing_date filing_info)); simpl; [|done].
  eexists. split; [done|]. by simpl.
Qed.

Lemma string_length_app (s t : string) :
  String.length (s +:+ t) = (String.length s + String.length t)%nat.
Proof. induction s as [|c s IH]; simpl; [done|]. by rewrite IH. Qed.

Lemma string_length_of_list (l : list ascii) :
  String.length (string_of_list_ascii l) = length l.
Proof. induction l as [|c l IH]; simpl; [done|]. by rewrite IH. Qed.

Lemma zfill_pads_once (width : nat) (s : string) :
  String.length (zfill width s) = (width `max` String.length s)%nat
  /\ zfill width (zfill width s) = zfill width s.
Proof.
  assert (String.length (zfill width s) = (width `max` String.length s)%nat) as Hlen.
  { unfold zfill. destruct (Nat.leb_spec width (String.length s)); [lia|].
    destruct s as [|c rest]; simpl in *.
    - rewrite string_length_of_list, length_replicate. lia.
    - destruct (Ascii.eqb c "+" || Ascii.eqb c "-"); simpl;
        rewrite string_length_app, string_length_of_list, length_replicate; simpl; lia. }
  split; [done|].
  unfold zfill at 1.
  destruct (Nat.leb_spec width (String.length (zfill width s))); [done|lia].
Qed.

(** The CIK of the metadata is the filing's CIK padded to ten characters:
    it has ten characters, or as many as the filing's CIK when that is
    longer, and a CIK that was padded before, as the one
    [get_cik_for_ticker] returns, passes unchanged. *)
Theorem metadata_cik_is_padded_once
    (filing_info : FilingInfo.t) (entity_name : PyVal) (today today' : date)
    (meta : FilingMetadata.t) :
  Metadata.extract_metadata filing_info entity_name today today' = Ok meta ->
  String.length (FilingMetadata.cik meta)
  = (10 `max` String.length (FilingInfo.cik filing_info))%nat
  /\ (forall c, FilingInfo.cik filing_info = zfill 10 c ->
        FilingMetadata.cik meta = FilingInfo.cik filing_info).
Proof.
  unfold Metadata.extract_metadata. rewrite !read_date_parse.
  destruct (readable (FilingInfo.report_date filing_info)); simpl; [|done].
  destruct (readable (FilingInfo.filing_date filing_info)); simpl; [|done].
  intros [= <-]. simpl. split; [apply zfill_pads_once|].
  intros c ->. apply zfill_pads_once.
Qed.

Lemma metadata_cik_is_padded_once_witness :
  exists meta,
    Metadata.extract_metadata (filing_of "2023-09-30") (PStr "Apple Inc.")
      (Date 2025 1 15) (Date 2025 1 15) = Ok meta
    /\ String.length (FilingMetadata.cik meta) = 10%nat
    /\ FilingMetadata.cik meta = "0000320193".
Proof.
  destruct (Metadata.extract_metadata (filing_of "2023-09-30") (PStr "Apple Inc.")
              (Date 2025 1 15) (Date 2025 1 15)) as [meta|e] eqn:Hmeta;
    [|vm_compute in Hmeta; discriminate Hmeta].
  exists meta. split; [done|].
  split; [exact (proj1 (metadata_cik_is_padded_once _ _ _ _ _ Hmeta))|].
  vm_compute in Hmeta. inversion Hmeta. reflexivity.
Defined.

Section Selection.
Local Arguments int_of_str : simpl never.

Lemma find_filing_some_inv filings y f :
  Main.find_filing filings y = Ok (Some f) ->
  exists before after,
    filings = before ++ f :: after
    /\ truthy (FilingInfo.report_date f) = true
    /\ Main.filing_year (FilingInfo.report_date f) = Ok y
    /\ Forall (other_year y) before.
Proof.
  induction filings as [|g rest IH]; simpl; [done|].
  destruct (truthy (FilingInfo.report_date g)) eqn:Ht.
  - destruct (Main.filing_year (FilingInfo.report_date g)) as [y'|e] eqn:Hy; simpl; [|done].
    destruct (Z.eqb_spec y' y) as [->|Hne].
    + intros [= ->]. exists [], rest. by split_and!.
    + intros (before & after & -> & H1 & H2 & H3)%IH.
      exists (g :: before), after. split_and!; try done.
      constructor; [|done]. right. by exists y'.
  - intros (before & after & -> & H1 & H2 & H3)%IH.
    exists (g :: before), after. split_and!; try done.
    constructor; [|done]. by left.
Qed.

Lemma find_filing_app before f after y :
  Forall (other_year y) before ->
  truthy (FilingInfo.report_date f) = true ->
  Main.filing_year (FilingInfo.report_date f) = Ok y ->
  Main.find_filing (before ++ f :: after) y = Ok (Some f).
Proof.
  intros Hb Ht Hy. induction Hb as [|g before Hg _ IH]; simpl.
  - rewrite Ht, Hy. unfold bind. by rewrite Z.eqb_refl.
  - destruct Hg as [->|(y' & -> & Hne)]; [done|].
    destruct (truthy (FilingInfo.report_date g)); [|done]. unfold bind.
    destruct (Z.eqb_spec y' y); [lia|exact IH].
Qed.
End Selection.

Lemma select_filing_some_inv filings y f :
  y <> 0 ->
  Main.select_filing filings (Some y) = Ok f ->
  exists before after,
    filings = before ++ f :: after
    /\ truthy (FilingInfo.report_date f) = true
    /\ Main.filing_year (FilingInfo.report_date f) = Ok y
    /\ Forall (other_year y) before.
Proof.
  intros Hy. unfold Main.select_filing.
  destruct filings as [|first rest]; [done|].
  destruct (Z.eqb_spec y 0); [done|]. cbn [negb].
  destruct (Main.find_filing (first :: rest) y) as [[g|]|e] eqn:Hfind; simpl; try done.
  intros [= ->]. by apply find_filing_some_inv.
Qed.

(** The filing of a year. Asked for a year, [parse_sec_filing] goes on
    with a filing exactly when the list splits around it so that the first
    four characters of its report date read as that year and every filing
    before it has an empty report date or one of another year: it is the
    first filing of the year, in the order of the list. *)
Theorem selected_filing_is_the_first_of_the_year
    (filings : list FilingInfo.t) (y : Z) (f : FilingInfo.t) :
  y <> 0 ->
  Main.select_filing filings (Some y) = Ok f
  <-> exists before after,
        filings = before ++ f :: after
        /\ truthy (FilingInfo.report_date f) = true
        /\ Main.filing_year (FilingInfo.report_date f) = Ok y
        /\ Forall (other_year y) before.
Proof.
  intros Hy. split; [by apply select_filing_some_inv|].
  intros (before & after & -> & Ht & Hfy & Hb). unfold Main.select_filing.
  rewrite (find_filing_app before f after y Hb Ht Hfy).
  destruct (Z.eqb_spec y 0); [done|].
  by destruct before.
Qed.

Lemma selected_filing_is_the_first_of_the_year_witness :
  Main.select_filing [filing_of "2024-09-28"; filing_of ""; filing_of "2023-09-30"]
                     (Some 2023)
  = Ok (filing_of "2023-09-30")
  <-> exists before after,
        [filing_of "2024-09-28"; filing_of ""; filing_of "2023-09-30"]
        = before ++ filing_of "2023-09-30" :: after
        /\ truthy (FilingInfo.report_date (filing_of "2023-09-30")) = true
        /\ Main.filing_year (FilingInfo.report_date (filing_of "2023-09-30")) = Ok 2023
        /\ Forall (other_year 2023) before.
Proof.
  apply (selected_filing_is_the_first_of_the_year
           [filing_of "2024-09-28"; filing_of ""; filing_of "2023-09-30"] 2023
           (filing_of "2023-09-30")).
  lia.
Defined.

Lemma digit_is_plain c :
  is_digit c = true ->
  is_space c = false /\ Ascii.eqb c "_" = false
  /\ Ascii.eqb c "-" = false /\ Ascii.eqb c "+" = false.
Proof.
  destruct c as [[] [] [] [] [] [] [] []]; intros H; vm_compute in H; try done;
    by vm_compute.
Qed.

Lemma drop_underscores_digit prev c l :
  is_digit c = true ->
  drop_underscores prev (c :: l) = option_map (cons c) (drop_underscores (Some c) l).
Proof.
  intros Hc. pose proof (digit_is_plain c Hc) as (_ & Hu & _).
  cbn [drop_underscores]. rewrite Hu, Hc.
  destruct prev as [p|]; [|done].
  by destruct p as [[] [] [] [] [] [] [] []].
Qed.

Lemma drop_underscores_end c : is_digit c = true -> drop_underscores (Some c) [] = Some [].
Proof. destruct c as [[] [] [] [] [] [] [] []]; intros H; vm_compute in H; by try done. Qed.

Lemma sign_of_digit {A} c (r : list ascii) (k : bool -> list ascii -> A) :
  is_digit c = true ->
  (let '(neg, body) :=
     match c :: r with
     | "-"%char :: r' => (true, r')
     | "+"%char :: r' => (false, r')
     | _ => (false, c :: r)
     end in k neg body) = k false (c :: r).
Proof. destruct c as [[] [] [] [] [] [] [] []]; intros H; vm_compute in H; by try done. Qed.

(** [int] of four digits is the number they write. *)
Lemma int_of_str_four a b c d :
  is_digit a = true -> is_digit b = true -> is_digit c = true -> is_digit d = true ->
  int_of_str [a; b; c; d] = Some (100 * two_digits a b + two_digits c d).
Proof.
  intros Ha Hb Hc Hd.
  pose proof (digit_is_plain a Ha) as (Hsa & _).
  pose proof (digit_is_plain d Hd) as (Hsd & _).
  unfold int_of_str, strip. cbn [lstrip rev app]. rewrite Hsa. cbn [lstrip rev app].
  rewrite Hsd. cbn [rev app].
  rewrite (sign_of_digit a [b; c; d]) by done.
  rewrite !drop_underscores_digit, drop_underscores_end by done. cbn [option_map forallb].
  rewrite Ha, Hb, Hc, Hd. cbn [andb]. f_equal.
  unfold digits_val, two_digits. simpl. lia.
Qed.

(** The year of a parsed date is what [int] reads off the first four
    characters. *)
Lemma strptime_ymd_year l d :
  strptime_ymd l = Some d -> int_of_str (take 4 l) = Some (year d).
Proof.
  unfold strptime_ymd.
  destruct l as [|y1 [|y2 [|y3 [|y4 [|c r]]]]]; try done.
  destruct (Ascii.eqb c "-" && is_digit y1 && is_digit y2 && is_digit y3 && is_digit y4)
    eqn:Hd; [|done].
  rewrite !andb_true_iff in Hd. destruct Hd as [[[[_ H1] H2] H3] H4].
  destruct (parse_month r) as [[m r']|]; [|done].
  destruct (parse_day r') as [dd|]; [|done].
  intros [-> _]%make_date_valid. cbn [take year].
  by apply int_of_str_four.
Qed.

(** The year asked for is the fiscal year. When [parse_sec_filing] is
    asked for a year and [extract_metadata] returns metadata for the filing
    it selected, the period end lies in that year and the fiscal year is
    that year: the selection reads the year off the first four characters
    of the report date, the metadata off its first ten. *)
Theorem selected_filing_has_the_fiscal_year
    (filings : list FilingInfo.t) (y : Z) (f : FilingInfo.t)
    (entity_name : PyVal) (today today' : date) (meta : FilingMetadata.t) :
  y <> 0 ->
  Main.select_filing filings (Some y) = Ok f ->
  Metadata.extract_metadata f entity_name today today' = Ok meta ->
  FilingMetadata.fiscal_year meta = y
  /\ year (FilingMetadata.period_end meta) = y.
Proof.
  intros Hy (before & after & _ & Ht & Hfy & _)%select_filing_some_inv; [|done].
  unfold Metadata.extract_metadata, Metadata.read_date at 1.
  unfold Main.filing_year in Hfy.
  destruct (FilingInfo.report_date f) as [| | | |s]; try done.
  simpl in Ht. rewrite Ht.
  destruct (strptime_ymd (take 10 (list_ascii_of_string s))) as [pe|] eqn:Hpe; [|done].
  apply strptime_ymd_year in Hpe. rewrite take_take in Hpe. cbn [Nat.min] in Hpe.
  rewrite Hpe in Hfy. injection Hfy as <-. cbn [bind].
  destruct (Metadata.read_date _ today'); [|done]. cbn [bind].
  by intros [= <-].
Qed.


Lemma selected_filing_has_the_fiscal_year_witness :
  exists meta,
    Metadata.extract_metadata (filing_of "2023-09-30") (PStr "Apple Inc.")
      (Date 2025 1 15) (Date 2025 1 15) = Ok meta
    /\ FilingMetadata.fiscal_year meta = 2023
    /\ year (FilingMetadata.period_end meta) = 2023.
Proof.
  destruct (Metadata.extract_metadata (filing_of "2023-09-30") (PStr "Apple Inc.")
              (Date 2025 1 15) (Date 2025 1 15)) as [meta|e] eqn:Hmeta;
    [|vm_compute in Hmeta; discriminate Hmeta].
  exists meta. split; [done|].
  apply (selected_filing_has_the_fiscal_year
           [filing_of "2024-09-28"; filing_of "2023-09-30"] 2023
           (filing_of "2023-09-30") (PStr "Apple Inc.") (Date 2025 1 15) (Date 2025 1 15));
    [lia|vm_compute; reflexivity|exact Hmeta].
Defined.

(** ** The filing list *)

Section GetFilings.
Variable company_info : CompanyInfo.
Variables cik form_type : string.
Variable count : Z.
Hypothesis Haligned : aligned company_info.

Lemma filing_at_row i :
  (i < length (forms company_info))%nat ->
  filing_at company_info cik form_type i
  = Returns (filing_row company_info cik form_type i).
Proof.
  destruct Haligned as (H1 & H2 & H3 & H4 & H5). intros Hi.
  unfold filing_at, filing_row.
  destruct (lookup_lt_is_Some_2 (accession_numbers company_info) i) as [a ->]; [lia|].
  destruct (lookup_lt_is_Some_2 (filing_dates company_info) i) as [b ->]; [lia|].
  destruct (lookup_lt_is_Some_2 (report_dates company_info) i) as [c ->]; [lia|].
  destruct (lookup_lt_is_Some_2 (primary_docs company_info) i) as [d ->]; [lia|].
  destruct (ci_tickers company_info) as [[|t ts]|]; done.
Qed.

Lemma filings_of_form_cons from form rest :
  filings_of_form company_info cik form_type from (form :: rest)
  = (if negb (ne_str form form_type)
     then [filing_row company_info cik form_type from] else [])
    ++ filings_of_form company_info cik form_type (S from) rest.
Proof.
  unfold filings_of_form. cbn [imap omap]. rewrite Nat.add_0_r.
  assert (imap ((fun j form0 =>
                   if negb (ne_str form0 form_type)
                   then Some (filing_row company_info cik form_type (from + j))
                   else None) ∘ S) rest
          = imap (fun j form0 =>
                   if negb (ne_str form0 form_type)
                   then Some (filing_row company_info cik form_type (S from + j))
                   else None) rest) as ->.
  { apply imap_ext. intros j x _. simpl. by rewrite Nat.add_succ_r. }
  by destruct (negb (ne_str form form_type)).
Qed.

(** The loop of [get_filings], from any position: with fewer filings
    collected than asked for, it returns the first ones of what was
    collected followed by what is still to come. *)
Lemma scan_forms_take i rest filings :
  (i + length rest = length (forms company_info))%nat ->
  (Z.of_nat (length filings) < Z.max 1 count) ->
  scan_forms company_info cik form_type count i rest filings
  = Returns (take (Z.to_nat (Z.max 1 count))
               (filings ++ filings_of_form company_info cik form_type i rest)).
Proof.
  revert i filings. induction rest as [|form rest IH]; intros i filings Hi Hlen.
  - simpl. unfold filings_of_form. simpl. rewrite app_nil_r.
    by rewrite take_ge by lia.
  - cbn [scan_forms]. rewrite filings_of_form_cons. simpl in Hi.
    destruct (negb (ne_str form form_type)).
    + rewrite filing_at_row by lia. rewrite app_assoc.
      set (filings' := filings ++ [filing_row company_info cik form_type i]).
      assert (length filings' = S (length filings)) as Hl
        by (unfold filings'; rewrite length_app; simpl; lia).
      destruct (Z.geb_spec (Z.of_nat (length filings')) count) as [Hge|Hlt].
      * rewrite take_app_le by lia. by rewrite take_ge by lia.
      * by rewrite IH by lia.
    + by rewrite IH by lia.
Qed.
End GetFilings.

(** The filings [get_filings] returns. On a payload whose parallel arrays
    reach as far as the form array, [get_filings] returns the entries filed
    under the requested form, in the payload's order, cut after the first
    [count] of them; a [count] below one returns one filing, the length
    being tested only after a filing was added. *)
Theorem get_filings_takes_the_first_of_the_form
    (company_info : CompanyInfo) (cik form_type : string) (count : Z) :
  aligned company_info ->
  get_filings company_info cik form_type count
  = Returns (take (Z.to_nat (Z.max 1 count))
               (filings_of_form company_info cik form_type 0
                  (forms company_info))).
Proof.
  intros Ha. unfold get_filings.
  by rewrite (scan_forms_take company_info cik form_type count Ha) by (simpl; lia).
Qed.


Lemma get_filings_takes_the_first_of_the_form_witness :
  get_filings submissions "0000320193" "10-K" 2
  = Returns (take 2 (filings_of_form submissions "0000320193" "10-K" 0
                       (forms submissions))).
Proof.
  apply (get_filings_takes_the_first_of_the_form submissions "0000320193" "10-K" 2).
  unfold aligned. simpl. split_and!; (lia || done).
Defined.

(** ** The sheets *)

(** The rows of [_write_line_items], by induction on the line order. *)
Lemma write_line_items_rows stmt line_order row :
  let '(ws, next) := _write_line_items stmt line_order row in
  next = row + spacers line_order + Z.of_nat (length ws)
  /\ StronglySorted Z.lt (w_row <$> ws)
  /\ Forall (fun w => row <= w_row w < next) ws.
Proof.
  revert row. induction line_order as [|[[key|] sub] rest IH]; intros row; simpl.
  - unfold spacers. simpl. split_and!; [lia|constructor|constructor].
  - destruct (FinancialStatement.line_items stmt !! key) as [item|].
    + specialize (IH (row + 1)).
      destruct (_write_line_items stmt rest (row + 1)) as [ws next].
      destruct IH as (Hn & Hs & Hr). unfold spacers in *.
      rewrite filter_cons_False by done. simpl.
      split_and!; [lia| |].
      * constructor; [done|]. apply Forall_fmap. eapply Forall_impl; [exact Hr|].
        simpl. intros w ?. lia.
      * constructor; [simpl; lia|]. eapply Forall_impl; [exact Hr|].
        simpl. intros w ?. lia.
    + specialize (IH row). destruct (_write_line_items stmt rest row) as [ws next].
      unfold spacers in *. by rewrite filter_cons_False by done.
  - specialize (IH (row + 1)).
    destruct (_write_line_items stmt rest (row + 1)) as [ws next].
    destruct IH as (Hn & Hs & Hr). unfold spacers in *.
    rewrite filter_cons_True by done. simpl length.
    split_and!; [lia|done|].
    eapply Forall_impl; [exact Hr|]. simpl. intros w ?. lia.
Qed.

(** The rows of [_write_line_items]. The row it returns is the start row
    plus one for each spacer and one for each line written, a key the
    statement does not hold taking no row; the lines are written on
    strictly increasing rows, from the start row on and before the row
    returned. *)
Theorem line_rows_are_counted (stmt : FinancialStatement.t)
    (line_order : list (option string * bool)) (row : Z) :
  (_write_line_items stmt line_order row).2
  = row + spacers line_order
    + Z.of_nat (length (_write_line_items stmt line_order row).1)
  /\ StronglySorted Z.lt (w_row <$> (_write_line_items stmt line_order row).1)
  /\ Forall (fun w => row <= w_row w < (_write_line_items stmt line_order row).2)
       (_write_line_items stmt line_order row).1.
Proof.
  pose proof (write_line_items_rows stmt line_order row) as H.
  by destruct (_write_line_items stmt line_order row).
Qed.

Lemma page_nil lo : page lo lo [].
Proof. unfold page. split_and!; [lia|constructor|constructor]. Qed.

Lemma page_caption row texts : page row (row + 1) [Captions row texts].
Proof.
  unfold page. split_and!; [lia|repeat constructor|].
  constructor; [simpl; lia|constructor].
Qed.

Lemma page_app lo mid hi rows rows' :
  page lo mid rows -> page mid hi rows' -> page lo hi (rows ++ rows').
Proof.
  intros (H1 & S1 & F1) (H2 & S2 & F2). unfold page. split_and!; [lia| |].
  - rewrite fmap_app. apply StronglySorted_app_2; [|done|done].
    intros x y (r & -> & Hr)%list_elem_of_fmap (r' & -> & Hr')%list_elem_of_fmap.
    rewrite Forall_forall in F1, F2.
    specialize (F1 r Hr). specialize (F2 r' Hr'). lia.
  - apply Forall_app. split; (eapply Forall_impl; [eassumption|]); simpl; intros; lia.
Qed.

Lemma page_skip lo mid hi rows : lo <= mid -> page mid hi rows -> page lo hi rows.
Proof.
  intros H (H1 & S1 & F1). unfold page. split_and!; [lia|done|].
  eapply Forall_impl; [exact F1|]. simpl. intros. lia.
Qed.

Lemma page_lines stmt line_order row ws next :
  _write_line_items stmt line_order row = (ws, next) ->
  page row next (Line <$> ws).
Proof.
  intros Heq. pose proof (write_line_items_rows stmt line_order row) as H.
  rewrite Heq in H. destruct H as (Hn & Hs & Hr).
  unfold page. split_and!.
  - unfold spacers in Hn. lia.
  - rewrite <- list_fmap_compose. exact Hs.
  - by apply Forall_fmap.
Qed.

(** No row is written twice. On each of the three statement sheets the
    rows written below the title block, the column headers, the section
    captions and the statement lines, have strictly increasing numbers,
    from the row [_write_header] returns on. *)
Theorem sheet_rows_go_down_the_page (stmt : FinancialStatement.t) :
  (exists last, page _write_header last (_write_income_statement stmt))
  /\ (exists last, page _write_header last (_write_balance_sheet stmt))
  /\ (exists last, page _write_header last (_write_cash_flow stmt)).
Proof.
  set (h := _write_header). split_and!.
  - unfold _write_income_statement. cbv zeta. fold h.
    destruct (_write_line_items stmt income_line_order (h + 1)) as [ws n1] eqn:H1.
    exists n1.
    apply (page_app h (h + 1)); [apply page_caption|]. by eapply page_lines.
  - unfold _write_balance_sheet. cbv zeta. fold h.
    destruct (_write_line_items stmt assets_order (h + 1 + 1)) as [w1 n1] eqn:H1.
    destruct (_write_line_items stmt liabilities_order (n1 + 1 + 1)) as [w2 n2] eqn:H2.
    destruct (_write_line_items stmt equity_order (n2 + 1 + 1)) as [w3 n3] eqn:H3.
    exists n3.
    apply (page_app h (h + 1)); [apply page_caption|].
    apply (page_app (h + 1) (h + 1 + 1)); [apply page_caption|].
    apply (page_app (h + 1 + 1) n1); [by eapply page_lines|].
    apply (page_app n1 (n1 + 1 + 1));
      [apply (page_skip _ (n1 + 1)); [lia|apply page_caption]|].
    apply (page_app (n1 + 1 + 1) n2); [by eapply page_lines|].
    apply (page_app n2 (n2 + 1 + 1));
      [apply (page_skip _ (n2 + 1)); [lia|apply page_caption]|].
    by eapply page_lines.
  - unfold _write_cash_flow. cbv zeta. fold h.
    destruct (_write_line_items stmt operating_order (h + 1 + 1)) as [w1 n1] eqn:H1.
    destruct (_write_line_items stmt investing_order (n1 + 1 + 1)) as [w2 n2] eqn:H2.
    destruct (_write_line_items stmt financing_order (n2 + 1 + 1)) as [w3 n3] eqn:H3.
    destruct (_write_line_items stmt net_change_order (n3 + 1)) as [w4 n4] eqn:H4.
    exists n4.
    apply (page_app h (h + 1)); [apply page_caption|].
    apply (page_app (h + 1) (h + 1 + 1)); [apply page_caption|].
    apply (page_app (h + 1 + 1) n1); [by eapply page_lines|].
    apply (page_app n1 (n1 + 1 + 1));
      [apply (page_skip _ (n1 + 1)); [lia|apply page_caption]|].
    apply (page_app (n1 + 1 + 1) n2); [by eapply page_lines|].
    apply (page_app n2 (n2 + 1 + 1));
      [apply (page_skip _ (n2 + 1)); [lia|apply page_caption]|].
    apply (page_app (n2 + 1 + 1) n3); [by eapply page_lines|].
    apply (page_skip _ (n3 + 1)); [lia|]. by eapply page_lines.
Qed.

Lemma written_content stmt line_order row :
  (fun w => (w_label w, w_value w)) <$> (_write_line_items stmt line_order row).1
  = omap (fun key => shown key <$> FinancialStatement.line_items stmt !! key)
         (order_keys line_order).
Proof.
  revert row. unfold order_keys.
  induction line_order as [|[[key|] sub] rest IH]; intros row; simpl; [done| |by apply IH].
  destruct (FinancialStatement.line_items stmt !! key) as [item|]; simpl; [|by apply IH].
  specialize (IH (row + 1)).
  destruct (_write_line_items stmt rest (row + 1)) as [ws next].
  cbn [fst] in *. rewrite fmap_cons. f_equal. exact IH.
Qed.

Lemma lines_app rows rows' : lines (rows ++ rows') = lines rows ++ lines rows'.
Proof. apply omap_app. Qed.

Lemma lines_Line ws : lines (Line <$> ws) = ws.
Proof. unfold lines. induction ws as [|w ws IH]; [done|]. rewrite fmap_cons. cbn [omap list_omap]. by rewrite IH. Qed.

Section Shown.
Context {A : Type}.

(** Looking up each key of a list without duplicates that covers the map
    gives the entries of the map, each once. *)
Lemma lookups_are_the_map (m : gmap string A) (keys : list string) :
  NoDup keys ->
  (forall k, is_Some (m !! k) -> k ∈ keys) ->
  omap (fun k => pair k <$> m !! k) keys ≡ₚ map_to_list m.
Proof.
  intros Hnd Hdom. apply NoDup_Permutation.
  - clear Hdom. induction Hnd as [|k keys Hk Hnd IH]; simpl; [constructor|].
    destruct (m !! k) as [x|]; simpl; [|done].
    constructor; [|done].
    intros (k' & Hk' & Heq)%list_elem_of_omap.
    destruct (m !! k'); simpl in Heq; [|done]. by injection Heq as -> ->.
  - apply NoDup_map_to_list.
  - intros [k x]. rewrite list_elem_of_omap, elem_of_map_to_list. split.
    + intros (k' & Hk' & Heq). destruct (m !! k') eqn:Hm; simpl in Heq; [|done].
      by injection Heq as -> ->.
    + intros Hm. exists k. split; [by apply Hdom|]. by rewrite Hm.
Qed.
End Shown.

Lemma shown_lookups (m : gmap string LineItem.t) (keys : list string) :
  omap (fun key => shown key <$> m !! key) keys
  = uncurry shown <$> omap (fun k => pair k <$> m !! k) keys.
Proof.
  induction keys as [|k keys IH]; [done|].
  change (omap (fun key => shown key <$> m !! key) (k :: keys))
    with (match shown k <$> m !! k with
          | Some y => y :: omap (fun key => shown key <$> m !! key) keys
          | None => omap (fun key => shown key <$> m !! key) keys
          end).
  change (omap (fun k => pair k <$> m !! k) (k :: keys))
    with (match pair k <$> m !! k with
          | Some y => y :: omap (fun k => pair k <$> m !! k) keys
          | None => omap (fun k => pair k <$> m !! k) keys
          end).
  rewrite IH. by destruct (m !! k).
Qed.

Lemma written_shown stmt line_order row ws next :
  _write_line_items stmt line_order row = (ws, next) ->
  (fun w => (w_label w, w_value w)) <$> ws
  = omap (fun key => shown key <$> FinancialStatement.line_items stmt !! key)
         (order_keys line_order).
Proof.
  intros Heq. pose proof (written_content stmt line_order row) as H.
  by rewrite Heq in H.
Qed.

Lemma sheet_lines stmt :
  let look keys :=
    omap (fun key => shown key <$> FinancialStatement.line_items stmt !! key) keys in
  shown_lines (_write_income_statement stmt) = look income_keys
  /\ shown_lines (_write_balance_sheet stmt) = look balance_keys
  /\ shown_lines (_write_cash_flow stmt) = look cash_flow_keys.
Proof.
  intros look. unfold shown_lines. split_and!.
  - unfold _write_income_statement. cbv zeta.
    destruct (_write_line_items stmt income_line_order _) as [ws n1] eqn:H1.
    rewrite lines_app, lines_Line. by apply written_shown in H1.
  - unfold _write_balance_sheet, balance_keys. cbv zeta.
    destruct (_write_line_items stmt assets_order _) as [w1 n1] eqn:H1.
    destruct (_write_line_items stmt liabilities_order _) as [w2 n2] eqn:H2.
    destruct (_write_line_items stmt equity_order _) as [w3 n3] eqn:H3.
    rewrite !lines_app, !lines_Line. cbn [lines omap list_omap app column_headers].
    apply written_shown in H1, H2, H3.
    unfold look. by rewrite !fmap_app, !omap_app, H1, H2, H3.
  - unfold _write_cash_flow, cash_flow_keys. cbv zeta.
    destruct (_write_line_items stmt operating_order _) as [w1 n1] eqn:H1.
    destruct (_write_line_items stmt investing_order _) as [w2 n2] eqn:H2.
    destruct (_write_line_items stmt financing_order _) as [w3 n3] eqn:H3.
    destruct (_write_line_items stmt net_change_order _) as [w4 n4] eqn:H4.
    rewrite !lines_app, !lines_Line. cbn [lines omap list_omap app column_headers].
    apply written_shown in H1, H2, H3, H4.
    unfold look. by rewrite !fmap_app, !omap_app, H1, H2, H3, H4.
Qed.

(** The line orders of the three sheets hold no key twice, and hold every
    key of the table of their statement. *)
Lemma sheets_ask_for_the_tables :
  (NoDup income_keys /\ INCOME_STATEMENT_TAGS.*1 ⊆ income_keys)
  /\ (NoDup balance_keys /\ BALANCE_SHEET_TAGS.*1 ⊆ balance_keys)
  /\ (NoDup cash_flow_keys /\ CASH_FLOW_TAGS.*1 ⊆ cash_flow_keys).
Proof.
  split_and!; apply (bool_decide_unpack _); vm_compute; reflexivity.
Qed.

Lemma assembled_keys idx pe ps fy fp form table stmt0 stmt key :
  FinancialStatement.line_items stmt0 = ∅ ->
  assemble idx table pe ps fy fp form stmt0 = Ok stmt ->
  is_Some (FinancialStatement.line_items stmt !! key) -> key ∈ table.*1.
Proof.
  intros H0 H Hs. destruct (decide (key ∈ table.*1)) as [|Hout]; [done|].
  rewrite (assemble_other idx pe ps fy fp form table stmt0 stmt key Hout H), H0 in Hs.
  rewrite lookup_empty in Hs. by destruct Hs.
Qed.

Lemma lookups_show_the_statement (stmt : FinancialStatement.t) (keys table_keys : list string) :
  NoDup keys -> table_keys ⊆ keys ->
  (forall key, is_Some (FinancialStatement.line_items stmt !! key) -> key ∈ table_keys) ->
  omap (fun key => shown key <$> FinancialStatement.line_items stmt !! key) keys
  ≡ₚ uncurry shown <$> map_to_list (FinancialStatement.line_items stmt).
Proof.
  intros Hnd Hsub Hdom. rewrite shown_lookups.
  apply fmap_Permutation, lookups_are_the_map; [done|].
  intros k Hk. by apply Hsub, Hdom.
Qed.

Lemma extracted_keys idx pe ps fy fp form :
  (forall stmt key, extract_income_statement idx pe ps fy fp form = Ok stmt ->
     is_Some (FinancialStatement.line_items stmt !! key) ->
     key ∈ INCOME_STATEMENT_TAGS.*1)
  /\ (forall stmt key, extract_balance_sheet idx pe fy fp form = Ok stmt ->
     is_Some (FinancialStatement.line_items stmt !! key) ->
     key ∈ BALANCE_SHEET_TAGS.*1)
  /\ (forall stmt key, extract_cash_flow idx pe ps fy fp form = Ok stmt ->
     is_Some (FinancialStatement.line_items stmt !! key) ->
     key ∈ CASH_FLOW_TAGS.*1).
Proof.
  unfold extract_income_statement, extract_balance_sheet, extract_cash_flow.
  split_and!; intros stmt key H Hs.
  - by apply (assembled_keys idx pe (Some ps) fy fp form INCOME_STATEMENT_TAGS
                (empty_statement INCOME_STATEMENT pe (Some ps) fy fp) stmt key).
  - by apply (assembled_keys idx pe None fy fp form BALANCE_SHEET_TAGS
                (empty_statement BALANCE_SHEET pe None fy fp) stmt key).
  - by apply (assembled_keys idx pe (Some ps) fy fp form CASH_FLOW_TAGS
                (empty_statement CASH_FLOW pe (Some ps) fy fp) stmt key).
Qed.

(** Each line item is shown once. For the statement an assembler returns,
    the statement lines of its sheet show, up to their order, exactly the
    line items of the statement, each with its label and its value cell:
    the line orders of the exporter name every key of the tables of
    [mappings.py], and none twice. *)
Theorem sheets_show_each_line_item_once
    (idx : gmap string (list Fact)) (pe ps : date) (fy : Z) (fp form : string) :
  (forall stmt, extract_income_statement idx pe ps fy fp form = Ok stmt ->
     shown_lines (_write_income_statement stmt)
     ≡ₚ uncurry shown <$> map_to_list (FinancialStatement.line_items stmt))
  /\ (forall stmt, extract_balance_sheet idx pe fy fp form = Ok stmt ->
     shown_lines (_write_balance_sheet stmt)
     ≡ₚ uncurry shown <$> map_to_list (FinancialStatement.line_items stmt))
  /\ (forall stmt, extract_cash_flow idx pe ps fy fp form = Ok stmt ->
     shown_lines (_write_cash_flow stmt)
     ≡ₚ uncurry shown <$> map_to_list (FinancialStatement.line_items stmt)).
Proof.
  destruct sheets_ask_for_the_tables as ((N1 & S1) & (N2 & S2) & (N3 & S3)).
  destruct (extracted_keys idx pe ps fy fp form) as (K1 & K2 & K3).
  split_and!; intros stmt H; destruct (sheet_lines stmt) as (L1 & L2 & L3).
  - rewrite L1.
    exact (lookups_show_the_statement stmt income_keys _ N1 S1 (fun key => K1 stmt key H)).
  - rewrite L2.
    exact (lookups_show_the_statement stmt balance_keys _ N2 S2 (fun key => K2 stmt key H)).
  - rewrite L3.
    exact (lookups_show_the_statement stmt cash_flow_keys _ N3 S3 (fun key => K3 stmt key H)).
Qed.

(** The sheets of the workbook. [export] saves the sheets of the parts
    the filing has, in the order income statement, balance sheet, cash
    flow, segments, each with the rows of its writer; the default sheet
    stays only when the filing has none of the four parts. *)
Theorem workbook_has_the_sheets_of_the_parts (parsed_filing : ParsedFiling.t) :
  export parsed_filing
  = match sheets_of_parts parsed_filing with
    | [] => [("Sheet", [])]
    | sheets => sheets
    end.
Proof.
  unfold export, create_sheet, sheets_of_parts, sheet_of.
  destruct (ParsedFiling.income_statement parsed_filing),
    (ParsedFiling.balance_sheet parsed_filing),
    (ParsedFiling.cash_flow_statement parsed_filing),
    (ParsedFiling.segment_data parsed_filing); reflexivity.
Qed.

(** The segments sheet is blank. [extract_segments] finds no segment,
    whatever the period, so that [_write_segments] writes no row below the
    title block of the sheet. *)
Theorem segments_sheet_stays_empty (pe ps : date) (fy : Z) (fp : string) :
  _write_segments (Segments.extract_segments pe ps fy fp) = [].
Proof. reflexivity. Qed.
